(** * tauon-now-playing: a shallow embedding of the poller, the colour and
    text helpers, the SVG card renderer and the Deploy API server.

    Conventions of the embedding.
    - A JavaScript [number] is an IEEE 754 binary64 value: Rocq's primitive
      [float], whose [+ - * /] and comparisons round exactly as the
      JavaScript operators do.  [===] on numbers is [PrimFloat.eqb].
    - A JavaScript string is a sequence of UTF-16 code units; the model uses
      [string], i.e. code units below 256.
    - [T | null] (and an optional field) is [option T].
    - What the platform provides and the repository does not define
      (number to string conversion, [Math.sin], the JSON parser, the files
      of themes and fonts, the key-value store, the network) is a
      parameter of the function that uses it.
    - A function that may throw returns an [Outcome].  The server hands
      the stored value to the renderer unchecked: [Svg] is the renderer
      on the values of its declared type, [Runtime] the renderer on any
      JSON value, and the two agree on the declared type. *)

From Stdlib Require Import ZArith String Ascii List Bool Floats Lia.
Import ListNotations.

Set Warnings "-inexact-float".

Local Open Scope string_scope.
Local Open Scope list_scope.

(** ** JavaScript primitives used by the sources *)

Module Js.

(** Truthiness of a [string | null | undefined] operand of [||] and [&&]:
    absent and empty strings are falsy. *)
Definition truthy (s : option string) : bool :=
  match s with
  | Some (String _ _) => true
  | _ => false
  end.

(** [a || b] on possibly absent strings. *)
Definition or (a b : option string) : option string :=
  if truthy a then a else b.

(** [a || "literal"]. *)
Definition orLit (a : option string) (d : string) : string :=
  match a with
  | Some (String c r) => String c r
  | _ => d
  end.

(** [x || 0] on a possibly absent number: [undefined], [NaN] and both
    zeros are falsy. *)
Definition numOrZero (x : option float) : float :=
  match x with
  | Some v =>
      if PrimFloat.eqb v 0%float then 0%float
      else if PrimFloat.eqb v v then v else 0%float
  | None => 0%float
  end.

(** White space of [String.prototype.trim] among the code units below
    256: TAB, LF, VT, FF, CR, SP and NBSP. *)
Definition isWhite (c : ascii) : bool :=
  let n := nat_of_ascii c in
  (((9 <=? n) && (n <=? 13)) || (n =? 32) || (n =? 160))%nat.

Fixpoint trimStart (s : string) : string :=
  match s with
  | String c r => if isWhite c then trimStart r else s
  | EmptyString => EmptyString
  end.

(** Drops trailing white space: a character is kept when something
    non-white follows it or it is itself non-white. *)
Fixpoint trimEnd (s : string) : string :=
  match s with
  | String c r =>
      match trimEnd r with
      | EmptyString =>
          if isWhite c then EmptyString else String c EmptyString
      | r' => String c r'
      end
  | EmptyString => EmptyString
  end.

Definition trim (s : string) : string := trimEnd (trimStart s).

(** [a === b] on [string | null]. *)
Definition eqOptString (a b : option string) : bool :=
  match a, b with
  | Some x, Some y => String.eqb x y
  | None, None => true
  | _, _ => false
  end.

(** [a !== b] on [number | null]: IEEE equality on two numbers (so a NaN
    differs from itself), [null] equal to [null] only. *)
Definition neqOptNumber (a b : option float) : bool :=
  match a, b with
  | Some x, Some y => negb (PrimFloat.eqb x y)
  | None, None => false
  | _, _ => true
  end.

(** *** Numbers *)

Definition isNaN (x : float) : bool := negb (PrimFloat.eqb x x).

Definition isNegZero (x : float) : bool :=
  match Prim2SF x with
  | S754_zero true => true
  | _ => false
  end.

(** The number nearest to an integer (exact below 2^53). *)
Definition ofZ (z : Z) : float :=
  SF2Prim (binary_normalize prec emax z 0 false).

Definition ofNat (n : nat) : float := ofZ (Z.of_nat n).

(** [Math.max] and [Math.min] of two arguments: NaN is contagious and
    [-0] is below [+0]. *)
Definition max (a b : float) : float :=
  if isNaN a then a
  else if isNaN b then b
  else if PrimFloat.ltb a b then b
  else if PrimFloat.ltb b a then a
  else if isNegZero a then b
  else a.

Definition min (a b : float) : float :=
  if isNaN a then a
  else if isNaN b then b
  else if PrimFloat.ltb a b then a
  else if PrimFloat.ltb b a then b
  else if isNegZero a then a
  else b.

(** [Math.floor]: a finite non-integer [(-1)^s * m * 2^e] has [e < 0]
    and magnitude below 2^52, so its floor is computed on integers. *)
Definition floor (x : float) : float :=
  match Prim2SF x with
  | S754_finite s m e =>
      if (0 <=? e)%Z then x
      else
        let d := (2 ^ (- e))%Z in
        let q := (Z.pos m / d)%Z in
        let r := (Z.pos m mod d)%Z in
        if s then ofZ (- (if (r =? 0)%Z then q else q + 1))%Z
        else ofZ q
  | _ => x
  end.

(** [Math.round]: the integer nearest to [x], a tie going up; a result
    of zero keeps the sign of [x]. *)
Definition round (x : float) : float :=
  match Prim2SF x with
  | S754_finite s m e =>
      if (0 <=? e)%Z then x
      else
        let d := (2 ^ (- e))%Z in
        let n := (if s then Z.neg m else Z.pos m) in
        let z := ((2 * n + d) / (2 * d))%Z in
        if (z =? 0)%Z && s then PrimFloat.opp 0%float else ofZ z
  | _ => x
  end.

(** The end index of [text.substring(0, x)] for a text of [len] code
    units: [x] truncated to an integer (NaN is 0) and clamped to
    [0, len]. *)
Definition substringEnd (x : float) (len : nat) : nat :=
  match Prim2SF x with
  | S754_nan | S754_zero _ => 0%nat
  | S754_infinity s => if s then 0%nat else len
  | S754_finite s m e =>
      if s then 0%nat
      else
        let t :=
          (if (0 <=? e)%Z then Z.pos m * 2 ^ e
           else Z.pos m / 2 ^ (- e))%Z in
        Z.to_nat (Z.min t (Z.of_nat len))
  end.

(** *** Digits *)

Definition digit (d : Z) : ascii :=
  ascii_of_N (Z.to_N (if (d <? 10)%Z then 48 + d else 87 + d)%Z).

Fixpoint digits (radix : Z) (fuel : nat) (z : Z) (acc : string) : string :=
  match fuel with
  | O => acc
  | S fuel' =>
      let acc' := String (digit (z mod radix)%Z) acc in
      if (z <? radix)%Z then acc'
      else digits radix fuel' (z / radix)%Z acc'
  end.

(** The lowercase digits of a non-negative integer. *)
Definition natToString (radix z : Z) : string :=
  digits radix (S (Z.to_nat (Z.log2 z))) z EmptyString.

(** [Number.prototype.toString(radix)] on NaN, the infinities and the
    integral numbers.  The digits that the platform prints after a point
    for a number with a fractional part are outside the model, which
    prints the integer part. *)
Definition integralToString (radix : Z) (x : float) : string :=
  match Prim2SF x with
  | S754_nan => "NaN"
  | S754_zero _ => "0"
  | S754_infinity s => if s then "-Infinity" else "Infinity"
  | S754_finite s m e =>
      let t :=
        (if (0 <=? e)%Z then Z.pos m * 2 ^ e
         else Z.pos m / 2 ^ (- e))%Z in
      if s && negb (t =? 0)%Z then "-" ++ natToString radix t
      else natToString radix t
  end.

(** [x.toString(16)], for the callers of the sources: they pass
    [clamp(Math.round(_))], which is NaN or integral. *)
Definition toString16 (x : float) : string := integralToString 16 x.

(** [s.padStart(2, "0")]. *)
Definition padStart2 (s : string) : string :=
  match s with
  | EmptyString => "00"
  | String c EmptyString => String "0" (String c EmptyString)
  | _ => s
  end.

(** The value of a digit of radix 16, if the code unit is one. *)
Definition hexValue (c : ascii) : option Z :=
  let n := Z.of_nat (nat_of_ascii c) in
  if ((48 <=? n) && (n <=? 57))%Z then Some (n - 48)%Z
  else if ((97 <=? n) && (n <=? 102))%Z then Some (n - 87)%Z
  else if ((65 <=? n) && (n <=? 70))%Z then Some (n - 55)%Z
  else None.

(** The integer read from the longest prefix of digits, and whether
    there was a digit. *)
Fixpoint hexPrefix (s : string) (acc : Z) (seen : bool) : Z * bool :=
  match s with
  | String c r =>
      match hexValue c with
      | Some d => hexPrefix r (16 * acc + d)%Z true
      | None => (acc, seen)
      end
  | EmptyString => (acc, seen)
  end.

(** [parseInt(s, 16)]: leading white space, a sign, a [0x] or [0X]
    prefix, then the longest run of digits; NaN without a digit. *)
Definition parseInt16 (s : string) : float :=
  let s1 := trimStart s in
  let '(neg, s2) :=
    match s1 with
    | String "-" r => (true, r)
    | String "+" r => (false, r)
    | _ => (false, s1)
    end in
  let s3 :=
    match s2 with
    | String "0" (String "x" r) => r
    | String "0" (String "X" r) => r
    | _ => s2
    end in
  let '(v, seen) := hexPrefix s3 0%Z false in
  if negb seen then PrimFloat.nan
  else if neg then PrimFloat.opp (ofZ v)
  else ofZ v.

(** *** Strings *)

(** [s.replace(c, rep)] with a one-character string pattern: the first
    occurrence only. *)
Fixpoint replaceFirst (c : ascii) (rep : string) (s : string) : string :=
  match s with
  | String x r =>
      if Ascii.eqb x c then rep ++ r else String x (replaceFirst c rep r)
  | EmptyString => EmptyString
  end.

(** [s.replace(/c/g, rep)]: every occurrence. *)
Fixpoint replaceAll (c : ascii) (rep : string) (s : string) : string :=
  match s with
  | String x r =>
      if Ascii.eqb x c then rep ++ replaceAll c rep r
      else String x (replaceAll c rep r)
  | EmptyString => EmptyString
  end.

(** [s.toLowerCase()] on code units below 256: the Latin capitals. *)
Definition lowerChar (c : ascii) : ascii :=
  let n := nat_of_ascii c in
  if (((65 <=? n) && (n <=? 90))
      || ((192 <=? n) && (n <=? 222) && negb (n =? 215)))%nat
  then ascii_of_nat (n + 32)
  else c.

Fixpoint toLowerCase (s : string) : string :=
  match s with
  | String c r => String (lowerChar c) (toLowerCase r)
  | EmptyString => EmptyString
  end.

(** [s.split(sep)] with a one-character separator. *)
Fixpoint split (sep : ascii) (s : string) : list string :=
  match s with
  | EmptyString => [EmptyString]
  | String c r =>
      if Ascii.eqb c sep then EmptyString :: split sep r
      else
        match split sep r with
        | x :: xs => String c x :: xs
        | [] => [String c EmptyString]
        end
  end.

Fixpoint endsWith (s suffix : string) : bool :=
  String.eqb s suffix
  || match s with
     | String _ r => endsWith r suffix
     | EmptyString => false
     end.

(** The quotation mark and the line feed of a template literal. *)
Definition dq : string := String (ascii_of_nat 34) EmptyString.
Definition nl : string := String (ascii_of_nat 10) EmptyString.

(** A template literal: its chunks and interpolated values, in order. *)
Definition cat (l : list string) : string :=
  fold_right String.append EmptyString l.

(** [l.join(sep)]. *)
Fixpoint join (sep : string) (l : list string) : string :=
  match l with
  | [] => EmptyString
  | [x] => x
  | x :: r => x ++ sep ++ join sep r
  end.

End Js.

(** ** types.ts *)

Module TauonTrack.
Record t := mk {
  title : string;
  artist : string;
  album : string;
  album_artist : string;
  duration : float;
  id : float;
  position : float;
  path : string;
  album_id : float;
  has_lyrics : bool;
  track_number : string;
  can_download : bool
}.
End TauonTrack.

Module TauonStatus.
(** [status] is typed ["playing" | "paused" | "stopped"] but arrives from
    [response.json()] unchecked, and the code compares it as a string;
    [track] is read through [?.], so it may be absent. *)
Record t := mk {
  status : string;
  inc : float;
  shuffle : bool;
  repeat : bool;
  progress : float;
  auto_stop : bool;
  volume : float;
  playlist : string;
  playlist_length : float;
  id : float;
  title : string;
  artist : string;
  album : string;
  track : option TauonTrack.t;
  position : float;
  album_id : float
}.
End TauonStatus.

Module ColorPalette.
Record t := mk {
  dominant : string;
  accent : string;
  highlight : string
}.
End ColorPalette.

Module NowPlayingData.
(** [status] is typed ["playing" | "paused"]; the server stores what it
    is sent unchecked, and the renderer compares the field as a string. *)
Record t := mk {
  title : string;
  artist : string;
  album : string;
  albumArtist : string;
  trackNumber : string;
  duration : float;
  progress : float;
  status : string;
  artBase64 : option string;
  colors : option ColorPalette.t;
  updatedAt : float
}.
End NowPlayingData.

Module AlbumPosition.
Inductive t := Left | Right.
End AlbumPosition.

Module TextAlign.
Inductive t := Left | Center | Right.
End TextAlign.

Module SvgConfig.
Record t := mk {
  width : float;
  height : float;
  cardBackground : string;
  cardBorder : string;
  textPrimary : string;
  textSecondary : string;
  textMuted : string;
  albumSize : float;
  borderRadius : float;
  albumPosition : AlbumPosition.t;
  textAlign : TextAlign.t;
  showStatus : bool;
  showTitle : bool;
  showArtist : bool;
  showAlbum : bool;
  fontTitleFamily : string;
  fontBodyFamily : string;
  fontTitleFile : string;
  fontBodyFile : string;
  fontFallback : string;
  fontTitleDataUrl : option string;
  fontBodyDataUrl : option string;
  fontTitleFormat : option string;
  fontBodyFormat : option string
}.
End SvgConfig.

Definition defaultSvgConfig : SvgConfig.t :=
  {| SvgConfig.width := 800;
     SvgConfig.height := 200;
     SvgConfig.cardBackground := "#18181b";
     SvgConfig.cardBorder := "#27272a";
     SvgConfig.textPrimary := "#fafafa";
     SvgConfig.textSecondary := "#cbd5e1";
     SvgConfig.textMuted := "#94a3b8";
     SvgConfig.albumSize := 150;
     SvgConfig.borderRadius := 16;
     SvgConfig.albumPosition := AlbumPosition.Left;
     SvgConfig.textAlign := TextAlign.Left;
     SvgConfig.showStatus := true;
     SvgConfig.showTitle := true;
     SvgConfig.showArtist := true;
     SvgConfig.showAlbum := true;
     SvgConfig.fontTitleFamily := "DotGothic16";
     SvgConfig.fontBodyFamily := "Space Mono";
     SvgConfig.fontTitleFile := "DotGothic16-Regular.ttf";
     SvgConfig.fontBodyFile := "SpaceMono-Regular.ttf";
     SvgConfig.fontFallback := "'Segoe UI', sans-serif";
     SvgConfig.fontTitleDataUrl := None;
     SvgConfig.fontBodyDataUrl := None;
     SvgConfig.fontTitleFormat := None;
     SvgConfig.fontBodyFormat := None |}.

(** ** svg/colors.ts *)

Module Colors.

Record Rgb := mkRgb { r : float; g : float; b : float }.

Definition hexToRgb (hex : string) : Rgb :=
  let normalized := Js.replaceFirst "#" EmptyString hex in
  mkRgb (Js.parseInt16 (String.substring 0 2 normalized))
        (Js.parseInt16 (String.substring 2 2 normalized))
        (Js.parseInt16 (String.substring 4 2 normalized)).

Definition rgbToHex (r g b : float) : string :=
  Js.cat [ "#"; Js.padStart2 (Js.toString16 r);
           Js.padStart2 (Js.toString16 g);
           Js.padStart2 (Js.toString16 b) ].

Definition clamp (value : float) : float :=
  Js.max 0%float (Js.min 255%float value).

Definition mixColors (hexA hexB : string) (ratio : float) : string :=
  let a := hexToRgb hexA in
  let b := hexToRgb hexB in
  let r := clamp (Js.round (r a * (1 - ratio) + r b * ratio)%float) in
  let g := clamp (Js.round (g a * (1 - ratio) + g b * ratio)%float) in
  let bVal :=
    clamp (Js.round (Colors.b a * (1 - ratio) + Colors.b b * ratio)%float) in
  rgbToHex r g bVal.

End Colors.

(** ** svg/text.ts *)

Module Text.

Definition escapeXml (text : string) : string :=
  Js.replaceAll "'" "&apos;"
    (Js.replaceAll (ascii_of_nat 34) "&quot;"
       (Js.replaceAll ">" "&gt;"
          (Js.replaceAll "<" "&lt;"
             (Js.replaceAll "&" "&amp;" text)))).

Definition truncateText (text : string) (maxLength : float) : string :=
  if PrimFloat.leb (Js.ofNat (String.length text)) maxLength then text
  else
    String.substring 0
      (Js.substringEnd (maxLength - 3)%float (String.length text)) text
    ++ "...".

Definition estimateTextWidth (text : string) (fontSize : float) : float :=
  (Js.ofNat (String.length text) * (fontSize * 0.55))%float.

End Text.

(** ** svg/waves.ts *)

Module Waves.

(** ToInt32: the value modulo 2^32 read as a signed 32-bit integer. *)
Definition toInt32 (z : Z) : Z :=
  ((z + 2 ^ 31) mod 2 ^ 32 - 2 ^ 31)%Z.

(** The loop of [hashString]:
    [hash = ((hash << 5) - hash + input.charCodeAt(i)) | 0]. *)
Fixpoint hashLoop (input : string) (hash : Z) : Z :=
  match input with
  | String c r =>
      hashLoop r
        (toInt32 (toInt32 (Z.shiftl hash 5) - hash
                  + Z.of_nat (nat_of_ascii c)))%Z
  | EmptyString => hash
  end.

(** The hash is a 32-bit integer all along; its absolute value (at most
    2^31) is the number returned. *)
Definition hashString (input : string) : Z :=
  Z.abs (hashLoop input 0%Z).

Section WithPlatform.

(** [Math.sin], which the language leaves to the implementation, and
    the decimal [String(number)] of template literals. *)
Variable sin : float -> float.
Variable numToString : float -> string.

Definition seededRandom (index seed : float) : float :=
  let value := (sin (index * 12.9898 + seed) * 43758.5453)%float in
  (value - Js.floor value)%float.

Record Point := mkPoint { x : float; y : float }.

(** The [Q prev mid] segments of the loop [for i = 1 .. length - 2],
    run over the points from [prev] on. *)
Fixpoint quads (prev : Point) (rest : list Point) : string :=
  match rest with
  | current :: ((_ :: _) as rest') =>
      let midX := ((x prev + x current) / 2)%float in
      let midY := ((y prev + y current) / 2)%float in
      Js.cat [ " Q "; numToString (x prev); " "; numToString (y prev);
               " "; numToString midX; " "; numToString midY;
               quads current rest' ]
  | _ => EmptyString
  end.

(** [points] is 28 at both call sites.  With fewer than two points the
    source reads [values[0]] or [values[length - 2]] of a shorter array
    and throws; the model then reads a NaN point instead. *)
Definition generateWavePath (startX endX baseY height : float)
    (points : nat) (seed : float) : string :=
  let step := ((endX - startX) / (Js.ofNat points - 1))%float in
  let values :=
    map (fun i : nat =>
           let rand :=
             (seededRandom (Js.ofNat i) seed * 0.75
              + seededRandom (Js.ofNat i + 7) seed * 0.25)%float in
           mkPoint (startX + Js.ofNat i * step)%float
                   (baseY - rand * height)%float)
        (seq 0 points) in
  let nanPoint := mkPoint PrimFloat.nan PrimFloat.nan in
  let first := nth 0 values nanPoint in
  let last := nth (points - 1) values nanPoint in
  let secondLast := nth (points - 2) values nanPoint in
  Js.cat [ "M "; numToString (x first); " "; numToString (y first);
           quads first (tl values);
           " Q "; numToString (x secondLast); " ";
           numToString (y secondLast); " ";
           numToString (x last); " "; numToString (y last);
           " L "; numToString endX; " "; numToString baseY;
           " L "; numToString startX; " "; numToString baseY; " Z" ].

Definition generateWaveformLayer (color : string) (opacity : float)
    (startX endX baseY height seed duration : float) : string :=
  let pathA := generateWavePath startX endX baseY height 28 seed in
  let pathB :=
    generateWavePath startX endX baseY height 28 (seed + 2.5)%float in
  Js.cat [ "<path d="; Js.dq; pathA; Js.dq; " fill="; Js.dq; color; Js.dq;
           " opacity="; Js.dq; numToString opacity; Js.dq; ">"; Js.nl;
           "    <animate attributeName="; Js.dq; "d"; Js.dq;
           " values="; Js.dq; pathA; ";"; pathB; ";"; pathA; Js.dq;
           " dur="; Js.dq; numToString duration; "s"; Js.dq;
           " repeatCount="; Js.dq; "indefinite"; Js.dq; " />"; Js.nl;
           "  </path>" ].

End WithPlatform.

End Waves.

(** ** svg/icons.ts *)

Module Icons.

Section WithPlatform.

Variable numToString : float -> string.

Definition generateMusicNotePlaceholder (albumX albumY albumSize : float)
    (color : string) : string :=
  let scale := (albumSize / 100)%float in
  let centerX := (albumX + albumSize / 2)%float in
  let centerY := (albumY + albumSize / 2)%float in
  let noteX := (centerX - 25 * scale)%float in
  let noteY := (centerY - 30 * scale)%float in
  Js.cat [ "<g transform="; Js.dq; "translate("; numToString noteX; ", ";
           numToString noteY; ") scale("; numToString scale; ")"; Js.dq;
           " opacity="; Js.dq; "0.8"; Js.dq; ">"; Js.nl;
           "    <!-- Music note (beamed eighth notes) -->"; Js.nl;
           "    <path d="; Js.dq;
           "M20 60 L20 15 L50 5 L50 50 C50 56 45 60 38 60 C30 60 25 56 25 50 C25 43 30 40 38 40 C42 40 45 41 47 43 L47 20 L23 28 L23 60 C23 66 18 70 10 70 C3 70 0 66 0 60 C0 53 5 50 10 50 C14 50 17 51 20 53 Z";
           Js.dq; " fill="; Js.dq; color; Js.dq; "/>"; Js.nl;
           "  </g>" ].

End WithPlatform.

End Icons.

(** ** svg/index.ts *)

Module Svg.

Section GenerateNowPlayingSvg.

(** The platform: [Math.sin], the decimal conversion of the numbers a
    template literal interpolates, and the value of [Date.now()]. *)
Variable sin : float -> float.
Variable numToString : float -> string.
Variable now : float.

(** The arguments of [generateNowPlayingSvg]. *)
Variable data : option NowPlayingData.t.
Variable config : SvgConfig.t.

Local Open Scope float_scope.

Definition isStale : bool :=
  match data with
  | Some d => PrimFloat.ltb (5 * 60 * 1000)
                            (now - NowPlayingData.updatedAt d)
  | None => true
  end.

Definition isPlaying : bool :=
  match data with
  | Some d => String.eqb (NowPlayingData.status d) "playing"
              && negb isStale
  | None => false
  end.

Definition isPaused : bool :=
  match data with
  | Some d => String.eqb (NowPlayingData.status d) "paused"
              && negb isStale
  | None => false
  end.

Definition hasTrack : bool :=
  match data with
  | Some _ => isPlaying || isPaused || isStale
  | None => false
  end.

(** [data?.colors?.f]. *)
Definition colorsField (f : ColorPalette.t -> string) : option string :=
  match data with
  | Some d => option_map f (NowPlayingData.colors d)
  | None => None
  end.

Definition dominantColor : string :=
  Js.orLit (colorsField ColorPalette.dominant)
           (SvgConfig.cardBorder config).
Definition accentColor : string :=
  Js.orLit (colorsField ColorPalette.accent) "#22c55e".
Definition baseDark : string :=
  Colors.mixColors dominantColor "#050505" 0.82.
Definition midDark : string :=
  Colors.mixColors dominantColor "#0d0f12" 0.7.
Definition highlight : string :=
  Js.orLit (colorsField ColorPalette.highlight)
           (Colors.mixColors accentColor "#ffffff" 0.45).

Definition width : float := SvgConfig.width config.
Definition height : float := SvgConfig.height config.
Definition albumSize : float := SvgConfig.albumSize config.
Definition padding : float := 26.
(** [config.albumPosition || "left"] and [config.textAlign || "left"]:
    a value of either type is a non-empty string. *)
Definition albumPosition : AlbumPosition.t :=
  SvgConfig.albumPosition config.
Definition albumX : float :=
  match albumPosition with
  | AlbumPosition.Right => width - padding - albumSize
  | AlbumPosition.Left => padding
  end.
Definition albumY : float := (height - albumSize) / 2.
Definition textAlign : TextAlign.t := SvgConfig.textAlign config.
Definition textAreaLeft : float :=
  match albumPosition with
  | AlbumPosition.Right => padding
  | AlbumPosition.Left => albumX + albumSize + 22
  end.
Definition textAreaRight : float :=
  match albumPosition with
  | AlbumPosition.Right => albumX - 22
  | AlbumPosition.Left => width - padding
  end.
Definition textAreaWidth : float :=
  Js.max 0 (textAreaRight - textAreaLeft).
Definition textAnchor : string :=
  match textAlign with
  | TextAlign.Right => "end"
  | TextAlign.Center => "middle"
  | TextAlign.Left => "start"
  end.
Definition textX : float :=
  match textAlign with
  | TextAlign.Right => textAreaRight
  | TextAlign.Center => textAreaLeft + textAreaWidth / 2
  | TextAlign.Left => textAreaLeft
  end.
Definition barsStartX : float := 2.
Definition barsEndX : float := width - 2.
Definition waveBaseY : float := height - 2.
Definition waveHeight : float := 170.
Definition titleFontSize : float := 24.
Definition artistFontSize : float := 15.
Definition albumFontSize : float := 13.
Definition titleY : float := albumY + 40.
Definition artistY : float := albumY + 76.
Definition albumYPos : float := albumY + 90.
Definition titleClipWidth : float := textAreaWidth.
Definition titleText : string :=
  Js.orLit (option_map NowPlayingData.title data) EmptyString.
Definition titleSeed : float :=
  Js.ofZ (Waves.hashString (Js.orLit (Some titleText) "tauon")).
Definition titleTextWidth : float :=
  Text.estimateTextWidth titleText titleFontSize.
Definition titleGap : float := 36.
Definition titleScrollDistance : float :=
  Js.max (titleTextWidth + titleGap) (titleClipWidth + titleGap).
Definition titleScrollNeeded : bool :=
  negb (match textAlign with TextAlign.Center => true | _ => false end)
  && PrimFloat.ltb 0 titleClipWidth
  && PrimFloat.ltb titleClipWidth
                   (Text.estimateTextWidth titleText titleFontSize).
Definition titleMaxChars : float :=
  Js.max 10 (Js.floor (textAreaWidth / (titleFontSize * 0.55))).
Definition artistMaxChars : float :=
  Js.max 10 (Js.floor (textAreaWidth / (artistFontSize * 0.55))).
Definition albumMaxChars : float :=
  Js.max 10 (Js.floor (textAreaWidth / (albumFontSize * 0.55))).
Definition fontFallback : string :=
  Js.orLit (Some (SvgConfig.fontFallback config)) "sans-serif".
Definition fontTitleFamily : string :=
  if Js.truthy (Some (SvgConfig.fontTitleFamily config))
  then Js.cat [ "'"; SvgConfig.fontTitleFamily config; "', ";
                fontFallback ]
  else fontFallback.
Definition fontBodyFamily : string :=
  if Js.truthy (Some (SvgConfig.fontBodyFamily config))
  then Js.cat [ "'"; SvgConfig.fontBodyFamily config; "', ";
                fontFallback ]
  else fontFallback.

Definition titleFontFace : string :=
  Js.cat [ "@font-face {"; Js.nl; "  "; "font-family: '";
           (SvgConfig.fontTitleFamily config); "';"; Js.nl; "  ";
           "src: url(";
           (Js.orLit (SvgConfig.fontTitleDataUrl config) EmptyString);
           ") format('";
           (Js.orLit (SvgConfig.fontTitleFormat config) "truetype");
           "');"; Js.nl; "  "; "font-weight: 400;"; Js.nl; "  ";
           "font-style: normal;"; Js.nl; "  "; "font-display: swap;";
           Js.nl; "}" ].

Definition bodyFontFace : string :=
  Js.cat [ "@font-face {"; Js.nl; "  "; "font-family: '";
           (SvgConfig.fontBodyFamily config); "';"; Js.nl; "  ";
           "src: url(";
           (Js.orLit (SvgConfig.fontBodyDataUrl config) EmptyString);
           ") format('";
           (Js.orLit (SvgConfig.fontBodyFormat config) "truetype"); "');";
           Js.nl; "  "; "font-weight: 400;"; Js.nl; "  ";
           "font-style: normal;"; Js.nl; "  "; "font-display: swap;";
           Js.nl; "}" ].

(** [[a, b].filter(Boolean).join("\n")]. *)
Definition fontFaces : string :=
  Js.join Js.nl
    (filter (fun s => Js.truthy (Some s))
       [ if Js.truthy (SvgConfig.fontTitleDataUrl config)
            && Js.truthy (Some (SvgConfig.fontTitleFamily config))
         then titleFontFace else EmptyString;
         if Js.truthy (SvgConfig.fontBodyDataUrl config)
            && Js.truthy (Some (SvgConfig.fontBodyFamily config))
         then bodyFontFace else EmptyString ]).
Definition styleBlock : string :=
  if Js.truthy (Some fontFaces)
  then Js.cat [ "<style>"; fontFaces; "</style>" ]
  else EmptyString.

(** The third waveform layer, of the playing state. *)
Definition playingWave : string :=
  Js.cat [ "<g fill="; Js.dq; "url(#barsFade)"; Js.dq; " opacity="; Js.dq;
           "0.45"; Js.dq; " clip-path="; Js.dq; "url(#cardClip)"; Js.dq;
           ">";
           (Waves.generateWaveformLayer sin numToString highlight
             0.65%float barsStartX barsEndX waveBaseY (waveHeight *
             0.85)%float (titleSeed * 0.08 + 8.2)%float 5%float); "</g>" ].

(** The templates of the text lines, innermost first. *)
Definition statusPill : string :=
  Js.cat [ Js.nl; "    "; "<!-- Status pill -->"; Js.nl; "    ";
           "<text x="; Js.dq; (numToString textX); Js.dq; " y="; Js.dq;
           (numToString (albumY + 18)%float); Js.dq; " fill="; Js.dq;
           highlight; Js.dq; " font-size="; Js.dq; "12"; Js.dq;
           " font-weight="; Js.dq; "700"; Js.dq; " letter-spacing=";
           Js.dq; "0.12em"; Js.dq; " filter="; Js.dq; "url(#textGlow)";
           Js.dq; " text-anchor="; Js.dq; textAnchor; Js.dq;
           " font-family="; Js.dq; fontBodyFamily; Js.dq; ">"; Js.nl;
           "      ";
           (if isStale then "LAST PLAYED" else if isPlaying then
             "NOW PLAYING" else "PAUSED"); Js.nl; "    "; "</text>";
           Js.nl; "    " ].

Definition titleScrolling (d : NowPlayingData.t) : string :=
  Js.cat [ Js.nl; "    "; "<g clip-path="; Js.dq; "url(#titleClip)";
           Js.dq; ">"; Js.nl; "      "; "<g>"; Js.nl; "        ";
           "<text x="; Js.dq; (numToString textAreaLeft); Js.dq; " y=";
           Js.dq; (numToString titleY); Js.dq; " fill="; Js.dq;
           (SvgConfig.textPrimary config); Js.dq; " font-size="; Js.dq;
           (numToString titleFontSize); Js.dq; " font-weight="; Js.dq;
           "600"; Js.dq; " filter="; Js.dq; "url(#textGlow)"; Js.dq;
           " font-family="; Js.dq; fontTitleFamily; Js.dq; ">"; Js.nl;
           "          "; (Text.escapeXml (NowPlayingData.title d)); Js.nl;
           "        "; "</text>"; Js.nl; "        "; "<text x="; Js.dq;
           (numToString (textAreaLeft + titleScrollDistance)%float);
           Js.dq; " y="; Js.dq; (numToString titleY); Js.dq; " fill=";
           Js.dq; (SvgConfig.textPrimary config); Js.dq; " font-size=";
           Js.dq; (numToString titleFontSize); Js.dq; " font-weight=";
           Js.dq; "600"; Js.dq; " filter="; Js.dq; "url(#textGlow)";
           Js.dq; " font-family="; Js.dq; fontTitleFamily; Js.dq; ">";
           Js.nl; "          "; (Text.escapeXml (NowPlayingData.title d));
           Js.nl; "        "; "</text>"; Js.nl; "        ";
           "<animateTransform attributeName="; Js.dq; "transform"; Js.dq;
           " type="; Js.dq; "translate"; Js.dq; " from="; Js.dq; "0 0";
           Js.dq; " to="; Js.dq; "-"; (numToString titleScrollDistance);
           " 0"; Js.dq; " dur="; Js.dq; "15s"; Js.dq; " repeatCount=";
           Js.dq; "indefinite"; Js.dq; " />"; Js.nl; "      "; "</g>";
           Js.nl; "    "; "</g>"; Js.nl; "    " ].

Definition titleStatic (d : NowPlayingData.t) : string :=
  Js.cat [ Js.nl; "    "; "<text x="; Js.dq; (numToString textX); Js.dq;
           " y="; Js.dq; (numToString titleY); Js.dq; " fill="; Js.dq;
           (SvgConfig.textPrimary config); Js.dq; " font-size="; Js.dq;
           (numToString titleFontSize); Js.dq; " font-weight="; Js.dq;
           "600"; Js.dq; " text-overflow="; Js.dq; "ellipsis"; Js.dq;
           " filter="; Js.dq; "url(#textGlow)"; Js.dq; " text-anchor=";
           Js.dq; textAnchor; Js.dq; " font-family="; Js.dq;
           fontTitleFamily; Js.dq; ">"; Js.nl; "      ";
           (Text.escapeXml (Text.truncateText (NowPlayingData.title d)
             titleMaxChars)); Js.nl; "    "; "</text>"; Js.nl; "    " ].

Definition titleBlock (d : NowPlayingData.t) : string :=
  Js.cat [ Js.nl; "    "; "<!-- Title -->"; Js.nl; "    ";
           (if titleScrollNeeded then titleScrolling d else titleStatic
             d); Js.nl; "    " ].

Definition artistLine (d : NowPlayingData.t) : string :=
  Js.cat [ Js.nl; "    "; "<!-- Artist -->"; Js.nl; "    "; "<text x=";
           Js.dq; (numToString textX); Js.dq; " y="; Js.dq;
           (numToString artistY); Js.dq; " fill="; Js.dq;
           (SvgConfig.textSecondary config); Js.dq; " font-size="; Js.dq;
           (numToString artistFontSize); Js.dq; " text-anchor="; Js.dq;
           textAnchor; Js.dq; " font-family="; Js.dq; fontBodyFamily;
           Js.dq; ">"; Js.nl; "      ";
           (Text.escapeXml (Text.truncateText (NowPlayingData.artist d)
             artistMaxChars)); Js.nl; "    "; "</text>"; Js.nl; "    " ].

Definition albumLine (d : NowPlayingData.t) : string :=
  Js.cat [ Js.nl; "    "; "<!-- Album and status -->"; Js.nl; "    ";
           "<text x="; Js.dq; (numToString textX); Js.dq; " y="; Js.dq;
           (numToString albumYPos); Js.dq; " fill="; Js.dq;
           (SvgConfig.textMuted config); Js.dq; " font-size="; Js.dq;
           (numToString albumFontSize); Js.dq; " text-anchor="; Js.dq;
           textAnchor; Js.dq; " font-family="; Js.dq; fontBodyFamily;
           Js.dq; ">"; Js.nl; "      ";
           (Text.escapeXml (Text.truncateText (NowPlayingData.album d)
             albumMaxChars)); Js.nl; "    "; "</text>"; Js.nl; "    " ].

(** The text of a track: the four lines, each under its toggle. *)
Definition trackText (d : NowPlayingData.t) : string :=
  Js.cat [ Js.nl; "    ";
           (if SvgConfig.showStatus config then statusPill else
             EmptyString); Js.nl; Js.nl; "    ";
           (if SvgConfig.showTitle config then titleBlock d else
             EmptyString); Js.nl; Js.nl; "    ";
           (if SvgConfig.showArtist config then artistLine d else
             EmptyString); Js.nl; Js.nl; "    ";
           (if SvgConfig.showAlbum config then albumLine d else
             EmptyString); Js.nl; "    " ].

(** The text shown without a track. *)
Definition nothingPlaying : string :=
  Js.cat [ Js.nl; "    "; "<!-- Not playing message -->"; Js.nl; "    ";
           "<text x="; Js.dq; (numToString textX); Js.dq; " y="; Js.dq;
           (numToString (height / 2)%float); Js.dq; " fill="; Js.dq;
           (SvgConfig.textMuted config); Js.dq; " font-size="; Js.dq;
           "14"; Js.dq; " dominant-baseline="; Js.dq; "middle"; Js.dq;
           " text-anchor="; Js.dq; textAnchor; Js.dq; " font-family=";
           Js.dq; fontBodyFamily; Js.dq; ">"; Js.nl; "      ";
           "Nothing playing right now"; Js.nl; "    "; "</text>"; Js.nl;
           "    " ].

(** [hasTrack ? ... : ...]: with a track the snapshot is not null. *)
Definition textContent : string :=
  match data with
  | Some d => if hasTrack then trackText d else nothingPlaying
  | None => nothingPlaying
  end.

(** The embedded art and its frame. *)
Definition albumArtImage (artBase64 : string) : string :=
  Js.cat [ Js.nl; "  "; "<!-- Album art with rounded corners -->"; Js.nl;
           "  "; "<image x="; Js.dq; (numToString albumX); Js.dq; " y=";
           Js.dq; (numToString albumY); Js.dq; " width="; Js.dq;
           (numToString albumSize); Js.dq; " height="; Js.dq;
           (numToString albumSize); Js.dq; " xlink:href="; Js.dq;
           "data:image/jpeg;base64,"; (artBase64); Js.dq; " clip-path=";
           Js.dq; "url(#albumClip)"; Js.dq; " preserveAspectRatio=";
           Js.dq; "xMidYMid slice"; Js.dq; " filter="; Js.dq;
           "url(#glow)"; Js.dq; " />"; Js.nl; "  "; "<rect x="; Js.dq;
           (numToString albumX); Js.dq; " y="; Js.dq;
           (numToString albumY); Js.dq; " width="; Js.dq;
           (numToString albumSize); Js.dq; " height="; Js.dq;
           (numToString albumSize); Js.dq; " rx="; Js.dq;
           (numToString (SvgConfig.borderRadius config)); Js.dq; " fill=";
           Js.dq; "none"; Js.dq; " stroke="; Js.dq; highlight; Js.dq;
           " stroke-opacity="; Js.dq; "0.75"; Js.dq; " stroke-width=";
           Js.dq; "3"; Js.dq; " filter="; Js.dq; "url(#textGlow)"; Js.dq;
           " />"; Js.nl; "  " ].

(** [hasTrack && data.artBase64 ? ... : generateMusicNotePlaceholder(...)]:
    an absent or empty payload is falsy. *)
Definition albumArt : string :=
  match data with
  | Some d =>
      if hasTrack && Js.truthy (NowPlayingData.artBase64 d)
      then albumArtImage
             (Js.orLit (NowPlayingData.artBase64 d) EmptyString)
      else Icons.generateMusicNotePlaceholder numToString
             albumX albumY albumSize highlight
  | None =>
      Icons.generateMusicNotePlaceholder numToString
        albumX albumY albumSize highlight
  end.

Definition generateNowPlayingSvg : string :=
  Js.cat [ "<?xml version="; Js.dq; "1.0"; Js.dq; " encoding="; Js.dq;
           "UTF-8"; Js.dq; "?>"; Js.nl; "<svg width="; Js.dq;
           (numToString width); Js.dq; " height="; Js.dq;
           (numToString height); Js.dq; " viewBox="; Js.dq; "0 0 ";
           (numToString width); " "; (numToString height); Js.dq;
           " xmlns="; Js.dq; "http://www.w3.org/2000/svg"; Js.dq;
           " xmlns:xlink="; Js.dq; "http://www.w3.org/1999/xlink"; Js.dq;
           ">"; Js.nl; "  "; "<defs>"; Js.nl; "    "; styleBlock; Js.nl;
           "    "; "<linearGradient id="; Js.dq; "cardGradient"; Js.dq;
           " x1="; Js.dq; "0"; Js.dq; " y1="; Js.dq; "0"; Js.dq; " x2=";
           Js.dq; "0"; Js.dq; " y2="; Js.dq; "1"; Js.dq; ">"; Js.nl;
           "      "; "<stop offset="; Js.dq; "0%"; Js.dq; " stop-color=";
           Js.dq; baseDark; Js.dq; " />"; Js.nl; "      ";
           "<stop offset="; Js.dq; "60%"; Js.dq; " stop-color="; Js.dq;
           midDark; Js.dq; " />"; Js.nl; "      "; "<stop offset="; Js.dq;
           "100%"; Js.dq; " stop-color="; Js.dq; baseDark; Js.dq; " />";
           Js.nl; "    "; "</linearGradient>"; Js.nl; "    ";
           "<linearGradient id="; Js.dq; "barsFade"; Js.dq; " x1="; Js.dq;
           "0"; Js.dq; " y1="; Js.dq; "0"; Js.dq; " x2="; Js.dq; "0";
           Js.dq; " y2="; Js.dq; "1"; Js.dq; ">"; Js.nl; "      ";
           "<stop offset="; Js.dq; "0%"; Js.dq; " stop-color="; Js.dq;
           highlight; Js.dq; " stop-opacity="; Js.dq; "1"; Js.dq; " />";
           Js.nl; "      "; "<stop offset="; Js.dq; "100%"; Js.dq;
           " stop-color="; Js.dq; accentColor; Js.dq; " stop-opacity=";
           Js.dq; "0.3"; Js.dq; " />"; Js.nl; "    "; "</linearGradient>";
           Js.nl; "    "; "<clipPath id="; Js.dq; "albumClip"; Js.dq; ">";
           Js.nl; "      "; "<rect x="; Js.dq; (numToString albumX);
           Js.dq; " y="; Js.dq; (numToString albumY); Js.dq; " width=";
           Js.dq; (numToString albumSize); Js.dq; " height="; Js.dq;
           (numToString albumSize); Js.dq; " rx="; Js.dq;
           (numToString (SvgConfig.borderRadius config)); Js.dq; " />";
           Js.nl; "    "; "</clipPath>"; Js.nl; "    "; "<clipPath id=";
           Js.dq; "cardClip"; Js.dq; " clipPathUnits="; Js.dq;
           "userSpaceOnUse"; Js.dq; ">"; Js.nl; "      "; "<rect x=";
           Js.dq; "2"; Js.dq; " y="; Js.dq; "2"; Js.dq; " width="; Js.dq;
           (numToString (width - 4)%float); Js.dq; " height="; Js.dq;
           (numToString (height - 4)%float); Js.dq; " rx="; Js.dq;
           (numToString (SvgConfig.borderRadius config - 2)%float); Js.dq;
           " />"; Js.nl; "    "; "</clipPath>"; Js.nl; "    ";
           "<clipPath id="; Js.dq; "titleClip"; Js.dq; " clipPathUnits=";
           Js.dq; "userSpaceOnUse"; Js.dq; ">"; Js.nl; "      ";
           "<rect x="; Js.dq; (numToString textAreaLeft); Js.dq; " y=";
           Js.dq; (numToString (albumY + 34)%float); Js.dq; " width=";
           Js.dq; (numToString titleClipWidth); Js.dq; " height="; Js.dq;
           "26"; Js.dq; " />"; Js.nl; "    "; "</clipPath>"; Js.nl;
           "    "; "<filter id="; Js.dq; "glow"; Js.dq; " x="; Js.dq;
           "-50%"; Js.dq; " y="; Js.dq; "-50%"; Js.dq; " width="; Js.dq;
           "200%"; Js.dq; " height="; Js.dq; "200%"; Js.dq; ">"; Js.nl;
           "      "; "<feDropShadow dx="; Js.dq; "0"; Js.dq; " dy=";
           Js.dq; "0"; Js.dq; " stdDeviation="; Js.dq; "8"; Js.dq;
           " flood-color="; Js.dq; highlight; Js.dq; " flood-opacity=";
           Js.dq; "0.65"; Js.dq; " />"; Js.nl; "      ";
           "<feDropShadow dx="; Js.dq; "0"; Js.dq; " dy="; Js.dq; "0";
           Js.dq; " stdDeviation="; Js.dq; "16"; Js.dq; " flood-color=";
           Js.dq; highlight; Js.dq; " flood-opacity="; Js.dq; "0.25";
           Js.dq; " />"; Js.nl; "    "; "</filter>"; Js.nl; "    ";
           "<filter id="; Js.dq; "textGlow"; Js.dq; " x="; Js.dq; "-50%";
           Js.dq; " y="; Js.dq; "-50%"; Js.dq; " width="; Js.dq; "200%";
           Js.dq; " height="; Js.dq; "200%"; Js.dq; ">"; Js.nl; "      ";
           "<feDropShadow dx="; Js.dq; "0"; Js.dq; " dy="; Js.dq; "0";
           Js.dq; " stdDeviation="; Js.dq; "4"; Js.dq; " flood-color=";
           Js.dq; highlight; Js.dq; " flood-opacity="; Js.dq; "0.6";
           Js.dq; " />"; Js.nl; "    "; "</filter>"; Js.nl; "  ";
           "</defs>"; Js.nl; Js.nl; "  ";
           "<!-- Card background with clean rounded border -->"; Js.nl;
           "  "; "<rect width="; Js.dq; (numToString width); Js.dq;
           " height="; Js.dq; (numToString height); Js.dq; " rx="; Js.dq;
           (numToString (SvgConfig.borderRadius config)); Js.dq; " fill=";
           Js.dq; midDark; Js.dq; " />"; Js.nl; "  "; "<rect x="; Js.dq;
           "2"; Js.dq; " y="; Js.dq; "2"; Js.dq; " width="; Js.dq;
           (numToString (width - 4)%float); Js.dq; " height="; Js.dq;
           (numToString (height - 4)%float); Js.dq; " rx="; Js.dq;
           (numToString (SvgConfig.borderRadius config - 2)%float); Js.dq;
           " fill="; Js.dq; "url(#cardGradient)"; Js.dq; " />"; Js.nl;
           Js.nl; "  "; "<!-- Background waveform -->"; Js.nl; "  ";
           "<g fill="; Js.dq; "url(#barsFade)"; Js.dq; " opacity="; Js.dq;
           "0.4"; Js.dq; " clip-path="; Js.dq; "url(#cardClip)"; Js.dq;
           ">"; Js.nl; "    ";
           (Waves.generateWaveformLayer sin numToString highlight
             0.28%float barsStartX barsEndX waveBaseY waveHeight
             (titleSeed * 0.03)%float 8%float); Js.nl; "    ";
           (Waves.generateWaveformLayer sin numToString highlight
             0.18%float barsStartX barsEndX waveBaseY (waveHeight *
             0.7)%float (titleSeed * 0.05 + 4.1)%float 12%float); Js.nl;
           "  "; "</g>"; Js.nl; Js.nl; "  ";
           (if isPlaying then playingWave else EmptyString); Js.nl; Js.nl;
           "  "; "<!-- Text content -->"; Js.nl; "  "; "<g font-family=";
           Js.dq; fontBodyFamily; Js.dq; ">"; Js.nl; "    "; textContent;
           Js.nl; "  "; "</g>"; Js.nl; Js.nl; "  "; albumArt; Js.nl;
           "</svg>" ].

End GenerateNowPlayingSvg.

End Svg.

(** ** poller/state.ts *)

Module State.

Definition shouldUpdate (status : TauonStatus.t)
    (lastSentTrackId : option float)
    (lastSentStatus lastSeenStatus : option string) : bool :=
  let trackId := TauonStatus.id status in
  let statusStr := TauonStatus.status status in
  let isPlayableStatus :=
    String.eqb statusStr "playing" || String.eqb statusStr "paused" in
  if negb isPlayableStatus then false
  else if Js.neqOptNumber (Some trackId) lastSentTrackId then true
  else if negb (Js.eqOptString (Some statusStr) lastSentStatus) then true
  else if Js.eqOptString lastSeenStatus (Some "stopped") then true
  else false.

End State.

(** ** poller/art.ts, as the poller sees it *)

Module ArtResult.
Record t := mk {
  base64 : string;
  colors : ColorPalette.t
}.
End ArtResult.

(** ** poller/index.ts *)

Module Poller.

(** The module-level [let] variables of the poller. *)
Record Memory := mkMemory {
  lastSentTrackId : option float;
  lastSentStatus : option string;
  lastSeenStatus : option string;
  lastAlbumName : option string;
  lastArtBase64 : option string;
  lastColors : option ColorPalette.t
}.

Definition initial : Memory :=
  mkMemory None None None None None None.

(** What the outside world answers during one call of [poll]:
    [fetchTauonStatus] ([None]: unreachable), [fetchAndResizeArt] (read
    only when the poller calls it), [Date.now()] and [sendToDeploy]. *)
Record Tick := mkTick {
  fetched : option TauonStatus.t;
  art : option ArtResult.t;
  now : float;
  sendOk : bool
}.

(** The memory after the call and the snapshot handed to [sendToDeploy],
    if the call got that far. *)
Record Outcome := mkOutcome {
  memory : Memory;
  sent : option NowPlayingData.t
}.

Definition setLastSeen (m : Memory) (s : string) : Memory :=
  mkMemory (lastSentTrackId m) (lastSentStatus m) (Some s)
           (lastAlbumName m) (lastArtBase64 m) (lastColors m).

(** [status.track?.f]. *)
Definition trackField (f : TauonTrack.t -> string) (s : TauonStatus.t)
    : option string :=
  option_map f (TauonStatus.track s).

(** The art step of [poll]: the values of the local [artBase64] and
    [colors] after it, and the memory with the cache it may have
    refreshed. *)
Definition artStep (m : Memory) (w : Tick) (status : TauonStatus.t)
    : option string * option ColorPalette.t * Memory :=
  let st := TauonStatus.status status in
  let albumName :=
    Js.trim (Js.orLit (Js.or (trackField TauonTrack.album status)
                             (Some (TauonStatus.album status)))
                      "") in
  let isPlayableStatus :=
    String.eqb st "playing" || String.eqb st "paused" in
  let hasCachedArt :=
    (0 <? String.length albumName)%nat
    && Js.eqOptString (Some albumName) (lastAlbumName m)
    && Js.truthy (lastArtBase64 m)
    && (match lastColors m with Some _ => true | None => false end) in
  if isPlayableStatus
     && PrimFloat.ltb 0%float (TauonStatus.id status)
     && (0 <? String.length albumName)%nat
  then
    if negb hasCachedArt then
      match art w with
      | Some artResult =>
          let b := ArtResult.base64 artResult in
          let c := ArtResult.colors artResult in
          (Some b, Some c,
           mkMemory (lastSentTrackId m) (lastSentStatus m)
                    (lastSeenStatus m) (Some albumName) (Some b) (Some c))
      | None => (None, None, m)
      end
    else (lastArtBase64 m, lastColors m, m)
  else (None, None, m).

Definition poll (m : Memory) (w : Tick) : Outcome :=
  match fetched w with
  | None => mkOutcome m None
  | Some status =>
      let st := TauonStatus.status status in
      if negb (String.eqb st "playing") && negb (String.eqb st "paused")
      then mkOutcome (setLastSeen m st) None
      else if negb (State.shouldUpdate status (lastSentTrackId m)
                      (lastSentStatus m) (lastSeenStatus m))
      then mkOutcome (setLastSeen m st) None
      else
        let r := artStep m w status in
        let artBase64 := fst (fst r) in
        let colors := snd (fst r) in
        let m1 := snd r in
        let nowPlayingData :=
          NowPlayingData.mk
            (Js.orLit (Js.or (Some (TauonStatus.title status))
                             (trackField TauonTrack.title status))
                      "Unknown Title")
            (Js.orLit (Js.or (Some (TauonStatus.artist status))
                             (trackField TauonTrack.artist status))
                      "Unknown Artist")
            (Js.orLit (Js.or (Some (TauonStatus.album status))
                             (trackField TauonTrack.album status))
                      "Unknown Album")
            (Js.orLit (Js.or (trackField TauonTrack.album_artist status)
                             (Some (TauonStatus.artist status)))
                      "Unknown Artist")
            (Js.orLit (trackField TauonTrack.track_number status) "")
            (Js.numOrZero
               (option_map TauonTrack.duration (TauonStatus.track status)))
            (TauonStatus.progress status)
            st
            artBase64
            colors
            (now w) in
        let m2 :=
          if sendOk w
          then mkMemory (Some (TauonStatus.id status)) (Some st) (Some st)
                        (lastAlbumName m1) (lastArtBase64 m1) (lastColors m1)
          else m1 in
        mkOutcome m2 (Some nowPlayingData)
  end.

(** [setInterval(poll, ...)]: the calls run one after the other, each on
    the memory the previous one left. *)
Fixpoint run (m : Memory) (ws : list Tick) : list Outcome :=
  match ws with
  | [] => []
  | w :: ws' => let o := poll m w in o :: run (memory o) ws'
  end.

Definition published (o : Outcome) : bool :=
  match sent o with
  | Some _ => true
  | None => false
  end.

(** The status [s] with the given track id and status string. *)
Definition observed (s : TauonStatus.t) (trackId : float) (st : string)
    : TauonStatus.t :=
  TauonStatus.mk st (TauonStatus.inc s) (TauonStatus.shuffle s)
    (TauonStatus.repeat s) (TauonStatus.progress s)
    (TauonStatus.auto_stop s) (TauonStatus.volume s)
    (TauonStatus.playlist s) (TauonStatus.playlist_length s)
    trackId (TauonStatus.title s) (TauonStatus.artist s)
    (TauonStatus.album s) (TauonStatus.track s)
    (TauonStatus.position s) (TauonStatus.album_id s).

(** A tick that observes [observed s trackId st], whose publish
    succeeds, and that is [w] otherwise. *)
Definition observing (w : Tick) (s : TauonStatus.t)
    (trackId : float) (st : string) : Tick :=
  mkTick (Some (observed s trackId st)) (art w) (now w) true.

End Poller.

(** ** JSON values, as [JSON.parse] and [req.json()] return them *)

#[warnings="-register-all"]
Inductive Json :=
| JNull
| JBool (b : bool)
| JNum (n : float)
| JStr (s : string)
| JArr (items : list Json)
| JObj (fields : list (string * Json)).

Module JsonValue.

(** [value.key]: the property of an object, [undefined] elsewhere. *)
Fixpoint lookup (key : string) (fields : list (string * Json))
    : option Json :=
  match fields with
  | (k, v) :: r => if String.eqb k key then Some v else lookup key r
  | [] => None
  end.

Definition get (key : string) (value : Json) : option Json :=
  match value with
  | JObj fields => lookup key fields
  | _ => None
  end.

Definition getString (key : string) (value : Json) : option string :=
  match get key value with Some (JStr s) => Some s | _ => None end.

Definition getNumber (key : string) (value : Json) : option float :=
  match get key value with Some (JNum n) => Some n | _ => None end.

Definition getBoolean (key : string) (value : Json) : option bool :=
  match get key value with Some (JBool b) => Some b | _ => None end.

End JsonValue.

(** ** Values at run time *)

(** The result of an evaluation that may throw. *)
Inductive Outcome (A : Type) :=
| Returns (value : A)
| Throws.

Arguments Returns {A} value.
Arguments Throws {A}.

(** The language on the values that reach the renderer unchecked: a
    JSON value, or [undefined] ([None]) for a property that is not
    there. *)
Module JsValue.

Definition t := option Json.

Definition andThen {A B : Type} (o : Outcome A) (f : A -> Outcome B)
    : Outcome B :=
  match o with
  | Returns a => f a
  | Throws => Throws
  end.

(** Truthiness: [undefined], [null], [false], the zeros, NaN and the
    empty string are falsy; arrays and objects are truthy. *)
Definition truthy (v : t) : bool :=
  match v with
  | None | Some JNull => false
  | Some (JBool b) => b
  | Some (JNum n) => negb (PrimFloat.eqb n 0%float) && PrimFloat.eqb n n
  | Some (JStr s) => negb (String.eqb s EmptyString)
  | Some (JArr _) | Some (JObj _) => true
  end.

(** The own property [key] of an object.  The keys read by the renderer
    ([updatedAt], [status], [colors], [dominant], [accent], [highlight],
    [title], [artist], [album], [artBase64]) are properties of no
    prototype, so that on a boolean, a number, a string or an array the
    result is [undefined]. *)

(** [v?.key]: [undefined] on [null] and [undefined]. *)
Definition chain (key : string) (v : t) : t :=
  match v with
  | Some value => JsonValue.get key value
  | None => None
  end.

(** [v.key], which throws on [null] and [undefined]. *)
Definition get (key : string) (v : t) : Outcome t :=
  match v with
  | None | Some JNull => Throws
  | Some value => Returns (JsonValue.get key value)
  end.

(** [v.length]: the length of a string or an array, the own property
    of an object. *)
Definition length (v : t) : Outcome t :=
  match v with
  | None | Some JNull => Throws
  | Some (JStr s) => Returns (Some (JNum (Js.ofNat (String.length s))))
  | Some (JArr items) =>
      Returns (Some (JNum (Js.ofNat (List.length items))))
  | Some (JObj fields) => Returns (JsonValue.lookup "length" fields)
  | Some (JBool _) | Some (JNum _) => Returns None
  end.

(** [v || d]. *)
Definition orElse (v d : t) : t := if truthy v then v else d.

(** [v === "literal"]. *)
Definition isString (v : t) (literal : string) : bool :=
  match v with
  | Some (JStr s) => String.eqb s literal
  | _ => false
  end.

Section WithPlatform.

(** [String(number)] and [Number(string)]. *)
Variable numToString : float -> string.
Variable stringToNumber : string -> float.

(** The string of a JSON value.  An array is the join of its elements,
    [null] counting as empty.  An object parsed from JSON has no
    callable property of its own: with an own [toString] it cannot be
    converted ([valueOf], own or inherited, returns no primitive),
    without one it inherits the method of [Object.prototype]. *)
Fixpoint jsonToString (v : Json) : Outcome string :=
  match v with
  | JNull => Returns "null"
  | JBool b => Returns (if b then "true" else "false")
  | JNum n => Returns (numToString n)
  | JStr s => Returns s
  | JArr items =>
      let elements :=
        (fix each (l : list Json) : Outcome (list string) :=
           match l with
           | [] => Returns []
           | x :: r =>
               andThen
                 (match x with
                  | JNull => Returns EmptyString
                  | _ => jsonToString x
                  end)
                 (fun s => andThen (each r) (fun ss => Returns (s :: ss)))
           end) items in
      andThen elements (fun ss => Returns (Js.join "," ss))
  | JObj fields =>
      match JsonValue.lookup "toString" fields with
      | Some _ => Throws
      | None => Returns "[object Object]"
      end
  end.

(** [String(v)], as a template literal converts an interpolated
    value. *)
Definition toString (v : t) : Outcome string :=
  match v with
  | Some value => jsonToString value
  | None => Returns "undefined"
  end.

(** [Number(v)], as the arithmetic and relational operators convert an
    operand: an array or an object goes through its string. *)
Definition toNumber (v : t) : Outcome float :=
  match v with
  | None => Returns PrimFloat.nan
  | Some JNull => Returns 0%float
  | Some (JBool b) => Returns (if b then 1%float else 0%float)
  | Some (JNum n) => Returns n
  | Some (JStr s) => Returns (stringToNumber s)
  | Some (JArr _) | Some (JObj _) =>
      andThen (toString v) (fun s => Returns (stringToNumber s))
  end.

End WithPlatform.

End JsValue.

(** ** svg/text.ts, svg/colors.ts, svg/waves.ts, svg/icons.ts and
    svg/index.ts at run time

    [handleGetSvg] passes to [generateNowPlayingSvg] the value the store
    holds, which is whatever JSON value was last posted: the annotation
    [NowPlayingData | null] is not checked.  [Runtime] is the renderer
    and its helpers on any value.  On a string a helper is the function
    of [Text], [Colors] or [Waves]; on another value it is what the
    statements of the function do with it.  In a template literal the
    interpolated expressions that may throw are bound first, in their
    order, and the chunks are concatenated after them.  *)

Module Runtime.

Import JsValue.

Local Notation "x <- e ;; k" := (andThen e (fun x => k))
  (at level 61, e at next level, right associativity).

Section WithPlatform.

(** The platform: [Math.sin], [String(number)], [Number(string)] and
    the value of [Date.now()]. *)
Variable sin : float -> float.
Variable numToString : float -> string.
Variable stringToNumber : string -> float.
Variable now : float.

Local Abbreviation toString := (JsValue.toString numToString).
Local Abbreviation toNumber := (JsValue.toNumber numToString stringToNumber).

Local Open Scope float_scope.

(** [text.replace] is a function on a string only. *)
Definition escapeXml (text : JsValue.t) : Outcome string :=
  match text with
  | Some (JStr s) => Returns (Text.escapeXml s)
  | _ => Throws
  end.

(** On a value that is not a string, [text.length <= maxLength]
    compares the number of [text.length]; the value is returned as it
    is when the comparison holds, and [text.substring] is no function
    when it does not. *)
Definition truncateText (text : JsValue.t) (maxLength : float)
    : Outcome JsValue.t :=
  match text with
  | Some (JStr s) => Returns (Some (JStr (Text.truncateText s maxLength)))
  | _ =>
      len <- length text;;
      n <- toNumber len;;
      if PrimFloat.leb n maxLength then Returns text else Throws
  end.

Definition estimateTextWidth (text : JsValue.t) (fontSize : float)
    : Outcome float :=
  match text with
  | Some (JStr s) => Returns (Text.estimateTextWidth s fontSize)
  | _ =>
      len <- length text;;
      n <- toNumber len;;
      Returns (n * (fontSize * 0.55))
  end.

(** On a value that is not a string, the loop is entered when
    [0 < input.length] holds of the number of [input.length], and its
    first statement calls [input.charCodeAt], which is no function;
    otherwise the result is [Math.abs(0)]. *)
Definition hashString (input : JsValue.t) : Outcome float :=
  match input with
  | Some (JStr s) => Returns (Js.ofZ (Waves.hashString s))
  | _ =>
      len <- length input;;
      n <- toNumber len;;
      if PrimFloat.ltb 0 n then Throws else Returns 0
  end.

(** [hexToRgb(hexA)] calls [hexA.replace]; [hexB] is a literal at each
    call. *)
Definition mixColors (hexA : JsValue.t) (hexB : string) (ratio : float)
    : Outcome string :=
  match hexA with
  | Some (JStr a) => Returns (Colors.mixColors a hexB ratio)
  | _ => Throws
  end.

(** The colour is interpolated into the markup. *)
Definition generateWaveformLayer (color : JsValue.t) (opacity : float)
    (startX endX baseY height seed duration : float) : Outcome string :=
  c <- toString color;;
  Returns (Waves.generateWaveformLayer sin numToString c opacity startX
             endX baseY height seed duration).

Definition generateMusicNotePlaceholder (albumX albumY albumSize : float)
    (color : JsValue.t) : Outcome string :=
  c <- toString color;;
  Returns (Icons.generateMusicNotePlaceholder numToString albumX albumY
             albumSize c).

Section GenerateNowPlayingSvg.

(** The arguments of [generateNowPlayingSvg]. *)
Variable data : JsValue.t.
Variable config : SvgConfig.t.

(** The constants that are computed from the configuration alone are
    those of [Svg]. *)
Local Abbreviation width := (Svg.width config).
Local Abbreviation height := (Svg.height config).
Local Abbreviation albumSize := (Svg.albumSize config).
Local Abbreviation albumX := (Svg.albumX config).
Local Abbreviation albumY := (Svg.albumY config).
Local Abbreviation textAlign := (Svg.textAlign config).
Local Abbreviation textAreaLeft := (Svg.textAreaLeft config).
Local Abbreviation textAnchor := (Svg.textAnchor config).
Local Abbreviation textX := (Svg.textX config).
Local Abbreviation barsStartX := Svg.barsStartX.
Local Abbreviation barsEndX := (Svg.barsEndX config).
Local Abbreviation waveBaseY := (Svg.waveBaseY config).
Local Abbreviation waveHeight := Svg.waveHeight.
Local Abbreviation titleFontSize := Svg.titleFontSize.
Local Abbreviation artistFontSize := Svg.artistFontSize.
Local Abbreviation albumFontSize := Svg.albumFontSize.
Local Abbreviation titleY := (Svg.titleY config).
Local Abbreviation artistY := (Svg.artistY config).
Local Abbreviation albumYPos := (Svg.albumYPos config).
Local Abbreviation titleClipWidth := (Svg.titleClipWidth config).
Local Abbreviation titleGap := Svg.titleGap.
Local Abbreviation titleMaxChars := (Svg.titleMaxChars config).
Local Abbreviation artistMaxChars := (Svg.artistMaxChars config).
Local Abbreviation albumMaxChars := (Svg.albumMaxChars config).
Local Abbreviation fontTitleFamily := (Svg.fontTitleFamily config).
Local Abbreviation fontBodyFamily := (Svg.fontBodyFamily config).
Local Abbreviation styleBlock := (Svg.styleBlock config).
Local Abbreviation nothingPlaying := (Svg.nothingPlaying numToString config).

Section Template.

(** The constants that are computed from [data], as the body of the
    function has bound them when the template is evaluated. *)
Variable isStale isPlaying hasTrack : bool.
Variable accentColor : JsValue.t.
Variable baseDark midDark : string.
Variable highlight : JsValue.t.
Variable titleSeed titleScrollDistance : float.
Variable titleScrollNeeded : bool.

(** The third waveform layer, of the playing state. *)
Definition playingWave : Outcome string :=
  frontWave <-
      (generateWaveformLayer highlight 0.65%float barsStartX barsEndX
        waveBaseY (waveHeight * 0.85)%float (titleSeed * 0.08 + 8.2)%float
        5%float);;
  Returns (Js.cat [ "<g fill="; Js.dq; "url(#barsFade)"; Js.dq; " opacity=";
                    Js.dq; "0.45"; Js.dq; " clip-path="; Js.dq;
                    "url(#cardClip)"; Js.dq; ">"; frontWave; "</g>" ]).

(** The templates of the text lines, innermost first. *)
Definition statusPill : Outcome string :=
  highlightText <- toString highlight;;
  Returns (Js.cat [ Js.nl; "    "; "<!-- Status pill -->"; Js.nl; "    ";
                    "<text x="; Js.dq; (numToString textX); Js.dq; " y=";
                    Js.dq; (numToString (albumY + 18)%float); Js.dq; " fill=";
                    Js.dq; highlightText; Js.dq; " font-size="; Js.dq; "12";
                    Js.dq; " font-weight="; Js.dq; "700"; Js.dq;
                    " letter-spacing="; Js.dq; "0.12em"; Js.dq; " filter=";
                    Js.dq; "url(#textGlow)"; Js.dq; " text-anchor="; Js.dq;
                    textAnchor; Js.dq; " font-family="; Js.dq; fontBodyFamily;
                    Js.dq; ">"; Js.nl; "      ";
                    (if isStale then "LAST PLAYED" else if isPlaying then
                      "NOW PLAYING" else "PAUSED"); Js.nl; "    "; "</text>";
                    Js.nl; "    " ]).

Definition titleScrolling : Outcome string :=
  escaped <-
    (title <- get "title" data;;
     escapeXml title);;
  Returns (Js.cat [ Js.nl; "    "; "<g clip-path="; Js.dq; "url(#titleClip)";
                    Js.dq; ">"; Js.nl; "      "; "<g>"; Js.nl; "        ";
                    "<text x="; Js.dq; (numToString textAreaLeft); Js.dq;
                    " y="; Js.dq; (numToString titleY); Js.dq; " fill=";
                    Js.dq; (SvgConfig.textPrimary config); Js.dq;
                    " font-size="; Js.dq; (numToString titleFontSize); Js.dq;
                    " font-weight="; Js.dq; "600"; Js.dq; " filter="; Js.dq;
                    "url(#textGlow)"; Js.dq; " font-family="; Js.dq;
                    fontTitleFamily; Js.dq; ">"; Js.nl; "          "; escaped;
                    Js.nl; "        "; "</text>"; Js.nl; "        ";
                    "<text x="; Js.dq;
                    (numToString (textAreaLeft + titleScrollDistance)%float);
                    Js.dq; " y="; Js.dq; (numToString titleY); Js.dq;
                    " fill="; Js.dq; (SvgConfig.textPrimary config); Js.dq;
                    " font-size="; Js.dq; (numToString titleFontSize); Js.dq;
                    " font-weight="; Js.dq; "600"; Js.dq; " filter="; Js.dq;
                    "url(#textGlow)"; Js.dq; " font-family="; Js.dq;
                    fontTitleFamily; Js.dq; ">"; Js.nl; "          "; escaped;
                    Js.nl; "        "; "</text>"; Js.nl; "        ";
                    "<animateTransform attributeName="; Js.dq; "transform";
                    Js.dq; " type="; Js.dq; "translate"; Js.dq; " from=";
                    Js.dq; "0 0"; Js.dq; " to="; Js.dq; "-";
                    (numToString titleScrollDistance); " 0"; Js.dq; " dur=";
                    Js.dq; "15s"; Js.dq; " repeatCount="; Js.dq; "indefinite";
                    Js.dq; " />"; Js.nl; "      "; "</g>"; Js.nl; "    ";
                    "</g>"; Js.nl; "    " ]).

Definition titleStatic : Outcome string :=
  escaped <-
    (title <- get "title" data;;
     truncated <- truncateText title titleMaxChars;;
     escapeXml truncated);;
  Returns (Js.cat [ Js.nl; "    "; "<text x="; Js.dq; (numToString textX);
                    Js.dq; " y="; Js.dq; (numToString titleY); Js.dq;
                    " fill="; Js.dq; (SvgConfig.textPrimary config); Js.dq;
                    " font-size="; Js.dq; (numToString titleFontSize); Js.dq;
                    " font-weight="; Js.dq; "600"; Js.dq; " text-overflow=";
                    Js.dq; "ellipsis"; Js.dq; " filter="; Js.dq;
                    "url(#textGlow)"; Js.dq; " text-anchor="; Js.dq;
                    textAnchor; Js.dq; " font-family="; Js.dq;
                    fontTitleFamily; Js.dq; ">"; Js.nl; "      "; escaped;
                    Js.nl; "    "; "</text>"; Js.nl; "    " ]).

Definition titleBlock : Outcome string :=
  line <- if titleScrollNeeded then titleScrolling else titleStatic;;
  Returns (Js.cat [ Js.nl; "    "; "<!-- Title -->"; Js.nl; "    "; line;
                    Js.nl; "    " ]).

Definition artistLine : Outcome string :=
  escaped <-
    (artist <- get "artist" data;;
     truncated <- truncateText artist artistMaxChars;;
     escapeXml truncated);;
  Returns (Js.cat [ Js.nl; "    "; "<!-- Artist -->"; Js.nl; "    ";
                    "<text x="; Js.dq; (numToString textX); Js.dq; " y=";
                    Js.dq; (numToString artistY); Js.dq; " fill="; Js.dq;
                    (SvgConfig.textSecondary config); Js.dq; " font-size=";
                    Js.dq; (numToString artistFontSize); Js.dq;
                    " text-anchor="; Js.dq; textAnchor; Js.dq;
                    " font-family="; Js.dq; fontBodyFamily; Js.dq; ">"; Js.nl;
                    "      "; escaped; Js.nl; "    "; "</text>"; Js.nl;
                    "    " ]).

Definition albumLine : Outcome string :=
  escaped <-
    (album <- get "album" data;;
     truncated <- truncateText album albumMaxChars;;
     escapeXml truncated);;
  Returns (Js.cat [ Js.nl; "    "; "<!-- Album and status -->"; Js.nl; "    ";
                    "<text x="; Js.dq; (numToString textX); Js.dq; " y=";
                    Js.dq; (numToString albumYPos); Js.dq; " fill="; Js.dq;
                    (SvgConfig.textMuted config); Js.dq; " font-size="; Js.dq;
                    (numToString albumFontSize); Js.dq; " text-anchor=";
                    Js.dq; textAnchor; Js.dq; " font-family="; Js.dq;
                    fontBodyFamily; Js.dq; ">"; Js.nl; "      "; escaped;
                    Js.nl; "    "; "</text>"; Js.nl; "    " ]).

(** The text of a track: the four lines, each under its toggle. *)
Definition trackText : Outcome string :=
  status <-
      (if SvgConfig.showStatus config then statusPill else Returns
        EmptyString);;
  title <-
      (if SvgConfig.showTitle config then titleBlock else Returns
        EmptyString);;
  artist <-
      (if SvgConfig.showArtist config then artistLine else Returns
        EmptyString);;
  album <-
      (if SvgConfig.showAlbum config then albumLine else Returns
        EmptyString);;
  Returns (Js.cat [ Js.nl; "    "; status; Js.nl; Js.nl; "    "; title; Js.nl;
                    Js.nl; "    "; artist; Js.nl; Js.nl; "    "; album; Js.nl;
                    "    " ]).
(** [hasTrack ? ... : ...]. *)
Definition textContent : Outcome string :=
  if hasTrack then trackText else Returns nothingPlaying.

(** The embedded art and its frame. *)
Definition albumArtImage : Outcome string :=
  art <-
    (artBase64 <- get "artBase64" data;;
     toString artBase64);;
  highlightText <- toString highlight;;
  Returns (Js.cat [ Js.nl; "  "; "<!-- Album art with rounded corners -->";
                    Js.nl; "  "; "<image x="; Js.dq; (numToString albumX);
                    Js.dq; " y="; Js.dq; (numToString albumY); Js.dq;
                    " width="; Js.dq; (numToString albumSize); Js.dq;
                    " height="; Js.dq; (numToString albumSize); Js.dq;
                    " xlink:href="; Js.dq; "data:image/jpeg;base64,"; art;
                    Js.dq; " clip-path="; Js.dq; "url(#albumClip)"; Js.dq;
                    " preserveAspectRatio="; Js.dq; "xMidYMid slice"; Js.dq;
                    " filter="; Js.dq; "url(#glow)"; Js.dq; " />"; Js.nl;
                    "  "; "<rect x="; Js.dq; (numToString albumX); Js.dq;
                    " y="; Js.dq; (numToString albumY); Js.dq; " width=";
                    Js.dq; (numToString albumSize); Js.dq; " height="; Js.dq;
                    (numToString albumSize); Js.dq; " rx="; Js.dq;
                    (numToString (SvgConfig.borderRadius config)); Js.dq;
                    " fill="; Js.dq; "none"; Js.dq; " stroke="; Js.dq;
                    highlightText; Js.dq; " stroke-opacity="; Js.dq; "0.75";
                    Js.dq; " stroke-width="; Js.dq; "3"; Js.dq; " filter=";
                    Js.dq; "url(#textGlow)"; Js.dq; " />"; Js.nl; "  " ]).
(** [hasTrack && data.artBase64 ? ... : generateMusicNotePlaceholder(...)]. *)
Definition albumArt : Outcome string :=
  shown <- (if hasTrack
            then artBase64 <- get "artBase64" data;;
                 Returns (truthy artBase64)
            else Returns false);;
  if shown then albumArtImage
  else generateMusicNotePlaceholder albumX albumY albumSize highlight.

Definition svg : Outcome string :=
  highlightText <- toString highlight;;
  accentText <- toString accentColor;;
  backWave <-
      (generateWaveformLayer highlight 0.28%float barsStartX barsEndX
        waveBaseY waveHeight (titleSeed * 0.03)%float 8%float);;
  midWave <-
      (generateWaveformLayer highlight 0.18%float barsStartX barsEndX
        waveBaseY (waveHeight * 0.7)%float (titleSeed * 0.05 + 4.1)%float
        12%float);;
  frontLayer <- if isPlaying then playingWave else Returns EmptyString;;
  content <- textContent;;
  cover <- albumArt;;
  Returns (Js.cat [ "<?xml version="; Js.dq; "1.0"; Js.dq; " encoding=";
                    Js.dq; "UTF-8"; Js.dq; "?>"; Js.nl; "<svg width="; Js.dq;
                    (numToString width); Js.dq; " height="; Js.dq;
                    (numToString height); Js.dq; " viewBox="; Js.dq; "0 0 ";
                    (numToString width); " "; (numToString height); Js.dq;
                    " xmlns="; Js.dq; "http://www.w3.org/2000/svg"; Js.dq;
                    " xmlns:xlink="; Js.dq; "http://www.w3.org/1999/xlink";
                    Js.dq; ">"; Js.nl; "  "; "<defs>"; Js.nl; "    ";
                    styleBlock; Js.nl; "    "; "<linearGradient id="; Js.dq;
                    "cardGradient"; Js.dq; " x1="; Js.dq; "0"; Js.dq; " y1=";
                    Js.dq; "0"; Js.dq; " x2="; Js.dq; "0"; Js.dq; " y2=";
                    Js.dq; "1"; Js.dq; ">"; Js.nl; "      "; "<stop offset=";
                    Js.dq; "0%"; Js.dq; " stop-color="; Js.dq; baseDark;
                    Js.dq; " />"; Js.nl; "      "; "<stop offset="; Js.dq;
                    "60%"; Js.dq; " stop-color="; Js.dq; midDark; Js.dq;
                    " />"; Js.nl; "      "; "<stop offset="; Js.dq; "100%";
                    Js.dq; " stop-color="; Js.dq; baseDark; Js.dq; " />";
                    Js.nl; "    "; "</linearGradient>"; Js.nl; "    ";
                    "<linearGradient id="; Js.dq; "barsFade"; Js.dq; " x1=";
                    Js.dq; "0"; Js.dq; " y1="; Js.dq; "0"; Js.dq; " x2=";
                    Js.dq; "0"; Js.dq; " y2="; Js.dq; "1"; Js.dq; ">"; Js.nl;
                    "      "; "<stop offset="; Js.dq; "0%"; Js.dq;
                    " stop-color="; Js.dq; highlightText; Js.dq;
                    " stop-opacity="; Js.dq; "1"; Js.dq; " />"; Js.nl;
                    "      "; "<stop offset="; Js.dq; "100%"; Js.dq;
                    " stop-color="; Js.dq; accentText; Js.dq;
                    " stop-opacity="; Js.dq; "0.3"; Js.dq; " />"; Js.nl;
                    "    "; "</linearGradient>"; Js.nl; "    ";
                    "<clipPath id="; Js.dq; "albumClip"; Js.dq; ">"; Js.nl;
                    "      "; "<rect x="; Js.dq; (numToString albumX); Js.dq;
                    " y="; Js.dq; (numToString albumY); Js.dq; " width=";
                    Js.dq; (numToString albumSize); Js.dq; " height="; Js.dq;
                    (numToString albumSize); Js.dq; " rx="; Js.dq;
                    (numToString (SvgConfig.borderRadius config)); Js.dq;
                    " />"; Js.nl; "    "; "</clipPath>"; Js.nl; "    ";
                    "<clipPath id="; Js.dq; "cardClip"; Js.dq;
                    " clipPathUnits="; Js.dq; "userSpaceOnUse"; Js.dq; ">";
                    Js.nl; "      "; "<rect x="; Js.dq; "2"; Js.dq; " y=";
                    Js.dq; "2"; Js.dq; " width="; Js.dq;
                    (numToString (width - 4)%float); Js.dq; " height="; Js.dq;
                    (numToString (height - 4)%float); Js.dq; " rx="; Js.dq;
                    (numToString (SvgConfig.borderRadius config - 2)%float);
                    Js.dq; " />"; Js.nl; "    "; "</clipPath>"; Js.nl; "    ";
                    "<clipPath id="; Js.dq; "titleClip"; Js.dq;
                    " clipPathUnits="; Js.dq; "userSpaceOnUse"; Js.dq; ">";
                    Js.nl; "      "; "<rect x="; Js.dq;
                    (numToString textAreaLeft); Js.dq; " y="; Js.dq;
                    (numToString (albumY + 34)%float); Js.dq; " width=";
                    Js.dq; (numToString titleClipWidth); Js.dq; " height=";
                    Js.dq; "26"; Js.dq; " />"; Js.nl; "    "; "</clipPath>";
                    Js.nl; "    "; "<filter id="; Js.dq; "glow"; Js.dq; " x=";
                    Js.dq; "-50%"; Js.dq; " y="; Js.dq; "-50%"; Js.dq;
                    " width="; Js.dq; "200%"; Js.dq; " height="; Js.dq;
                    "200%"; Js.dq; ">"; Js.nl; "      "; "<feDropShadow dx=";
                    Js.dq; "0"; Js.dq; " dy="; Js.dq; "0"; Js.dq;
                    " stdDeviation="; Js.dq; "8"; Js.dq; " flood-color=";
                    Js.dq; highlightText; Js.dq; " flood-opacity="; Js.dq;
                    "0.65"; Js.dq; " />"; Js.nl; "      ";
                    "<feDropShadow dx="; Js.dq; "0"; Js.dq; " dy="; Js.dq;
                    "0"; Js.dq; " stdDeviation="; Js.dq; "16"; Js.dq;
                    " flood-color="; Js.dq; highlightText; Js.dq;
                    " flood-opacity="; Js.dq; "0.25"; Js.dq; " />"; Js.nl;
                    "    "; "</filter>"; Js.nl; "    "; "<filter id="; Js.dq;
                    "textGlow"; Js.dq; " x="; Js.dq; "-50%"; Js.dq; " y=";
                    Js.dq; "-50%"; Js.dq; " width="; Js.dq; "200%"; Js.dq;
                    " height="; Js.dq; "200%"; Js.dq; ">"; Js.nl; "      ";
                    "<feDropShadow dx="; Js.dq; "0"; Js.dq; " dy="; Js.dq;
                    "0"; Js.dq; " stdDeviation="; Js.dq; "4"; Js.dq;
                    " flood-color="; Js.dq; highlightText; Js.dq;
                    " flood-opacity="; Js.dq; "0.6"; Js.dq; " />"; Js.nl;
                    "    "; "</filter>"; Js.nl; "  "; "</defs>"; Js.nl; Js.nl;
                    "  ";
                    "<!-- Card background with clean rounded border -->";
                    Js.nl; "  "; "<rect width="; Js.dq; (numToString width);
                    Js.dq; " height="; Js.dq; (numToString height); Js.dq;
                    " rx="; Js.dq;
                    (numToString (SvgConfig.borderRadius config)); Js.dq;
                    " fill="; Js.dq; midDark; Js.dq; " />"; Js.nl; "  ";
                    "<rect x="; Js.dq; "2"; Js.dq; " y="; Js.dq; "2"; Js.dq;
                    " width="; Js.dq; (numToString (width - 4)%float); Js.dq;
                    " height="; Js.dq; (numToString (height - 4)%float);
                    Js.dq; " rx="; Js.dq;
                    (numToString (SvgConfig.borderRadius config - 2)%float);
                    Js.dq; " fill="; Js.dq; "url(#cardGradient)"; Js.dq;
                    " />"; Js.nl; Js.nl; "  "; "<!-- Background waveform -->";
                    Js.nl; "  "; "<g fill="; Js.dq; "url(#barsFade)"; Js.dq;
                    " opacity="; Js.dq; "0.4"; Js.dq; " clip-path="; Js.dq;
                    "url(#cardClip)"; Js.dq; ">"; Js.nl; "    "; backWave;
                    Js.nl; "    "; midWave; Js.nl; "  "; "</g>"; Js.nl; Js.nl;
                    "  "; frontLayer; Js.nl; Js.nl; "  ";
                    "<!-- Text content -->"; Js.nl; "  "; "<g font-family=";
                    Js.dq; fontBodyFamily; Js.dq; ">"; Js.nl; "    "; content;
                    Js.nl; "  "; "</g>"; Js.nl; Js.nl; "  "; cover; Js.nl;
                    "</svg>" ]).

End Template.

Definition generateNowPlayingSvg : Outcome string :=
  isStale <-
    (if truthy data
     then updatedAt <- get "updatedAt" data;;
          n <- toNumber updatedAt;;
          Returns (PrimFloat.ltb (5 * 60 * 1000) (now - n))
     else Returns true);;
  isPlaying <-
    (if truthy data
     then status <- get "status" data;;
          Returns (isString status "playing" && negb isStale)
     else Returns false);;
  isPaused <-
    (if truthy data
     then status <- get "status" data;;
          Returns (isString status "paused" && negb isStale)
     else Returns false);;
  let hasTrack := truthy data && (isPlaying || isPaused || isStale) in
  let dominantColor :=
    orElse (chain "dominant" (chain "colors" data))
           (Some (JStr (SvgConfig.cardBorder config))) in
  let accentColor :=
    orElse (chain "accent" (chain "colors" data))
           (Some (JStr "#22c55e")) in
  baseDark <- mixColors dominantColor "#050505" 0.82;;
  midDark <- mixColors dominantColor "#0d0f12" 0.7;;
  highlight <-
    (if truthy (chain "highlight" (chain "colors" data))
     then Returns (chain "highlight" (chain "colors" data))
     else mixed <- mixColors accentColor "#ffffff" 0.45;;
          Returns (Some (JStr mixed)));;
  let titleText := orElse (chain "title" data) (Some (JStr EmptyString)) in
  titleSeed <- hashString (orElse titleText (Some (JStr "tauon")));;
  titleTextWidth <- estimateTextWidth titleText titleFontSize;;
  let titleScrollDistance :=
    Js.max (titleTextWidth + titleGap) (titleClipWidth + titleGap) in
  titleScrollNeeded <-
    (if negb (match textAlign with TextAlign.Center => true | _ => false end)
        && PrimFloat.ltb 0 titleClipWidth
     then again <- estimateTextWidth titleText titleFontSize;;
          Returns (PrimFloat.ltb titleClipWidth again)
     else Returns false);;
  svg isStale isPlaying hasTrack accentColor baseDark midDark highlight
    titleSeed titleScrollDistance titleScrollNeeded.

End GenerateNowPlayingSvg.

End WithPlatform.

End Runtime.

(** ** server.ts *)

Module Request.
(** A request as the handlers read it: [req.method], the [pathname] and
    [searchParams] of [new URL(req.url)] (first to last),
    [req.headers.get("Authorization")] and the text of the body. *)
Record t := mk {
  method : string;
  pathname : string;
  searchParams : list (string * string);
  authorization : option string;
  body : string
}.
End Request.

Module Response.
Record t := mk {
  status : nat;
  headers : list (string * string);
  body : option string
}.
End Response.

Module Server.

(** The single entry of the key-value store under [KV_KEY]. *)
Definition Kv := option Json.

(** [params.get(name)]: the first value of that name. *)
Fixpoint paramsGet (name : string) (params : list (string * string))
    : option string :=
  match params with
  | (k, v) :: r => if String.eqb k name then Some v else paramsGet name r
  | [] => None
  end.

(** *** The patterns [/^[...]+$/i] *)

Definition isAlnum (c : ascii) : bool :=
  let n := nat_of_ascii c in
  (((48 <=? n) && (n <=? 57)) || ((97 <=? n) && (n <=? 122))
   || ((65 <=? n) && (n <=? 90)))%nat.

Definition matchesClass (cls : ascii -> bool) (s : string) : bool :=
  match s with
  | EmptyString => false
  | _ => forallb cls (list_ascii_of_string s)
  end.

Definition THEME_NAME_PATTERN : string -> bool :=
  matchesClass (fun c => isAlnum c || Ascii.eqb c "_" || Ascii.eqb c "-").
Definition FONT_FILE_PATTERN : string -> bool :=
  matchesClass (fun c => isAlnum c || Ascii.eqb c "." || Ascii.eqb c "_"
                         || Ascii.eqb c "-").
Definition FONT_FAMILY_PATTERN : string -> bool :=
  matchesClass (fun c => isAlnum c || Ascii.eqb c " " || Ascii.eqb c "_"
                         || Ascii.eqb c "-").

(** *** Query parameters *)

Definition parseBooleanParam (value : option string) : option bool :=
  if negb (Js.truthy value) then None
  else
    let normalized := Js.toLowerCase (Js.trim (Js.orLit value EmptyString)) in
    if String.eqb normalized "1" || String.eqb normalized "true"
    then Some true
    else if String.eqb normalized "0" || String.eqb normalized "false"
    then Some false
    else None.

Definition parseTextAlign (value : option string) : option TextAlign.t :=
  if negb (Js.truthy value) then None
  else
    let normalized := Js.toLowerCase (Js.trim (Js.orLit value EmptyString)) in
    if String.eqb normalized "left" then Some TextAlign.Left
    else if String.eqb normalized "right" then Some TextAlign.Right
    else if String.eqb normalized "center"
            || String.eqb normalized "centre"
    then Some TextAlign.Center
    else None.

(** [fileName.replace(/\.[^.]+$/, "")]: the text before the last dot,
    when something follows that dot. *)
Fixpoint stripExtension (s : string) : string :=
  match s with
  | EmptyString => EmptyString
  | String c r =>
      if Ascii.eqb c "."
         && negb (String.eqb r EmptyString)
         && forallb (fun x => negb (Ascii.eqb x "."))
                    (list_ascii_of_string r)
      then EmptyString
      else String c (stripExtension r)
  end.

(** [base.replace(/[_-]+/g, " ")]: each run of [_] and [-] becomes one
    space; [inRun] tells whether the previous character was of a run. *)
Fixpoint spaceRuns (inRun : bool) (s : string) : string :=
  match s with
  | EmptyString => EmptyString
  | String c r =>
      if Ascii.eqb c "_" || Ascii.eqb c "-"
      then if inRun then spaceRuns true r
           else String " " (spaceRuns true r)
      else String c (spaceRuns false r)
  end.

Definition inferFontFamily (fileName : string) : string :=
  let base := stripExtension fileName in
  Js.orLit (Some (Js.trim (spaceRuns false base))) base.

Definition parseFontFile (value : option string) : option string :=
  if negb (Js.truthy value) then None
  else
    let normalized := Js.trim (Js.orLit value EmptyString) in
    if negb (Js.truthy (Some normalized))
       || negb (FONT_FILE_PATTERN normalized)
    then None else Some normalized.

Definition parseFontFamily (value : option string) : option string :=
  if negb (Js.truthy value) then None
  else
    let normalized := Js.trim (Js.orLit value EmptyString) in
    if negb (Js.truthy (Some normalized))
       || negb (FONT_FAMILY_PATTERN normalized)
    then None else Some normalized.

Definition getFontFormat (fileName : string) : option string :=
  let lower := Js.toLowerCase fileName in
  if Js.endsWith lower ".woff2" then Some "woff2"
  else if Js.endsWith lower ".woff" then Some "woff"
  else if Js.endsWith lower ".ttf" then Some "truetype"
  else if Js.endsWith lower ".otf" then Some "opentype"
  else None.

(** *** Themes *)

(** [isSvgConfig(value)], returning the value as the [SvgConfig] the
    guard narrows it to. *)
Definition isSvgConfig (value : Json) : option SvgConfig.t :=
  let isNumber k :=
    match JsonValue.getNumber k value with
    | Some n => if PrimFloat.is_finite n then Some n else None
    | None => None
    end in
  let isString k :=
    match JsonValue.getString k value with
    | Some (String c r) => Some (String c r)
    | _ => None
    end in
  let isBoolean k := JsonValue.getBoolean k value in
  let albumPosition :=
    match JsonValue.getString "albumPosition" value with
    | Some s => if String.eqb s "left" then Some AlbumPosition.Left
                else if String.eqb s "right" then Some AlbumPosition.Right
                else None
    | None => None
    end in
  let textAlign :=
    match JsonValue.getString "textAlign" value with
    | Some s => if String.eqb s "left" then Some TextAlign.Left
                else if String.eqb s "center" then Some TextAlign.Center
                else if String.eqb s "right" then Some TextAlign.Right
                else None
    | None => None
    end in
  match isNumber "width", isNumber "height", isString "cardBackground",
        isString "cardBorder", isString "textPrimary",
        isString "textSecondary", isString "textMuted",
        isNumber "albumSize", isNumber "borderRadius",
        albumPosition, textAlign,
        isBoolean "showStatus", isBoolean "showTitle",
        isBoolean "showArtist", isBoolean "showAlbum",
        isString "fontTitleFamily", isString "fontBodyFamily",
        isString "fontTitleFile", isString "fontBodyFile",
        isString "fontFallback" with
  | Some width, Some height, Some cardBackground, Some cardBorder,
    Some textPrimary, Some textSecondary, Some textMuted,
    Some albumSize, Some borderRadius, Some position, Some align,
    Some showStatus, Some showTitle, Some showArtist, Some showAlbum,
    Some fontTitleFamily, Some fontBodyFamily, Some fontTitleFile,
    Some fontBodyFile, Some fontFallback =>
      Some (SvgConfig.mk width height cardBackground cardBorder
              textPrimary textSecondary textMuted albumSize borderRadius
              position align showStatus showTitle showArtist showAlbum
              fontTitleFamily fontBodyFamily fontTitleFile fontBodyFile
              fontFallback
              (JsonValue.getString "fontTitleDataUrl" value)
              (JsonValue.getString "fontBodyDataUrl" value)
              (JsonValue.getString "fontTitleFormat" value)
              (JsonValue.getString "fontBodyFormat" value))
  | _, _, _, _, _, _, _, _, _, _, _, _, _, _, _, _, _, _, _, _ => None
  end.

(** [kv.get<NowPlayingData>(KV_KEY)] trusts the stored value to be a
    [NowPlayingData] or [null].  [asNowPlayingData] tells when it is,
    and reads it: the result is [Some (Some d)] for an object with the
    eleven fields at their types and [Some None] for [null]; it is
    [Some None] too for a boolean, a number, a string or an array,
    which have none of the properties the renderer reads, and [None]
    for any other object. *)
Definition asNowPlayingData (value : Json)
    : option (option NowPlayingData.t) :=
  match value with
  | JNull => Some None
  | JObj _ =>
      let str k := JsonValue.getString k value in
      let num k := JsonValue.getNumber k value in
      let artBase64 :=
        match JsonValue.get "artBase64" value with
        | Some (JStr s) => Some (Some s)
        | Some JNull => Some None
        | _ => None
        end in
      let colors :=
        match JsonValue.get "colors" value with
        | Some JNull => Some None
        | Some c =>
            match JsonValue.getString "dominant" c,
                  JsonValue.getString "accent" c,
                  JsonValue.getString "highlight" c with
            | Some d, Some a, Some h => Some (Some (ColorPalette.mk d a h))
            | _, _, _ => None
            end
        | None => None
        end in
      match str "title", str "artist", str "album", str "albumArtist",
            str "trackNumber", num "duration", num "progress",
            str "status", artBase64, colors, num "updatedAt" with
      | Some title, Some artist, Some album, Some albumArtist,
        Some trackNumber, Some duration, Some progress, Some status,
        Some art, Some palette, Some updatedAt =>
          Some (Some (NowPlayingData.mk title artist album albumArtist
                        trackNumber duration progress status art palette
                        updatedAt))
      | _, _, _, _, _, _, _, _, _, _, _ => None
      end
  | JBool _ | JNum _ | JStr _ | JArr _ => Some None
  end.

Section WithPlatform.

(** The environment and the platform: the shared secret, the JSON
    parser and printer, whether [kv.set] accepts a value (Deno KV
    throws for a value over its size limit of 64 KiB, and when the
    database cannot be written), the text of [./themes/<name>.json],
    the base64 text of [./fonts/<name>] (each [None] when the read
    fails), [Math.sin], [String(number)], [Number(string)] and
    [Date.now()].  [kv.get] is taken to succeed. *)
Variable API_KEY : string.
Variable parseJson : string -> option Json.
Variable stringify : Json -> string.
Variable kvAccepts : Json -> bool.
Variable readThemeFile : string -> option string.
Variable readFontBase64 : string -> option string.
Variable sin : float -> float.
Variable numToString : float -> string.
Variable stringToNumber : string -> float.
Variable now : float.

Definition validateAuth (req : Request.t) : bool :=
  match Request.authorization req with
  | None => false
  | Some EmptyString => false
  | Some auth =>
      match Js.split " " auth with
      | [ p0; p1 ] => String.eqb p0 "Bearer" && String.eqb p1 API_KEY
      | _ => false
      end
  end.

(** [await kv.set(KV_KEY, data)]: the store holds the value, or the
    call throws and the store is as before. *)
Definition storeNowPlaying (kv : Kv) (data : Json) : Outcome Kv :=
  if kvAccepts data then Returns (Some data) else Throws.

(** [result.value] is [null] when the key has no entry. *)
Definition getNowPlaying (kv : Kv) : Json :=
  match kv with
  | Some value => value
  | None => JNull
  end.

Definition jsonHeaders : list (string * string) :=
  [ ("Content-Type", "application/json") ].

Definition invalidJson : Response.t :=
  Response.mk 400 jsonHeaders
    (Some (Js.cat [ "{"; Js.dq; "error"; Js.dq; ":"; Js.dq; "Invalid JSON"; Js.dq; "}" ])).

(** The [try] encloses [req.json()] and [storeNowPlaying]: the [catch]
    answers 400 when the body does not parse and when the store throws. *)
Definition handlePostNowPlaying (req : Request.t) (kv : Kv)
    : Response.t * Kv :=
  if negb (validateAuth req)
  then (Response.mk 401 jsonHeaders
          (Some (Js.cat [ "{"; Js.dq; "error"; Js.dq; ":"; Js.dq; "Unauthorized"; Js.dq; "}" ])),
        kv)
  else
    match parseJson (Request.body req) with
    | Some data =>
        match storeNowPlaying kv data with
        | Returns kv' =>
            (Response.mk 200 jsonHeaders
               (Some (Js.cat [ "{"; Js.dq; "success"; Js.dq; ":true}" ])),
             kv')
        | Throws => (invalidJson, kv)
        end
    | None => (invalidJson, kv)
    end.

Record FontData := mkFontData { dataUrl : string; format : string }.

(** The cache returns what the first successful load returned; the
    files do not change, so it is left out. *)
Definition loadFontData (fileName : string) : option FontData :=
  if negb (FONT_FILE_PATTERN fileName) then None
  else
    match getFontFormat fileName with
    | None => None
    | Some format =>
        match readFontBase64 fileName with
        | None => None
        | Some base64 =>
            let mime :=
              if String.eqb format "woff2" then "font/woff2"
              else if String.eqb format "woff" then "font/woff"
              else if String.eqb format "truetype" then "font/ttf"
              else "font/otf" in
            Some (mkFontData
                    (Js.cat [ "data:"; mime; ";base64,"; base64 ])
                    format)
        end
    end.

Definition loadTheme (name : string) : option SvgConfig.t :=
  if negb (THEME_NAME_PATTERN name) then None
  else
    match readThemeFile name with
    | None => None
    | Some raw =>
        match parseJson raw with
        | None => None
        | Some parsed => isSvgConfig parsed
        end
    end.

Definition buildSvgConfig (params : list (string * string))
    : SvgConfig.t :=
  let themeParam := Js.orLit (paramsGet "theme" params) "default" in
  let themeName :=
    if THEME_NAME_PATTERN themeParam then themeParam else "default" in
  let theme := loadTheme themeName in
  let position := paramsGet "position" params in
  let albumPosition :=
    if Js.eqOptString position (Some "right")
    then Some AlbumPosition.Right
    else if Js.eqOptString position (Some "left")
    then Some AlbumPosition.Left
    else None in
  let textAlign := parseTextAlign (paramsGet "align" params) in
  let showStatus := parseBooleanParam (paramsGet "showStatus" params) in
  let showTitle := parseBooleanParam (paramsGet "showTitle" params) in
  let showArtist := parseBooleanParam (paramsGet "showArtist" params) in
  let showAlbum := parseBooleanParam (paramsGet "showAlbum" params) in
  let fontTitleFile := parseFontFile (paramsGet "fontTitle" params) in
  let fontBodyFile := parseFontFile (paramsGet "fontBody" params) in
  let fontTitleFamilyParam :=
    parseFontFamily (paramsGet "fontTitleFamily" params) in
  let fontBodyFamilyParam :=
    parseFontFamily (paramsGet "fontBodyFamily" params) in
  let fontTitleFamily :=
    Js.or fontTitleFamilyParam (option_map inferFontFamily fontTitleFile) in
  let fontBodyFamily :=
    Js.or fontBodyFamilyParam (option_map inferFontFamily fontBodyFile) in
  (* { ...defaultSvgConfig, ...(theme || {}) }: a theme has every field *)
  let base :=
    match theme with Some t => t | None => defaultSvgConfig end in
  let over {A} (o : option A) (f : SvgConfig.t -> A) : A :=
    match o with Some v => v | None => f base end in
  let overString (o : option string) (f : SvgConfig.t -> string) :=
    if Js.truthy o then Js.orLit o EmptyString else f base in
  let fontTitleFile' := overString fontTitleFile SvgConfig.fontTitleFile in
  let fontBodyFile' := overString fontBodyFile SvgConfig.fontBodyFile in
  let titleFont := loadFontData fontTitleFile' in
  let bodyFont := loadFontData fontBodyFile' in
  SvgConfig.mk
    (SvgConfig.width base) (SvgConfig.height base)
    (SvgConfig.cardBackground base) (SvgConfig.cardBorder base)
    (SvgConfig.textPrimary base) (SvgConfig.textSecondary base)
    (SvgConfig.textMuted base) (SvgConfig.albumSize base)
    (SvgConfig.borderRadius base)
    (over albumPosition SvgConfig.albumPosition)
    (over textAlign SvgConfig.textAlign)
    (over showStatus SvgConfig.showStatus)
    (over showTitle SvgConfig.showTitle)
    (over showArtist SvgConfig.showArtist)
    (over showAlbum SvgConfig.showAlbum)
    (overString fontTitleFamily SvgConfig.fontTitleFamily)
    (overString fontBodyFamily SvgConfig.fontBodyFamily)
    fontTitleFile' fontBodyFile'
    (SvgConfig.fontFallback base)
    (option_map dataUrl titleFont) (option_map dataUrl bodyFont)
    (option_map format titleFont) (option_map format bodyFont).

(** The renderer is called on the value of the store, whatever it is,
    and the handler throws when the renderer does. *)
Definition handleGetSvg (req : Request.t) (kv : Kv)
    : Outcome Response.t :=
  let data := getNowPlaying kv in
  let config := buildSvgConfig (Request.searchParams req) in
  JsValue.andThen
    (Runtime.generateNowPlayingSvg sin numToString stringToNumber now
       (Some data) config)
    (fun svg =>
       Returns (Response.mk 200
                  [ ("Content-Type", "image/svg+xml");
                    ("Cache-Control", "s-maxage=1") ]
                  (Some svg))).

Definition handleGetNowPlaying (kv : Kv) : Response.t :=
  Response.mk 200
    [ ("Content-Type", "application/json");
      ("Cache-Control", "no-cache") ]
    (Some (stringify (getNowPlaying kv))).

Definition previewPage (svg : string) : string :=
  Js.cat [ "<!doctype html>"; Js.nl; "<html lang="; Js.dq; "en"; Js.dq;
           ">"; Js.nl; "  "; "<head>"; Js.nl; "    "; "<meta charset=";
           Js.dq; "utf-8"; Js.dq; " />"; Js.nl; "    "; "<meta name=";
           Js.dq; "viewport"; Js.dq; " content="; Js.dq;
           "width=device-width, initial-scale=1"; Js.dq; " />"; Js.nl;
           "    "; "<title>Now Playing Preview</title>"; Js.nl; "    ";
           "<style>"; Js.nl; "      "; "body {"; Js.nl; "        ";
           "margin: 0;"; Js.nl; "        "; "padding: 32px;"; Js.nl;
           "        ";
           "font-family: ui-sans-serif, system-ui, -apple-system, ";
           Js.dq; "Segoe UI"; Js.dq; ", sans-serif;"; Js.nl; "        ";
           "background: #0b0c0f;"; Js.nl; "        "; "color: #e5e7eb;";
           Js.nl; "      "; "}"; Js.nl; "      "; ".container {"; Js.nl;
           "        "; "max-width: 900px;"; Js.nl; "        ";
           "margin: 0 auto;"; Js.nl; "      "; "}"; Js.nl; "      ";
           ".card {"; Js.nl; "        "; "background: #0f1115;"; Js.nl;
           "        "; "border: 1px solid #1f2430;"; Js.nl; "        ";
           "border-radius: 16px;"; Js.nl; "        "; "padding: 24px;";
           Js.nl; "        ";
           "box-shadow: 0 12px 30px rgba(0, 0, 0, 0.35);"; Js.nl;
           "      "; "}"; Js.nl; "      "; ".widget {"; Js.nl; "        ";
           "margin-top: 24px;"; Js.nl; "        "; "width: 100%;"; Js.nl;
           "        "; "display: flex;"; Js.nl; "        ";
           "justify-content: center;"; Js.nl; "      "; "}"; Js.nl;
           "      "; ".widget svg {"; Js.nl; "        ";
           "display: block;"; Js.nl; "        "; "width: 800px;"; Js.nl;
           "        "; "height: auto;"; Js.nl; "      "; "}"; Js.nl;
           "      "; "p {"; Js.nl; "        "; "line-height: 1.7;"; Js.nl;
           "        "; "color: #cbd5f5;"; Js.nl; "      "; "}"; Js.nl;
           "    "; "</style>"; Js.nl; "  "; "</head>"; Js.nl; "  ";
           "<body>"; Js.nl; "    "; "<div class="; Js.dq; "container";
           Js.dq; ">"; Js.nl; "      "; "<div class="; Js.dq; "card";
           Js.dq; ">"; Js.nl; "        "; "<p>"; Js.nl; "          ";
           "Lorem ipsum dolor sit amet, consectetur adipiscing elit. Integer sed";
           Js.nl; "          ";
           "tincidunt lorem. Donec semper, magna in pretium consequat, lorem orci";
           Js.nl; "          ";
           "pharetra neque, sed feugiat sapien mi sed urna. Mauris lacinia justo";
           Js.nl; "          ";
           "a mi consequat, a luctus lorem suscipit."; Js.nl; "        ";
           "</p>"; Js.nl; "        "; "<p>"; Js.nl; "          ";
           "Pellentesque habitant morbi tristique senectus et netus et malesuada";
           Js.nl; "          ";
           "fames ac turpis egestas. Nulla facilisi. Fusce at lectus erat. Sed";
           Js.nl; "          ";
           "posuere lorem eget nisl interdum, id condimentum felis tincidunt.";
           Js.nl; "        "; "</p>"; Js.nl; "        "; "<div class=";
           Js.dq; "widget"; Js.dq; ">"; svg; "</div>"; Js.nl; "      ";
           "</div>"; Js.nl; "    "; "</div>"; Js.nl; "  "; "</body>";
           Js.nl; "</html>" ].

Definition handleGetPreview (req : Request.t) (kv : Kv)
    : Outcome Response.t :=
  let data := getNowPlaying kv in
  let config := buildSvgConfig (Request.searchParams req) in
  JsValue.andThen
    (Runtime.generateNowPlayingSvg sin numToString stringToNumber now
       (Some data) config)
    (fun svg =>
       Returns (Response.mk 200
                  [ ("Content-Type", "text/html; charset=utf-8");
                    ("Cache-Control", "no-cache") ]
                  (Some (previewPage svg)))).

Definition corsHeaders : list (string * string) :=
  [ ("Access-Control-Allow-Origin", "*");
    ("Access-Control-Allow-Methods", "GET, POST, OPTIONS");
    ("Access-Control-Allow-Headers", "Authorization, Content-Type") ].

(** [headers.set(key, value)]. *)
Fixpoint headersSet (key value : string) (hs : list (string * string))
    : list (string * string) :=
  match hs with
  | [] => [ (key, value) ]
  | (k, v) :: r =>
      if String.eqb k key then (key, value) :: r
      else (k, v) :: headersSet key value r
  end.

Definition withCors (response : Response.t) : Response.t :=
  Response.mk (Response.status response)
    (fold_left (fun hs kv => headersSet (fst kv) (snd kv) hs)
               corsHeaders (Response.headers response))
    (Response.body response).

Definition endpoints : string :=
  Js.cat [ "{"; Js.dq; "endpoints"; Js.dq; ":{"; Js.dq; "widget"; Js.dq;
           ":"; Js.dq; "/now-playing.svg"; Js.dq; ","; Js.dq; "preview";
           Js.dq; ":"; Js.dq; "/preview"; Js.dq; ","; Js.dq; "update";
           Js.dq; ":"; Js.dq; "POST /api/now-playing"; Js.dq; ","; Js.dq;
           "debug"; Js.dq; ":"; Js.dq; "/api/now-playing"; Js.dq; "}}" ].

Definition internalServerError : Response.t :=
  Response.mk 500 jsonHeaders
    (Some (Js.cat [ "{"; Js.dq; "error"; Js.dq; ":"; Js.dq; "Internal server error"; Js.dq; "}" ])).

(** The response and the store after the request.  The routes are in
    a [try]: the response of a handler gets the CORS headers, and when
    a handler throws the [catch] answers 500, without them. *)
Definition handleRequest (req : Request.t) (kv : Kv)
    : Response.t * Kv :=
  let path := Request.pathname req in
  let method := Request.method req in
  if String.eqb method "OPTIONS"
  then (Response.mk 204 corsHeaders None, kv)
  else
    let routed : Outcome (Response.t * Kv) :=
      if String.eqb path "/now-playing.svg" && String.eqb method "GET"
      then JsValue.andThen (handleGetSvg req kv)
             (fun response => Returns (response, kv))
      else if String.eqb path "/preview" && String.eqb method "GET"
      then JsValue.andThen (handleGetPreview req kv)
             (fun response => Returns (response, kv))
      else if String.eqb path "/api/now-playing"
              && String.eqb method "POST"
      then Returns (handlePostNowPlaying req kv)
      else if String.eqb path "/api/now-playing"
              && String.eqb method "GET"
      then Returns (handleGetNowPlaying kv, kv)
      else if String.eqb path "/"
      then Returns (Response.mk 200 jsonHeaders (Some endpoints), kv)
      else Returns (Response.mk 404 jsonHeaders
                      (Some (Js.cat [ "{"; Js.dq; "error"; Js.dq; ":"; Js.dq; "Not found"; Js.dq; "}" ])),
                    kv) in
    match routed with
    | Returns (response, kv') => (withCors response, kv')
    | Throws => (internalServerError, kv)
    end.

End WithPlatform.

End Server.

(** ** Concrete inputs for the examples *)

Module Sample.

Local Open Scope float_scope.

(** Stand-ins for the platform.  [numToString] prints an integral
    number as [String(x)] does (below 1e21) and the integer part of any
    other; [sin] is not the sine.  The statements that use them do not
    depend on the digits printed or on the wave drawn. *)
Definition numToString (x : float) : string := Js.integralToString 10 x.
Definition sin (x : float) : float := 0.

(** The JSON texts the examples post; any other text is refused. *)
Definition parseJson (text : string) : option Json :=
  if String.eqb text "null" then Some JNull
  else if String.eqb text "[]" then Some (JArr [])
  else if String.eqb text "{}" then Some (JObj [])
  else None.

(** A store that takes every value, and one that takes none: [kv.set]
    throws, as it does for a value over the size limit. *)
Definition kvAccepts (value : Json) : bool := true.
Definition kvRefuses (value : Json) : bool := false.

(** [Number(string)] is applied to no string in the examples. *)
Definition stringToNumber (s : string) : float := PrimFloat.nan.

Definition stringify (value : Json) : string :=
  match value with
  | JNull => "null"
  | JArr [] => "[]"
  | JObj [] => "{}"
  | _ => EmptyString
  end.

(** No theme and no font on disk. *)
Definition readThemeFile (name : string) : option string := None.
Definition readFontBase64 (name : string) : option string := None.

Definition API_KEY : string := "devkey".

Definition track : TauonTrack.t :=
  TauonTrack.mk "Blue in Green" "Miles Davis" "Kind of Blue" "Miles Davis"
    337 5 3 "/music/kind-of-blue/03.flac" 12 false "3" false.

Definition status : TauonStatus.t :=
  TauonStatus.mk "playing" 1 false false 12.5 false 80 "Jazz" 40 5
    "Blue in Green" "Miles Davis" "Kind of Blue" (Some track) 3 12.

Definition palette : ColorPalette.t :=
  ColorPalette.mk "#1d2a44" "#233252" "#5b8dd9".

Definition artResult : ArtResult.t := ArtResult.mk "AAAA" palette.

Definition tick : Poller.Tick :=
  Poller.mkTick (Some status) (Some artResult) 1700000000000 true.

(** Track 5 was sent as playing; a stopped observation followed. *)
Definition stoppedMemory : Poller.Memory :=
  Poller.mkMemory (Some 5) (Some "playing") (Some "stopped")
    (Some "Kind of Blue") (Some "AAAA") (Some palette).

Definition snapshot : NowPlayingData.t :=
  NowPlayingData.mk "Blue in Green" "Miles Davis" "Kind of Blue"
    "Miles Davis" "3" 337 12.5 "playing" (Some "AAAA") (Some palette)
    1700000000000.

(** A title of 60 characters. *)
Definition longTitle : string :=
  "Concerto for Two Violins, Strings and Continuo in D minor...".

Definition longSnapshot : NowPlayingData.t :=
  NowPlayingData.mk longTitle "J. S. Bach" "Concertos" "J. S. Bach" "1"
    240 1 "playing" None None 1700000000000.

(** The default card with the text centred. *)
Definition centred : SvgConfig.t :=
  SvgConfig.mk 800 200 "#18181b" "#27272a" "#fafafa" "#cbd5e1" "#94a3b8"
    150 16 AlbumPosition.Left TextAlign.Center true true true true
    "DotGothic16" "Space Mono" "DotGothic16-Regular.ttf"
    "SpaceMono-Regular.ttf" "'Segoe UI', sans-serif" None None None None.

(** A card no wider than its album art and paddings: the text area, and
    with it the title clip, has width 0. *)
Definition narrow : SvgConfig.t :=
  SvgConfig.mk 200 200 "#18181b" "#27272a" "#fafafa" "#cbd5e1" "#94a3b8"
    150 16 AlbumPosition.Left TextAlign.Left true true true true
    "DotGothic16" "Space Mono" "DotGothic16-Regular.ttf"
    "SpaceMono-Regular.ttf" "'Segoe UI', sans-serif" None None None None.

(** One second after the sample snapshots were updated. *)
Definition freshNow : float := 1700000001000.

(** The sample snapshot as the store holds it. *)
Definition storedSnapshot : Json :=
  JObj [ ("title", JStr "Blue in Green"); ("artist", JStr "Miles Davis");
         ("album", JStr "Kind of Blue"); ("albumArtist", JStr "Miles Davis");
         ("trackNumber", JStr "3"); ("duration", JNum 337);
         ("progress", JNum 12.5); ("status", JStr "playing");
         ("artBase64", JStr "AAAA");
         ("colors",
          JObj [ ("dominant", JStr "#1d2a44"); ("accent", JStr "#233252");
                 ("highlight", JStr "#5b8dd9") ]);
         ("updatedAt", JNum 1700000000000) ].

(** A publish with the sample key and the given body; the requests for
    the image at the path the server routes and at [/widget.svg]. *)
Definition publish (body : string) : Request.t :=
  Request.mk "POST" "/api/now-playing" [] (Some "Bearer devkey") body.

Definition getNowPlayingSvg : Request.t :=
  Request.mk "GET" "/now-playing.svg" [ ("align", "center") ] None
    EmptyString.

Definition getWidgetSvg : Request.t :=
  Request.mk "GET" "/widget.svg" [] None EmptyString.

(** The server on the stand-ins of the platform. *)
Definition handleRequest
    : Request.t -> Server.Kv -> Response.t * Server.Kv :=
  Server.handleRequest API_KEY parseJson stringify kvAccepts readThemeFile
    readFontBase64 sin numToString stringToNumber freshNow.

(** The cards of the long title: on the default card, centred, and of
    the sample snapshot on the narrow card. *)
Definition longCard : string :=
  Svg.generateNowPlayingSvg sin numToString freshNow (Some longSnapshot)
    defaultSvgConfig.

Definition centredCard : string :=
  Svg.generateNowPlayingSvg sin numToString freshNow (Some longSnapshot)
    centred.

Definition narrowCard : string :=
  Svg.generateNowPlayingSvg sin numToString freshNow (Some snapshot) narrow.

End Sample.

(** ** Vocabulary of the statements about rendered markup *)

Module Markup.

Local Open Scope string_scope.

(** [x] is a substring of [s]. *)
Definition occurs (x s : string) : Prop :=
  exists a b, s = a ++ x ++ b.

(** The strings of [xs] occur in [s] one after the other, without
    overlap. *)
Fixpoint inOrder (xs : list string) (s : string) : Prop :=
  match xs with
  | [] => True
  | x :: r => exists a b, s = a ++ x ++ b /\ inOrder r b
  end.

(** No character of [s] opens a tag. *)
Fixpoint noLt (s : string) : bool :=
  match s with
  | String c r => negb (Ascii.eqb c "<") && noLt r
  | EmptyString => true
  end.

(** A scanner for the tag opening ["<" ++ rest], where [rest] has no
    ["<"].  Its state is [None] outside a candidate and [Some r] when
    the text read last is ["<"] and the part of [rest] before [r]. *)
Section Scan.

Variable rest : string.

Definition next (st : option string) (c : ascii) : option string :=
  if Ascii.eqb c "<" then Some rest
  else match st with
       | Some (String e r) => if Ascii.eqb c e then Some r else None
       | _ => None
       end.

Definition accepting (st : option string) : bool :=
  match st with
  | Some EmptyString => true
  | _ => false
  end.

(** [None] when the tag opening was read, the final state otherwise. *)
Fixpoint run (st : option string) (s : string)
    : option (option string) :=
  match s with
  | EmptyString => Some st
  | String c r =>
      let st' := next st c in
      if accepting st' then None else run st' r
  end.

(** The scanner does not find the tag opening in [s] and ends outside
    a candidate. *)
Definition clean (s : string) : Prop := run None s = Some None.

End Scan.

(** The name of the element that animates the scrolling title. *)
Definition scrollTag : string := "animateTransform".

(** The strings that a card interpolates as they are, other than numbers
    and escaped text, carry no tag opening of their own. *)
Definition plainOpt (o : option string) : bool :=
  match o with
  | Some s => noLt s
  | None => true
  end.

Definition plainConfig (config : SvgConfig.t) : bool :=
  noLt (SvgConfig.textPrimary config)
  && noLt (SvgConfig.textSecondary config)
  && noLt (SvgConfig.textMuted config)
  && noLt (SvgConfig.fontTitleFamily config)
  && noLt (SvgConfig.fontBodyFamily config)
  && noLt (SvgConfig.fontFallback config)
  && plainOpt (SvgConfig.fontTitleDataUrl config)
  && plainOpt (SvgConfig.fontBodyDataUrl config)
  && plainOpt (SvgConfig.fontTitleFormat config)
  && plainOpt (SvgConfig.fontBodyFormat config).

Definition plainSnapshot (d : NowPlayingData.t) : bool :=
  plainOpt (NowPlayingData.artBase64 d)
  && match NowPlayingData.colors d with
     | Some c => noLt (ColorPalette.accent c)
                 && noLt (ColorPalette.highlight c)
     | None => true
     end.

(** A valid colour: [#] and six digits of radix 16, of either case. *)
Definition isHexDigit (c : ascii) : bool :=
  match Js.hexValue c with Some _ => true | None => false end.

Definition isHexColor (s : string) : bool :=
  match s with
  | String "#" r =>
      (String.length r =? 6)%nat
      && forallb isHexDigit (list_ascii_of_string r)
  | _ => false
  end.

(** The elements the scrolling title is made of: a title text node at
    abscissa [x], and the looping translation by [distance]. *)
Definition titleTextNode (x y fill fontSize fontFamily content : string)
    : string :=
  Js.cat [ "<text x="; Js.dq; x; Js.dq; " y="; Js.dq; y; Js.dq;
           " fill="; Js.dq; fill; Js.dq; " font-size="; Js.dq; fontSize;
           Js.dq; " font-weight="; Js.dq; "600"; Js.dq; " filter="; Js.dq;
           "url(#textGlow)"; Js.dq; " font-family="; Js.dq; fontFamily;
           Js.dq; ">"; Js.nl; "          "; content; Js.nl; "        ";
           "</text>" ].

Definition loopingTranslation (distance : string) : string :=
  Js.cat [ "<animateTransform attributeName="; Js.dq; "transform"; Js.dq;
           " type="; Js.dq; "translate"; Js.dq; " from="; Js.dq; "0 0";
           Js.dq; " to="; Js.dq; "-"; distance; " 0"; Js.dq; " dur=";
           Js.dq; "15s"; Js.dq; " repeatCount="; Js.dq; "indefinite";
           Js.dq; " />" ].

(** The static title: one text node, anchored, with the given content. *)
Definition staticTitleNode
    (x y fill fontSize anchor fontFamily content : string) : string :=
  Js.cat [ "<text x="; Js.dq; x; Js.dq; " y="; Js.dq; y; Js.dq;
           " fill="; Js.dq; fill; Js.dq; " font-size="; Js.dq; fontSize;
           Js.dq; " font-weight="; Js.dq; "600"; Js.dq; " text-overflow=";
           Js.dq; "ellipsis"; Js.dq; " filter="; Js.dq; "url(#textGlow)";
           Js.dq; " text-anchor="; Js.dq; anchor; Js.dq; " font-family=";
           Js.dq; fontFamily; Js.dq; ">"; Js.nl; "      "; content; Js.nl;
           "    "; "</text>" ].

(** The body of the answer to a successful publish. *)
Definition successBody : string :=
  Js.cat [ "{"; Js.dq; "success"; Js.dq; ":true}" ].

(** The text of the status pill, as the content of its text node. *)
Definition pillText (label : string) : string :=
  Js.cat [ ">"; Js.nl; "      "; label; Js.nl; "    "; "</text>" ].

End Markup.

(** ** Finite checks behind the colour laws *)

Module Check.

Local Open Scope float_scope.

(** The channel values 0..255. *)
Definition channels : list float := map Js.ofNat (seq 0 256).

(** The digits of radix 16. *)
Definition hexChars : list ascii :=
  list_ascii_of_string "0123456789abcdefABCDEF".

(** The number two digits spell. *)
Definition pairValue (c1 c2 : ascii) : nat :=
  match Js.hexValue c1, Js.hexValue c2 with
  | Some v1, Some v2 => Z.to_nat (16 * v1 + v2)
  | _, _ => 0%nat
  end.

(** Two digits parse to the number they spell, below 256, and that number
    prints as the two digits in lowercase. *)
Definition pairOk (c1 c2 : ascii) : bool :=
  (pairValue c1 c2 <? 256)%nat
  && Leibniz.eqb (Js.parseInt16 (String c1 (String c2 EmptyString)))
       (Js.ofNat (pairValue c1 c2))
  && String.eqb (Js.padStart2 (Js.toString16 (Js.ofNat (pairValue c1 c2))))
       (String (Js.lowerChar c1)
          (String (Js.lowerChar c2) EmptyString)).

End Check.

(** ** poller/art.ts *)

Module Art.

Local Open Scope float_scope.

(** The remainder [n % d] of two numbers: of the sign of [n], exact. *)
Definition rem (n d : float) : float :=
  match Prim2SF n, Prim2SF d with
  | S754_nan, _ | _, S754_nan => PrimFloat.nan
  | S754_infinity _, _ => PrimFloat.nan
  | _, S754_infinity _ => n
  | _, S754_zero _ => PrimFloat.nan
  | S754_zero _, _ => n
  | S754_finite sn mn en, S754_finite _ md ed =>
      let e := Z.min en ed in
      let r :=
        ((Z.pos mn * 2 ^ (en - e)) mod (Z.pos md * 2 ^ (ed - e)))%Z in
      if (r =? 0)%Z then (if sn then PrimFloat.opp 0 else 0)
      else SF2Prim (binary_normalize prec emax (if sn then - r else r)%Z
                      e false)
  end.

(** The fields of [sharp.Stats] that the palette reads: the mean and the
    maximum of each of the channels 0, 1 and 2. *)
Record ChannelStats := mkChannelStats { mean : float; max : float }.
Record Stats := mkStats {
  red : ChannelStats;
  green : ChannelStats;
  blue : ChannelStats
}.

(** [value.toString(16).padStart(2, "0")]. *)
Definition toHex (value : float) : string :=
  Js.padStart2 (Js.toString16 value).

Definition extractDominantColor (stats : Stats) : string :=
  let r := Js.round (mean (red stats)) in
  let g := Js.round (mean (green stats)) in
  let b := Js.round (mean (blue stats)) in
  Js.cat [ "#"; toHex r; toHex g; toHex b ].

Definition calculateAccentColor (hexColor : string) : string :=
  let r := Js.parseInt16 (String.substring 1 2 hexColor) in
  let g := Js.parseInt16 (String.substring 3 2 hexColor) in
  let b := Js.parseInt16 (String.substring 5 2 hexColor) in
  let accentR := Js.min 255 (Js.round (r * 1.2)) in
  let accentG := Js.min 255 (Js.round (g * 1.2)) in
  let accentB := Js.min 255 (Js.round (b * 1.2)) in
  Js.cat [ "#"; toHex accentR; toHex accentG; toHex accentB ].

Record Hsl := mkHsl { h : float; s : float; l : float }.

Definition rgbToHsl (r g b : float) : Hsl :=
  let rNorm := r / 255 in
  let gNorm := g / 255 in
  let bNorm := b / 255 in
  let max := Js.max (Js.max rNorm gNorm) bNorm in
  let min := Js.min (Js.min rNorm gNorm) bNorm in
  let delta := max - min in
  let l := (max + min) / 2 in
  if negb (PrimFloat.eqb delta 0) then
    let s := delta / (1 - PrimFloat.abs (2 * l - 1)) in
    let h :=
      if PrimFloat.eqb max rNorm then rem ((gNorm - bNorm) / delta) 6
      else if PrimFloat.eqb max gNorm then (bNorm - rNorm) / delta + 2
      else if PrimFloat.eqb max bNorm then (rNorm - gNorm) / delta + 4
      else 0 in
    let h := h * 60 in
    let h := if PrimFloat.ltb h 0 then h + 360 else h in
    mkHsl h s l
  else mkHsl 0 0 l.

(** The channels of a pixel. *)
Record Pixel := mkPixel { pr : float; pg : float; pb : float }.

(** [raw[idx]] on a [Uint8Array]: the byte as a number; out of range it
    is [undefined], which every use here converts to NaN. *)
Definition byteAt (raw : list Byte.byte) (idx : nat) : float :=
  match nth_error raw idx with
  | Some v => Js.ofNat (Byte.to_nat v)
  | None => PrimFloat.nan
  end.

Section WithPlatform.

(** [Math.sqrt] and the operator [**], which the language leaves to the
    implementation. *)
Variable sqrt : float -> float.
Variable pow : float -> float -> float.

(** One turn of the loop of [extractHighlightFromRaw] on the pixel [i]:
    the best score and the best pixel after it. *)
Definition highlightStep (raw : list Byte.byte)
    (dominantR dominantG dominantB : float)
    (acc : float * option Pixel) (i : nat) : float * option Pixel :=
  let idx := (i * 3)%nat in
  let r := byteAt raw idx in
  let g := byteAt raw (idx + 1) in
  let b := byteAt raw (idx + 2) in
  if PrimFloat.ltb 235 r && PrimFloat.ltb 235 g && PrimFloat.ltb 235 b
  then acc
  else if PrimFloat.ltb r 20 && PrimFloat.ltb g 20 && PrimFloat.ltb b 20
  then acc
  else
    let hsl := rgbToHsl r g b in
    if PrimFloat.ltb (s hsl) 0.35 || PrimFloat.ltb (l hsl) 0.18
       || PrimFloat.ltb 0.85 (l hsl)
    then acc
    else
      let dist :=
        sqrt (pow (r - dominantR) 2 + pow (g - dominantG) 2
              + pow (b - dominantB) 2)
        / (sqrt 3 * 255) in
      let score :=
        s hsl * 0.7 + dist * 0.2
        + (1 - PrimFloat.abs (l hsl - 0.55)) * 0.1 in
      if PrimFloat.ltb (fst acc) score then (score, Some (mkPixel r g b))
      else acc.

(** [width] and [height] are the pixel counts that sharp reports for the
    raw buffer: whole numbers. *)
Definition extractHighlightFromRaw (raw : list Byte.byte)
    (width height : nat) (dominantHex : string) : option string :=
  let dominantR := Js.parseInt16 (String.substring 1 2 dominantHex) in
  let dominantG := Js.parseInt16 (String.substring 3 2 dominantHex) in
  let dominantB := Js.parseInt16 (String.substring 5 2 dominantHex) in
  let final :=
    fold_left (highlightStep raw dominantR dominantG dominantB)
              (seq 0 (width * height)) (0, None) in
  match snd final with
  | None => None
  | Some best =>
      Some (Js.cat [ "#"; toHex (pr best); toHex (pg best);
                     toHex (pb best) ])
  end.

Definition extractHighlightColor (stats : Stats) : string :=
  let r := Js.round (max (red stats)) in
  let g := Js.round (max (green stats)) in
  let b := Js.round (max (blue stats)) in
  Js.cat [ "#"; toHex r; toHex g; toHex b ].

Definition blendWithWhite (hexColor : string) (ratio : float) : string :=
  let r := Js.parseInt16 (String.substring 1 2 hexColor) in
  let g := Js.parseInt16 (String.substring 3 2 hexColor) in
  let b := Js.parseInt16 (String.substring 5 2 hexColor) in
  let blend (value : float) : float :=
    Js.min 255 (Js.round (value + (255 - value) * ratio)) in
  Js.cat [ "#"; toHex (blend r); toHex (blend g); toHex (blend b) ].

(** The result that [fetchAndResizeArt] assembles from what sharp
    returns: the statistics of the resized image, its 24 x 24 raw pixels
    with their dimensions, and the encoded JPEG. *)
Definition artResult (stats : Stats) (raw : list Byte.byte)
    (width height : nat) (base64 : string) : ArtResult.t :=
  let dominant := extractDominantColor stats in
  let accent := calculateAccentColor dominant in
  let highlightCandidate :=
    extractHighlightFromRaw raw width height dominant in
  let fallbackHighlight := extractHighlightColor stats in
  let highlight :=
    blendWithWhite (Js.orLit highlightCandidate fallbackHighlight) 0.10 in
  ArtResult.mk base64 (ColorPalette.mk dominant accent highlight).

End WithPlatform.

End Art.

(** ** Vocabulary of the statements about the poller's memory *)

Module Memory.

(** The last-sent pair is empty, or holds a track id with the status
    ["playing"] or ["paused"] it was sent with. *)
Definition sentTogether (m : Poller.Memory) : Prop :=
  match Poller.lastSentTrackId m, Poller.lastSentStatus m with
  | None, None => True
  | Some _, Some st => st = "playing" \/ st = "paused"
  | _, _ => False
  end.

(** The art cache is empty, or holds an album name, its art and its
    palette. *)
Definition cachedTogether (m : Poller.Memory) : Prop :=
  match Poller.lastAlbumName m, Poller.lastArtBase64 m,
        Poller.lastColors m with
  | None, None, None => True
  | Some _, Some _, Some _ => True
  | _, _, _ => False
  end.

(** The album name [poll] computes for the art cache. *)
Definition albumName (status : TauonStatus.t) : string :=
  Js.trim (Js.orLit (Js.or (Poller.trackField TauonTrack.album status)
                           (Some (TauonStatus.album status)))
                    EmptyString).

(** The tick [w] with another answer of the art fetch. *)
Definition withArt (w : Poller.Tick) (art : option ArtResult.t)
    : Poller.Tick :=
  Poller.mkTick (Poller.fetched w) art (Poller.now w) (Poller.sendOk w).

End Memory.

(** ** Finite checks behind the facts on whole numbers *)

Module Whole.

(** The whole numbers below [n], as the numbers of the language. *)
Definition upTo (n : nat) : list float := map Js.ofNat (seq 0 n).

(** Each number of the list is at most those that follow it. *)
Fixpoint ordered (l : list float) : bool :=
  match l with
  | [] => true
  | x :: r => forallb (PrimFloat.leb x) l && ordered r
  end.

End Whole.

(** ** Vocabulary of the statements about the title hash *)

Module Hash.

(** The polynomial in 31 that [hashString] computes, without the
    wrap-around to 32 bits: [h * 31^n + c1 * 31^(n-1) + ... + cn]. *)
Fixpoint horner (input : string) (h : Z) : Z :=
  match input with
  | String c r => horner r (31 * h + Z.of_nat (nat_of_ascii c))%Z
  | EmptyString => h
  end.

End Hash.

(** ** Vocabulary of the statements about colours *)

Module Channel.

Local Open Scope float_scope.

(** [x] is one of the channel values 0..255. *)
Definition isChannel (x : float) : bool :=
  existsb (Leibniz.eqb x) Check.channels.

(** [x] prints, in radix 16 and padded to two characters, as two digits
    that read back as [x]. *)
Definition printsAsPair (x : float) : bool :=
  match Js.padStart2 (Js.toString16 x) with
  | String c1 (String c2 EmptyString) =>
      Markup.isHexDigit c1 && Markup.isHexDigit c2
      && Leibniz.eqb (Js.ofNat (Check.pairValue c1 c2)) x
      && Ascii.eqb (Js.lowerChar c1) c1 && Ascii.eqb (Js.lowerChar c2) c2
  | _ => false
  end.

(** The blend of two channel values in [mixColors]. *)
Definition blend (a b ratio : float) : float :=
  Colors.clamp (Js.round (a * (1 - ratio) + b * ratio)).

(** The channel values that the two digits at [i] and [i + 1] of a colour
    spell, [#] included in the count. *)
Definition read (i : nat) (hex : string) : float :=
  Js.parseInt16 (String.substring i 2 hex).

End Channel.

(** ** Vocabulary of the statements about the highlight colour *)

Module Highlight.

Local Open Scope float_scope.

(** The pixel [i] of the buffer has the channels of [p], and [p] passes
    the filters of the loop of [extractHighlightFromRaw]: it is not
    near white, not near black, and saturated and light enough. *)
Definition candidate (raw : list Byte.byte) (i : nat) (p : Art.Pixel)
    : Prop :=
  exists r g b,
    nth_error raw (i * 3) = Some r
    /\ nth_error raw (i * 3 + 1) = Some g
    /\ nth_error raw (i * 3 + 2) = Some b
    /\ p = Art.mkPixel (Js.ofNat (Byte.to_nat r)) (Js.ofNat (Byte.to_nat g))
             (Js.ofNat (Byte.to_nat b))
    /\ PrimFloat.ltb 235 (Art.pr p) && PrimFloat.ltb 235 (Art.pg p)
       && PrimFloat.ltb 235 (Art.pb p) = false
    /\ PrimFloat.ltb (Art.pr p) 20 && PrimFloat.ltb (Art.pg p) 20
       && PrimFloat.ltb (Art.pb p) 20 = false
    /\ (let hsl := Art.rgbToHsl (Art.pr p) (Art.pg p) (Art.pb p) in
        PrimFloat.ltb (Art.s hsl) 0.35 || PrimFloat.ltb (Art.l hsl) 0.18
        || PrimFloat.ltb 0.85 (Art.l hsl) = false).

(** The text of a pixel as a colour. *)
Definition colourOf (p : Art.Pixel) : string :=
  Js.cat [ "#"; Art.toHex (Art.pr p); Art.toHex (Art.pg p);
           Art.toHex (Art.pb p) ].

(** The three bytes of the pixel [i] are equal, or missing alike. *)
Definition grey (raw : list Byte.byte) (i : nat) : Prop :=
  nth_error raw (i * 3) = nth_error raw (i * 3 + 1)
  /\ nth_error raw (i * 3 + 1) = nth_error raw (i * 3 + 2).

End Highlight.

(** ** More concrete inputs for the examples *)

Module Demo.

Local Open Scope float_scope.

(** Stand-ins for [Math.sqrt] and for [**], which the code uses for
    squares only. *)
Definition sqrt (x : float) : float := PrimFloat.sqrt x.
Definition pow (x y : float) : float := x * x.

(** One pixel, red (200, 30, 30), and one pixel, grey (128, 128, 128). *)
Definition redPixel : list Byte.byte := [ Byte.xc8; Byte.x1e; Byte.x1e ].
Definition greyPixel : list Byte.byte := [ Byte.x80; Byte.x80; Byte.x80 ].

(** Statistics with the means (29.4, 42, 67.6) and the maxima
    (255, 250, 255). *)
Definition stats : Art.Stats :=
  Art.mkStats (Art.mkChannelStats 29.4 255) (Art.mkChannelStats 42 250)
    (Art.mkChannelStats 67.6 255).


Definition pausedSnapshot : NowPlayingData.t :=
  NowPlayingData.mk "Blue in Green" "Miles Davis" "Kind of Blue"
    "Miles Davis" "3" 337 12.5 "paused" (Some "AAAA")
    (Some Sample.palette) 1700000000000.

(** Files that a path with a slash would reach. *)
Definition outsideThemes (name : string) : option string :=
  if String.eqb name "../secret" then Some "{}" else None.
Definition outsideFonts (name : string) : option string :=
  if String.eqb name "../fonts/secret.ttf" then Some "AAAA" else None.

(** A publish without its header, and the read of the stored value. *)
Definition anonymousPublish : Request.t :=
  Request.mk "POST" "/api/now-playing" [] None "null".
Definition readNowPlaying : Request.t :=
  Request.mk "GET" "/api/now-playing" [] None EmptyString.

(** The JSON value of the art of a snapshot. *)
Definition artValue (art : option string) : Json :=
  match art with Some s => JStr s | None => JNull end.

(** A key with a space, and a publish that carries it. *)
Definition spacedKey : string := "dev key".
Definition spacedPublish : Request.t :=
  Request.mk "POST" "/api/now-playing" [] (Some "Bearer dev key") "null".

(** The server with the spaced key, and the server on a store whose
    [kv.set] throws. *)
Definition spacedKeyServer
    : Request.t -> Server.Kv -> Response.t * Server.Kv :=
  Server.handleRequest spacedKey Sample.parseJson Sample.stringify
    Sample.kvAccepts Sample.readThemeFile Sample.readFontBase64 Sample.sin
    Sample.numToString Sample.stringToNumber Sample.freshNow.

Definition refusingStoreServer
    : Request.t -> Server.Kv -> Response.t * Server.Kv :=
  Server.handleRequest Sample.API_KEY Sample.parseJson Sample.stringify
    Sample.kvRefuses Sample.readThemeFile Sample.readFontBase64 Sample.sin
    Sample.numToString Sample.stringToNumber Sample.freshNow.

(** A value that a publish can store and that is no snapshot: an
    object with a status and a date, and no title; its JSON text, and
    the server with a parser that reads that text too. *)
Definition untitled : Json :=
  JObj [ ("status", JStr "playing"); ("updatedAt", JNum 1700000000000) ].

Definition untitledText : string :=
  Js.cat [ "{"; Js.dq; "status"; Js.dq; ":"; Js.dq; "playing"; Js.dq; ",";
           Js.dq; "updatedAt"; Js.dq; ":1700000000000}" ].

Definition parseJson (text : string) : option Json :=
  if String.eqb text untitledText then Some untitled
  else Sample.parseJson text.

Definition handleRequest
    : Request.t -> Server.Kv -> Response.t * Server.Kv :=
  Server.handleRequest Sample.API_KEY parseJson Sample.stringify
    Sample.kvAccepts Sample.readThemeFile Sample.readFontBase64 Sample.sin
    Sample.numToString Sample.stringToNumber Sample.freshNow.

End Demo.

(** * Properties *)

Local Open Scope string_scope.

Section StringFacts.

Lemma append_assoc (a b c : string) : (a ++ b) ++ c = a ++ (b ++ c).
Proof.
  induction a as [ | x a IH ]; cbn; [ reflexivity | now rewrite IH ].
Qed.

Lemma append_nil_r (a : string) : a ++ EmptyString = a.
Proof.
  induction a as [ | x a IH ]; cbn; [ reflexivity | now rewrite IH ].
Qed.

Lemma cat_cons (x : string) (l : list string) :
  Js.cat (x :: l) = x ++ Js.cat l.
Proof. reflexivity. Qed.

Lemma cat_app (l1 l2 : list string) :
  Js.cat (l1 ++ l2)%list = Js.cat l1 ++ Js.cat l2.
Proof.
  induction l1 as [ | x l1 IH ]; cbn; [ reflexivity | ].
  fold (Js.cat (l1 ++ l2)%list). fold (Js.cat l1).
  now rewrite IH, append_assoc.
Qed.

Lemma cat_single (x : string) : Js.cat [x] = x.
Proof. cbn. apply append_nil_r. Qed.

End StringFacts.

Section OccursFacts.

Import Markup.

Lemma occurs_refl (x : string) : occurs x x.
Proof.
  exists EmptyString, EmptyString. now rewrite append_nil_r.
Qed.

Lemma occurs_app_l (x p s : string) : occurs x s -> occurs x (p ++ s).
Proof.
  intros (a & b & ->). exists (p ++ a), b. now rewrite append_assoc.
Qed.

Lemma occurs_app_r (x p s : string) : occurs x s -> occurs x (s ++ p).
Proof.
  intros (a & b & ->). exists a, (b ++ p).
  now rewrite !append_assoc.
Qed.

Lemma occurs_trans (x y s : string) :
  occurs x y -> occurs y s -> occurs x s.
Proof.
  intros Hxy (a & b & ->).
  apply occurs_app_l, occurs_app_r, Hxy.
Qed.

Lemma occurs_cat (x p : string) (l : list string) :
  In p l -> occurs x p -> occurs x (Js.cat l).
Proof.
  induction l as [ | q l IH ]; [ intros [] | ].
  intros [-> | Hin] Hx; rewrite cat_cons.
  - now apply occurs_app_r.
  - apply occurs_app_l. now apply IH.
Qed.

Lemma inOrder_app_l (xs : list string) (p s : string) :
  inOrder xs s -> inOrder xs (p ++ s).
Proof.
  destruct xs as [ | x r ]; [ trivial | ].
  intros (a & b & -> & Hr). exists (p ++ a), b.
  split; [ now rewrite append_assoc | exact Hr ].
Qed.

Lemma inOrder_app_r (xs : list string) (p s : string) :
  inOrder xs s -> inOrder xs (s ++ p).
Proof.
  revert s. induction xs as [ | x r IH ]; [ trivial | ].
  intros s (a & b & -> & Hr). exists a, (b ++ p).
  split; [ now rewrite !append_assoc | now apply IH ].
Qed.

Lemma inOrder_cat (xs : list string) (p : string) (l : list string) :
  In p l -> inOrder xs p -> inOrder xs (Js.cat l).
Proof.
  induction l as [ | q l IH ]; [ intros [] | ].
  intros [-> | Hin] Hx; rewrite cat_cons.
  - now apply inOrder_app_r.
  - apply inOrder_app_l. now apply IH.
Qed.

(** In a template, the chunks [x] found after the chunks [pre] come
    before whatever occurs in order in the chunks after them. *)
Lemma inOrder_chunks (xs : list string) (pre x post : list string) :
  inOrder xs (Js.cat post) ->
  inOrder (Js.cat x :: xs) (Js.cat (pre ++ x ++ post)%list).
Proof.
  intros H. exists (Js.cat pre), (Js.cat post).
  split; [ now rewrite !cat_app | exact H ].
Qed.

Lemma occurs_of_inOrder (x : string) (xs : list string) (s : string) :
  inOrder (x :: xs) s -> occurs x s.
Proof.
  intros (a & b & -> & _). now exists a, b.
Qed.

Lemma inOrder_skip (xs : list string) (p : string) (l : list string) :
  inOrder xs (Js.cat l) -> inOrder xs (Js.cat (p :: l)).
Proof. rewrite cat_cons. apply inOrder_app_l. Qed.

Lemma inOrder_here (xs x post : list string) :
  inOrder xs (Js.cat post) ->
  inOrder (Js.cat x :: xs) (Js.cat (x ++ post)%list).
Proof. apply (inOrder_chunks xs [] x post). Qed.

Lemma inOrder_nil (s : string) : inOrder [] s.
Proof. exact I. Qed.

Lemma occurs_skip (x p : string) (l : list string) :
  occurs x (Js.cat l) -> occurs x (Js.cat (p :: l)).
Proof. rewrite cat_cons. apply occurs_app_l. Qed.

Lemma occurs_here (x post : list string) :
  occurs (Js.cat x) (Js.cat (x ++ post)%list).
Proof.
  apply occurs_of_inOrder with (xs := []), inOrder_here, inOrder_nil.
Qed.

End OccursFacts.

(** Membership of a chunk in a template, by position. *)
Ltac chunk := cbn [In]; repeat (first [ left; reflexivity | right ]).

(** The chunks [x] of a goal [occurs (Js.cat x) (Js.cat l)], found in [l]
    at the first position where they stand. *)
Ltac find_chunks :=
  lazymatch goal with
  | |- Markup.occurs (Js.cat ?x) (Js.cat ?l) =>
      let n := eval cbv in (List.length x) in
      first [ exact (occurs_here x (skipn n l))
            | apply occurs_skip; find_chunks ]
  end.

(** The same for chunks that follow one another. *)
Ltac find_in_order :=
  lazymatch goal with
  | |- Markup.inOrder [] _ => exact (inOrder_nil _)
  | |- Markup.inOrder (Js.cat ?x :: ?xs) (Js.cat ?l) =>
      let n := eval cbv in (List.length x) in
      first [ refine (inOrder_here xs x (skipn n l) _);
              cbn [skipn]; find_in_order
            | apply inOrder_skip; find_in_order ]
  end.

(** ** The admission filter and the poller *)

Section Admission.

Local Open Scope float_scope.

(** C1.  From empty memory, with every publish succeeding, the
    observations with track ids 5,5,5,7,7 and statuses playing, playing,
    paused, paused, paused are published at indices 0, 2 and 3 and at no
    other index, whatever the other fields of the observations, the art
    fetches and the clock are. *)
Theorem C1_publishes_at_0_2_3 :
  forall (w0 w1 w2 w3 w4 : Poller.Tick) (s0 s1 s2 s3 s4 : TauonStatus.t),
    map Poller.published
      (Poller.run Poller.initial
         [ Poller.observing w0 s0 5 "playing";
           Poller.observing w1 s1 5 "playing";
           Poller.observing w2 s2 5 "paused";
           Poller.observing w3 s3 7 "paused";
           Poller.observing w4 s4 7 "paused" ])
    = [true; false; true; true; false].
Proof.
  intros. reflexivity.
Qed.

Lemma shouldUpdate_resume (t : float) (s : TauonStatus.t) (w : Poller.Tick) :
  forall status,
    Poller.fetched (Poller.observing w s t "playing") = Some status ->
    State.shouldUpdate status (Some t) (Some "playing") (Some "stopped")
    = true.
Proof.
  intros status H. injection H as <-.
  unfold State.shouldUpdate. simpl.
  destruct (PrimFloat.eqb t t); reflexivity.
Qed.

(** C2.  For every track id [t]: when the memory records [t] and
    "playing" as last sent and "stopped" as last seen, the next
    observation of [t] with status "playing" is admitted by the filter
    and handed to the publish step, although track id and status both
    equal the last-sent values. *)
Theorem C2_resume_from_stopped_publishes :
  forall (t : float) (s : TauonStatus.t) (w : Poller.Tick)
         (m : Poller.Memory),
    Poller.lastSentTrackId m = Some t ->
    Poller.lastSentStatus m = Some "playing" ->
    Poller.lastSeenStatus m = Some "stopped" ->
    State.shouldUpdate (Poller.observed s t "playing")
      (Poller.lastSentTrackId m) (Poller.lastSentStatus m)
      (Poller.lastSeenStatus m) = true
    /\ Poller.published (Poller.poll m (Poller.observing w s t "playing"))
       = true.
Proof.
  intros t s w m Hid Hst Hseen.
  assert (Hup := shouldUpdate_resume t s w _ eq_refl).
  split.
  - rewrite Hid, Hst, Hseen. exact Hup.
  - unfold Poller.poll. cbn [Poller.fetched Poller.observing].
    rewrite Hid, Hst, Hseen, Hup. reflexivity.
Qed.

(** The memory of C2 arises from a run: publish [t] playing, observe
    [t] stopped, observe [t] playing again. *)
Lemma resume_sequence_publishes_twice :
  forall (t : float) (w0 w1 w2 : Poller.Tick) (s0 s1 s2 : TauonStatus.t),
    map Poller.published
      (Poller.run Poller.initial
         [ Poller.observing w0 s0 t "playing";
           Poller.observing w1 s1 t "stopped";
           Poller.observing w2 s2 t "playing" ])
    = [true; false; true].
Proof.
  intros. cbn. unfold State.shouldUpdate. cbn.
  destruct (PrimFloat.eqb t t); reflexivity.
Qed.

End Admission.

Lemma C2_witness :
  State.shouldUpdate (Poller.observed Sample.status 5 "playing")
    (Poller.lastSentTrackId Sample.stoppedMemory)
    (Poller.lastSentStatus Sample.stoppedMemory)
    (Poller.lastSeenStatus Sample.stoppedMemory) = true
  /\ Poller.published
       (Poller.poll Sample.stoppedMemory
          (Poller.observing Sample.tick Sample.status 5 "playing")) = true.
Proof.
  apply (C2_resume_from_stopped_publishes 5 Sample.status Sample.tick
           Sample.stoppedMemory); reflexivity.
Defined.

Section SnapshotInvariant.

Lemma artStep_both_or_neither (m : Poller.Memory) (w : Poller.Tick)
    (status : TauonStatus.t) :
  let r := Poller.artStep m w status in
  (exists b c, fst (fst r) = Some b /\ snd (fst r) = Some c)
  \/ (fst (fst r) = None /\ snd (fst r) = None).
Proof.
  unfold Poller.artStep.
  destruct (_ && _ && _); [ | right; split; reflexivity ].
  destruct (negb _) eqn:Hcached.
  - destruct (Poller.art w) as [a | ].
    + left. eexists. eexists. split; reflexivity.
    + right. split; reflexivity.
  - apply negb_false_iff in Hcached.
    apply andb_prop in Hcached as [Hcached Hcolors].
    apply andb_prop in Hcached as [_ Hart].
    destruct (Poller.lastColors m) as [c | ]; [ | discriminate ].
    destruct (Poller.lastArtBase64 m) as [b | ]; [ | discriminate ].
    left. exists b, c. split; reflexivity.
Qed.

(** C5.  A snapshot that [poll] assembles and hands to the publish step
    has [artBase64] and [colors] both present or both null, from any
    memory and whatever the outside world answers. *)
Theorem C5_art_and_colors_together :
  forall (m : Poller.Memory) (w : Poller.Tick) (d : NowPlayingData.t),
    Poller.sent (Poller.poll m w) = Some d ->
    (exists b c, NowPlayingData.artBase64 d = Some b
                 /\ NowPlayingData.colors d = Some c)
    \/ (NowPlayingData.artBase64 d = None
        /\ NowPlayingData.colors d = None).
Proof.
  intros m w d. unfold Poller.poll.
  destruct (Poller.fetched w) as [status | ]; [ | discriminate ].
  destruct (_ && _); [ discriminate | ].
  destruct (negb _); [ discriminate | ].
  cbn [Poller.sent]. intros H. injection H as <-.
  cbn [NowPlayingData.artBase64 NowPlayingData.colors].
  apply artStep_both_or_neither.
Qed.

End SnapshotInvariant.

Lemma C5_witness :
  (exists b c,
      NowPlayingData.artBase64 Sample.snapshot = Some b
      /\ NowPlayingData.colors Sample.snapshot = Some c)
  \/ (NowPlayingData.artBase64 Sample.snapshot = None
      /\ NowPlayingData.colors Sample.snapshot = None).
Proof.
  apply (C5_art_and_colors_together Poller.initial Sample.tick
           Sample.snapshot).
  reflexivity.
Defined.

(** ** The status pill *)

Section Rendering.

Import Markup.

Variable sin : float -> float.
Variable numToString : float -> string.

Local Open Scope float_scope.

(** A snapshot is stale exactly when the clock is more than five
    minutes past its [updatedAt]; it then has a track whatever its
    status says. *)
Lemma stale_hasTrack (now : float) (d : NowPlayingData.t) :
  Svg.isStale now (Some d) = true -> Svg.hasTrack now (Some d) = true.
Proof.
  unfold Svg.hasTrack. intros ->. apply orb_true_r.
Qed.

Lemma statusPill_stale (now : float) (d : NowPlayingData.t)
    (config : SvgConfig.t) :
  Svg.isStale now (Some d) = true ->
  occurs (pillText "LAST PLAYED")
    (Svg.statusPill numToString now (Some d) config).
Proof.
  intros Hstale. unfold Svg.statusPill, pillText. rewrite Hstale.
  find_chunks.
Qed.

(** C3.  A snapshot whose [updatedAt] is ten minutes before the render
    time, rendered with the status line visible, carries the pill text
    LAST PLAYED, whatever its [status] field holds. *)
Theorem C3_stale_snapshot_shows_last_played :
  forall (now : float) (d : NowPlayingData.t) (config : SvgConfig.t),
    now - NowPlayingData.updatedAt d = 10 * 60 * 1000 ->
    SvgConfig.showStatus config = true ->
    occurs (pillText "LAST PLAYED")
      (Svg.generateNowPlayingSvg sin numToString now (Some d) config)
    /\ occurs "LAST PLAYED"
         (Svg.generateNowPlayingSvg sin numToString now (Some d) config).
Proof.
  intros now d config Hage Hshow.
  assert (Hstale : Svg.isStale now (Some d) = true).
  { unfold Svg.isStale. rewrite Hage. reflexivity. }
  assert (Hpill :
    occurs (pillText "LAST PLAYED")
      (Svg.generateNowPlayingSvg sin numToString now (Some d) config)).
  { unfold Svg.generateNowPlayingSvg.
    eapply occurs_cat
      with (p := Svg.textContent numToString now (Some d) config);
      [ chunk | ].
    unfold Svg.textContent. rewrite (stale_hasTrack _ _ Hstale).
    unfold Svg.trackText. rewrite Hshow.
    eapply occurs_cat; [ | apply statusPill_stale, Hstale ]. chunk. }
  split; [ exact Hpill | ].
  eapply occurs_trans; [ | exact Hpill ].
  unfold pillText. eapply occurs_cat; [ | apply occurs_refl ]. chunk.
Qed.

End Rendering.

Lemma C3_witness :
  Markup.occurs (Markup.pillText "LAST PLAYED")
    (Svg.generateNowPlayingSvg Sample.sin Sample.numToString
       1700000600000 (Some Sample.snapshot) defaultSvgConfig)
  /\ Markup.occurs "LAST PLAYED"
       (Svg.generateNowPlayingSvg Sample.sin Sample.numToString
          1700000600000 (Some Sample.snapshot) defaultSvgConfig).
Proof.
  apply (C3_stale_snapshot_shows_last_played Sample.sin Sample.numToString
           1700000600000 Sample.snapshot defaultSvgConfig); reflexivity.
Defined.

(** ** The colour blend *)

Section ColourBlend.

Import Markup.
Import Check.
Local Open Scope float_scope.

(** Facts of binary64 arithmetic on the channel values 0..255, each checked
    on the 256 values. *)
Lemma channel_in (n : nat) : (n < 256)%nat -> In (Js.ofNat n) channels.
Proof.
  intros H. apply in_map, in_seq. lia.
Qed.

Lemma on_channels (P : float -> bool) :
  forallb P channels = true ->
  forall n, (n < 256)%nat -> P (Js.ofNat n) = true.
Proof.
  intros H n Hn. rewrite forallb_forall in H. apply H, channel_in, Hn.
Qed.

Lemma channel_mul_one (n : nat) :
  (n < 256)%nat -> Js.ofNat n * 1 = Js.ofNat n.
Proof.
  intros H. apply Leibniz.eqb_spec.
  apply (on_channels (fun x => Leibniz.eqb (x * 1) x)); [ | exact H ].
  vm_compute. reflexivity.
Qed.

Lemma channel_mul_zero (n : nat) : (n < 256)%nat -> Js.ofNat n * 0 = 0.
Proof.
  intros H. apply Leibniz.eqb_spec.
  apply (on_channels (fun x => Leibniz.eqb (x * 0) 0)); [ | exact H ].
  vm_compute. reflexivity.
Qed.

Lemma channel_add_zero (n : nat) :
  (n < 256)%nat -> Js.ofNat n + 0 = Js.ofNat n /\ 0 + Js.ofNat n = Js.ofNat n.
Proof.
  intros H. split; apply Leibniz.eqb_spec.
  - apply (on_channels (fun x => Leibniz.eqb (x + 0) x)); [ | exact H ].
    vm_compute. reflexivity.
  - apply (on_channels (fun x => Leibniz.eqb (0 + x) x)); [ | exact H ].
    vm_compute. reflexivity.
Qed.

Lemma channel_clamp_round (n : nat) :
  (n < 256)%nat -> Colors.clamp (Js.round (Js.ofNat n)) = Js.ofNat n.
Proof.
  intros H. apply Leibniz.eqb_spec.
  apply (on_channels
           (fun x => Leibniz.eqb (Colors.clamp (Js.round x)) x));
    [ | exact H ].
  vm_compute. reflexivity.
Qed.

(** The blend of two channel values at ratio 0 and at ratio 1. *)
Lemma channel_blend (a b : nat) :
  (a < 256)%nat -> (b < 256)%nat ->
  Colors.clamp (Js.round (Js.ofNat a * (1 - 0) + Js.ofNat b * 0)) = Js.ofNat a
  /\ Colors.clamp (Js.round (Js.ofNat a * (1 - 1) + Js.ofNat b * 1))
     = Js.ofNat b.
Proof.
  intros Ha Hb.
  change (1 - 0) with 1. change (1 - 1) with 0.
  rewrite !channel_mul_one, !channel_mul_zero by assumption.
  destruct (channel_add_zero a Ha) as [-> _].
  destruct (channel_add_zero b Hb) as [_ ->].
  split; apply channel_clamp_round; assumption.
Qed.

Lemma isHexDigit_in (c : ascii) : isHexDigit c = true -> In c hexChars.
Proof.
  destruct c as [[] [] [] [] [] [] [] []]; cbv; intros H;
    try discriminate H; repeat (first [ left; reflexivity | right ]).
Qed.

Lemma pairs_ok :
  forallb (fun c1 => forallb (pairOk c1) hexChars) hexChars = true.
Proof. vm_compute. reflexivity. Qed.

(** Two digits parse to a channel value, which prints as the two digits
    in lowercase. *)
Lemma hex_pair (c1 c2 : ascii) :
  isHexDigit c1 = true -> isHexDigit c2 = true ->
  (pairValue c1 c2 < 256)%nat
  /\ Js.parseInt16 (String c1 (String c2 EmptyString))
     = Js.ofNat (pairValue c1 c2)
  /\ Js.padStart2 (Js.toString16 (Js.ofNat (pairValue c1 c2)))
     = String (Js.lowerChar c1) (String (Js.lowerChar c2) EmptyString).
Proof.
  intros H1 H2.
  assert (Hok : pairOk c1 c2 = true).
  { pose proof pairs_ok as H. rewrite forallb_forall in H.
    specialize (H c1 (isHexDigit_in c1 H1)).
    rewrite forallb_forall in H. exact (H c2 (isHexDigit_in c2 H2)). }
  unfold pairOk in Hok.
  apply andb_prop in Hok as [Hok Hstr].
  apply andb_prop in Hok as [Hlt Hnum].
  repeat split.
  - now apply Nat.ltb_lt.
  - now apply Leibniz.eqb_spec.
  - now apply String.eqb_eq.
Qed.

Lemma isHexColor_inv (s : string) :
  isHexColor s = true ->
  exists c1 c2 c3 c4 c5 c6,
    s = String "#" (String c1 (String c2 (String c3 (String c4
          (String c5 (String c6 EmptyString))))))
    /\ isHexDigit c1 = true /\ isHexDigit c2 = true
    /\ isHexDigit c3 = true /\ isHexDigit c4 = true
    /\ isHexDigit c5 = true /\ isHexDigit c6 = true.
Proof.
  destruct s as [ | c0 s ]; [ discriminate | ].
  destruct c0 as [[] [] [] [] [] [] [] []]; try discriminate.
  destruct s as [ | c1 [ | c2 [ | c3 [ | c4 [ | c5 [ | c6 [ | c7 s ]]]]]]];
    try discriminate.
  cbn. intros H.
  repeat (apply andb_prop in H as [? H]).
  exists c1, c2, c3, c4, c5, c6. repeat split; assumption.
Qed.

Lemma mix_identities (c1 c2 c3 c4 c5 c6 d1 d2 d3 d4 d5 d6 : ascii) :
  let A := String "#" (String c1 (String c2 (String c3 (String c4
             (String c5 (String c6 EmptyString)))))) in
  let B := String "#" (String d1 (String d2 (String d3 (String d4
             (String d5 (String d6 EmptyString)))))) in
  isHexDigit c1 = true -> isHexDigit c2 = true -> isHexDigit c3 = true ->
  isHexDigit c4 = true -> isHexDigit c5 = true -> isHexDigit c6 = true ->
  isHexDigit d1 = true -> isHexDigit d2 = true -> isHexDigit d3 = true ->
  isHexDigit d4 = true -> isHexDigit d5 = true -> isHexDigit d6 = true ->
  Colors.mixColors A B 0 = Js.toLowerCase A
  /\ Colors.mixColors A B 1 = Js.toLowerCase B.
Proof.
  intros A B Hc1 Hc2 Hc3 Hc4 Hc5 Hc6 Hd1 Hd2 Hd3 Hd4 Hd5 Hd6.
  destruct (hex_pair c1 c2 Hc1 Hc2) as (La1 & Pa1 & Sa1).
  destruct (hex_pair c3 c4 Hc3 Hc4) as (La2 & Pa2 & Sa2).
  destruct (hex_pair c5 c6 Hc5 Hc6) as (La3 & Pa3 & Sa3).
  destruct (hex_pair d1 d2 Hd1 Hd2) as (Lb1 & Pb1 & Sb1).
  destruct (hex_pair d3 d4 Hd3 Hd4) as (Lb2 & Pb2 & Sb2).
  destruct (hex_pair d5 d6 Hd5 Hd6) as (Lb3 & Pb3 & Sb3).
  assert (HA : Colors.hexToRgb A
               = Colors.mkRgb (Js.ofNat (pairValue c1 c2))
                   (Js.ofNat (pairValue c3 c4)) (Js.ofNat (pairValue c5 c6))).
  { rewrite <- Pa1, <- Pa2, <- Pa3. reflexivity. }
  assert (HB : Colors.hexToRgb B
               = Colors.mkRgb (Js.ofNat (pairValue d1 d2))
                   (Js.ofNat (pairValue d3 d4)) (Js.ofNat (pairValue d5 d6))).
  { rewrite <- Pb1, <- Pb2, <- Pb3. reflexivity. }
  unfold Colors.mixColors. rewrite HA, HB.
  cbn [Colors.r Colors.g Colors.b].
  destruct (channel_blend _ _ La1 Lb1) as [-> ->].
  destruct (channel_blend _ _ La2 Lb2) as [-> ->].
  destruct (channel_blend _ _ La3 Lb3) as [-> ->].
  unfold Colors.rgbToHex.
  rewrite Sa1, Sa2, Sa3, Sb1, Sb2, Sb3.
  split; reflexivity.
Qed.

(** C8, as the code has it.  For valid colours [A] and [B], [mixColors]
    at ratio 0 returns [A] and at ratio 1 returns [B], each written with
    lowercase digits. *)
Theorem C8_mix_identities_lowercase :
  forall A B : string,
    isHexColor A = true -> isHexColor B = true ->
    Colors.mixColors A B 0 = Js.toLowerCase A
    /\ Colors.mixColors A B 1 = Js.toLowerCase B.
Proof.
  intros A B HA HB.
  destruct (isHexColor_inv A HA)
    as (c1 & c2 & c3 & c4 & c5 & c6 & -> & ? & ? & ? & ? & ? & ?).
  destruct (isHexColor_inv B HB)
    as (d1 & d2 & d3 & d4 & d5 & d6 & -> & ? & ? & ? & ? & ? & ?).
  apply mix_identities; assumption.
Qed.

End ColourBlend.

Lemma C8_witness :
  Colors.mixColors "#1d2a44" "#5B8DD9" 0 = Js.toLowerCase "#1d2a44"
  /\ Colors.mixColors "#1d2a44" "#5B8DD9" 1 = Js.toLowerCase "#5B8DD9".
Proof.
  apply (C8_mix_identities_lowercase "#1d2a44" "#5B8DD9"); reflexivity.
Defined.

(** C8 as stated fails on a colour written with capital digits: the
    result is the same colour in lowercase, a different string. *)
Lemma C8_counterexample :
  Markup.isHexColor "#FFFFFF" = true
  /\ Markup.isHexColor "#000000" = true
  /\ Colors.mixColors "#FFFFFF" "#000000" 0 = "#ffffff"
  /\ Colors.mixColors "#FFFFFF" "#000000" 0 <> "#FFFFFF".
Proof.
  assert (E : Colors.mixColors "#FFFFFF" "#000000" 0 = "#ffffff")
    by (vm_compute; reflexivity).
  split; [ reflexivity | ]. split; [ reflexivity | ].
  split; [ exact E | ]. rewrite E. discriminate.
Qed.

(** ** The scrolling title *)

Section ScanFacts.

Import Markup.

Lemma noLt_app (a b : string) : noLt (a ++ b) = noLt a && noLt b.
Proof.
  induction a as [ | c a IH ]; cbn; [ reflexivity | ].
  now rewrite IH, andb_assoc.
Qed.

Lemma noLt_cat (l : list string) :
  forallb noLt l = true -> noLt (Js.cat l) = true.
Proof.
  induction l as [ | x l IH ]; cbn; [ reflexivity | ].
  intros H. apply andb_prop in H as [Hx Hl].
  fold (Js.cat l). now rewrite noLt_app, Hx, IH.
Qed.

Variable rest : string.
Hypothesis rest_plain : noLt rest = true.

Lemma run_app (a b : string) (st : option string) :
  run rest st (a ++ b)
  = match run rest st a with
    | None => None
    | Some st' => run rest st' b
    end.
Proof.
  revert st. induction a as [ | c a IH ]; intros st; cbn; [ reflexivity | ].
  destruct (accepting (next rest st c)); [ reflexivity | apply IH ].
Qed.

(** Once ["<"] is read, the rest of the tag opening leads to acceptance. *)
Lemma run_match (r b : string) :
  noLt r = true -> r <> EmptyString -> run rest (Some r) (r ++ b) = None.
Proof.
  revert b. induction r as [ | e r IH ]; intros b Hr Hne; [ easy | ].
  cbn in Hr. apply andb_prop in Hr as [He Hr].
  apply negb_true_iff in He.
  cbn. unfold next. rewrite He, Ascii.eqb_refl.
  destruct r as [ | e' r' ]; [ reflexivity | ].
  cbn [accepting]. apply IH; [ exact Hr | discriminate ].
Qed.

Lemma run_tag (b : string) (st : option string) :
  run rest st (String "<" rest ++ b) = None.
Proof.
  change (run rest st (String "<" rest ++ b))
    with (if accepting (Some rest) then None
          else run rest (Some rest) (rest ++ b)).
  destruct (accepting (Some rest)) eqn:Hacc; [ reflexivity | ].
  apply run_match; [ exact rest_plain | ].
  intros E. rewrite E in Hacc. discriminate.
Qed.

Lemma run_found (s : string) (st : option string) :
  occurs (String "<" rest) s -> run rest st s = None.
Proof.
  intros (a & b & ->). rewrite run_app.
  destruct (run rest st a) as [ st' | ]; [ apply run_tag | reflexivity ].
Qed.

Lemma clean_not_occurs (s : string) :
  clean rest s -> ~ occurs (String "<" rest) s.
Proof.
  unfold clean. intros Hc Ho. now rewrite (run_found s None Ho) in Hc.
Qed.

Lemma clean_app (a b : string) :
  clean rest a -> clean rest b -> clean rest (a ++ b).
Proof.
  unfold clean. intros Ha Hb. now rewrite run_app, Ha.
Qed.

Lemma clean_cat (l : list string) :
  Forall (clean rest) l -> clean rest (Js.cat l).
Proof.
  induction 1 as [ | x l Hx Hl IH ]; [ reflexivity | ].
  rewrite cat_cons. now apply clean_app.
Qed.

Lemma clean_plain (s : string) : noLt s = true -> clean rest s.
Proof.
  unfold clean. induction s as [ | c s IH ]; [ reflexivity | ].
  cbn. intros H. apply andb_prop in H as [Hc Hs].
  apply negb_true_iff in Hc. unfold next. rewrite Hc. cbn. now apply IH.
Qed.

End ScanFacts.

Section PlainStrings.

Import Markup.

Lemma noLt_replaceAll (c : ascii) (rep s : string) :
  noLt rep = true ->
  (Ascii.eqb c "<" = true \/ noLt s = true) ->
  noLt (Js.replaceAll c rep s) = true.
Proof.
  intros Hrep Hs. induction s as [ | x s IH ]; [ reflexivity | ].
  cbn. destruct (Ascii.eqb x c) eqn:Hx.
  - rewrite noLt_app, Hrep. apply IH.
    destruct Hs as [Hc | Hs]; [ now left | right ].
    cbn in Hs. now apply andb_prop in Hs.
  - cbn. destruct Hs as [Hc | Hs].
    + apply Ascii.eqb_eq in Hc. subst c.
      rewrite Hx. cbn. apply IH. now left.
    + cbn in Hs. apply andb_prop in Hs as [-> Hs]. cbn. apply IH. now right.
Qed.

Lemma escapeXml_plain (text : string) : noLt (Text.escapeXml text) = true.
Proof.
  unfold Text.escapeXml.
  do 3 (apply noLt_replaceAll; [ reflexivity | right ]).
  apply noLt_replaceAll; [ reflexivity | now left ].
Qed.

(** A digit of a radix up to 36 is a decimal digit or a small letter. *)
Lemma digit_plain (d : Z) :
  (0 <= d < 36)%Z -> Ascii.eqb (Js.digit d) "<" = false.
Proof.
  intros Hd. apply Ascii.eqb_neq. intros E.
  apply (f_equal N_of_ascii) in E. unfold Js.digit in E.
  change (N_of_ascii "<") with 60%N in E.
  destruct (d <? 10)%Z eqn:Hlt;
    [ apply Z.ltb_lt in Hlt | apply Z.ltb_ge in Hlt ];
    rewrite N_ascii_embedding in E by lia; lia.
Qed.

Lemma digits_plain (radix : Z) (fuel : nat) (z : Z) (acc : string) :
  (0 < radix <= 36)%Z -> noLt acc = true ->
  noLt (Js.digits radix fuel z acc) = true.
Proof.
  intros Hr. revert z acc.
  induction fuel as [ | fuel IH ]; intros z acc Hacc; [ exact Hacc | ].
  cbn [Js.digits].
  assert (Hd : noLt (String (Js.digit (z mod radix)) acc) = true).
  { cbn. rewrite digit_plain, Hacc; [ reflexivity | ].
    pose proof (Z.mod_pos_bound z radix). lia. }
  destruct (z <? radix)%Z; [ exact Hd | now apply IH ].
Qed.

Lemma natToString_plain (radix z : Z) :
  (0 < radix <= 36)%Z -> noLt (Js.natToString radix z) = true.
Proof.
  intros Hr. apply digits_plain; [ exact Hr | reflexivity ].
Qed.

Lemma integralToString_plain (radix : Z) (x : float) :
  (0 < radix <= 36)%Z -> noLt (Js.integralToString radix x) = true.
Proof.
  intros Hr. unfold Js.integralToString.
  destruct (Prim2SF x) as [ s | s | | s m e ];
    try reflexivity; [ now destruct s | ].
  destruct (_ && _); [ rewrite noLt_app, natToString_plain by exact Hr;
                       reflexivity | ].
  now apply natToString_plain.
Qed.

Lemma padStart2_plain (s : string) :
  noLt s = true -> noLt (Js.padStart2 s) = true.
Proof.
  destruct s as [ | c [ | c' s ] ]; cbn; intros H; exact H.
Qed.

Lemma mixColors_plain (a b : string) (ratio : float) :
  noLt (Colors.mixColors a b ratio) = true.
Proof.
  unfold Colors.mixColors, Colors.rgbToHex. apply noLt_cat. cbn [forallb].
  rewrite !padStart2_plain; [ reflexivity | | | ];
    apply integralToString_plain; lia.
Qed.

Lemma sample_numToString_plain (x : float) :
  noLt (Sample.numToString x) = true.
Proof. apply integralToString_plain. lia. Qed.

Lemma orLit_plain (o : option string) (d : string) :
  match o with Some s => noLt s = true | None => True end ->
  noLt d = true -> noLt (Js.orLit o d) = true.
Proof.
  destruct o as [ [ | c s ] | ]; cbn; intros Ho Hd; assumption.
Qed.

End PlainStrings.

(** A chunk of a template is free of the scroll tag: a literal by running
    the scanner, a conditional by cases, anything else from the facts of
    the [plain] database. *)
Create HintDb plain discriminated.
#[global] Hint Constants Opaque : plain.
#[global] Hint Variables Opaque : plain.

Ltac clean_chunk :=
  lazymatch goal with
  | |- Markup.clean _ (String _ _) => vm_compute; reflexivity
  | |- Markup.clean _ EmptyString => reflexivity
  | |- Markup.clean _ (if ?b then _ else _) => destruct b; clean_chunk
  | |- Markup.clean _ _ =>
      first [ solve [ auto with plain ]
            | apply clean_plain; solve [ auto with plain ] ]
  end.

Ltac clean_template :=
  apply clean_cat; repeat (apply Forall_cons; [ clean_chunk | ]);
  apply Forall_nil.

Section CleanCard.

Import Markup.

Variable sin : float -> float.
Variable numToString : float -> string.
Hypothesis numToString_plain : forall x, noLt (numToString x) = true.

Lemma clean_match_option {A : Type} (rest : string) (o : option A)
    (f : A -> string) (g : string) :
  (forall d, o = Some d -> clean rest (f d)) -> clean rest g ->
  clean rest (match o with Some d => f d | None => g end).
Proof.
  intros Hf Hg. destruct o as [ d | ]; [ now apply Hf | exact Hg ].
Qed.

Lemma dq_clean : clean scrollTag Js.dq.
Proof. reflexivity. Qed.

Lemma nl_clean : clean scrollTag Js.nl.
Proof. reflexivity. Qed.

#[local] Hint Resolve dq_clean nl_clean numToString_plain escapeXml_plain
  mixColors_plain : plain.

Lemma quads_plain (prev : Waves.Point) (rest : list Waves.Point) :
  noLt (Waves.quads numToString prev rest) = true.
Proof.
  revert prev. induction rest as [ | current rest IH ]; intros prev;
    [ reflexivity | ].
  destruct rest as [ | next rest ]; [ reflexivity | ].
  change (Waves.quads numToString prev (current :: next :: rest))
    with (Js.cat
            [ " Q "; numToString (Waves.x prev); " ";
              numToString (Waves.y prev); " ";
              numToString ((Waves.x prev + Waves.x current) / 2)%float; " ";
              numToString ((Waves.y prev + Waves.y current) / 2)%float;
              Waves.quads numToString current (next :: rest) ]).
  apply noLt_cat. cbn [forallb].
  rewrite !numToString_plain, IH. reflexivity.
Qed.

Lemma wavePath_plain (startX endX baseY height : float) (points : nat)
    (seed : float) :
  noLt (Waves.generateWavePath sin numToString startX endX baseY height
          points seed) = true.
Proof.
  unfold Waves.generateWavePath. apply noLt_cat. cbn [forallb].
  rewrite !numToString_plain, quads_plain. reflexivity.
Qed.

#[local] Hint Resolve wavePath_plain : plain.

Lemma waveformLayer_clean (color : string)
    (opacity startX endX baseY height seed duration : float) :
  noLt color = true ->
  clean scrollTag
    (Waves.generateWaveformLayer sin numToString color opacity startX endX
       baseY height seed duration).
Proof.
  intros Hcolor. unfold Waves.generateWaveformLayer. clean_template.
Qed.

Lemma placeholder_clean (albumX albumY albumSize : float) (color : string) :
  noLt color = true ->
  clean scrollTag
    (Icons.generateMusicNotePlaceholder numToString albumX albumY albumSize
       color).
Proof.
  intros Hcolor. unfold Icons.generateMusicNotePlaceholder. clean_template.
Qed.

Variable now : float.
Variable data : option NowPlayingData.t.
Variable config : SvgConfig.t.

Hypothesis config_plain : plainConfig config = true.
Hypothesis data_plain :
  match data with Some d => plainSnapshot d = true | None => True end.

Lemma config_strings_plain :
  noLt (SvgConfig.textPrimary config) = true
  /\ noLt (SvgConfig.textSecondary config) = true
  /\ noLt (SvgConfig.textMuted config) = true
  /\ noLt (SvgConfig.fontTitleFamily config) = true
  /\ noLt (SvgConfig.fontBodyFamily config) = true
  /\ noLt (SvgConfig.fontFallback config) = true
  /\ plainOpt (SvgConfig.fontTitleDataUrl config) = true
  /\ plainOpt (SvgConfig.fontBodyDataUrl config) = true
  /\ plainOpt (SvgConfig.fontTitleFormat config) = true
  /\ plainOpt (SvgConfig.fontBodyFormat config) = true.
Proof.
  pose proof config_plain as H. unfold plainConfig in H.
  repeat (apply andb_prop in H as [H ?]). repeat split; assumption.
Qed.

Lemma textPrimary_plain : noLt (SvgConfig.textPrimary config) = true.
Proof. apply config_strings_plain. Qed.
Lemma textSecondary_plain : noLt (SvgConfig.textSecondary config) = true.
Proof. apply config_strings_plain. Qed.
Lemma textMuted_plain : noLt (SvgConfig.textMuted config) = true.
Proof. apply config_strings_plain. Qed.
Lemma configTitleFamily_plain :
  noLt (SvgConfig.fontTitleFamily config) = true.
Proof. apply config_strings_plain. Qed.
Lemma configBodyFamily_plain :
  noLt (SvgConfig.fontBodyFamily config) = true.
Proof. apply config_strings_plain. Qed.

Lemma orLit_opt_plain (o : option string) (d : string) :
  plainOpt o = true -> noLt d = true -> noLt (Js.orLit o d) = true.
Proof.
  destruct o as [ [ | c s ] | ]; cbn; intros Ho Hd; assumption.
Qed.

Lemma fontFallback_plain : noLt (Svg.fontFallback config) = true.
Proof.
  unfold Svg.fontFallback. apply orLit_opt_plain; [ | reflexivity ].
  apply config_strings_plain.
Qed.

Lemma fontTitleFamily_plain : noLt (Svg.fontTitleFamily config) = true.
Proof.
  unfold Svg.fontTitleFamily. destruct (Js.truthy _).
  - apply noLt_cat. cbn [forallb].
    now rewrite configTitleFamily_plain, fontFallback_plain.
  - apply fontFallback_plain.
Qed.

Lemma fontBodyFamily_plain : noLt (Svg.fontBodyFamily config) = true.
Proof.
  unfold Svg.fontBodyFamily. destruct (Js.truthy _).
  - apply noLt_cat. cbn [forallb].
    now rewrite configBodyFamily_plain, fontFallback_plain.
  - apply fontFallback_plain.
Qed.

Lemma textAnchor_plain : noLt (Svg.textAnchor config) = true.
Proof. unfold Svg.textAnchor. now destruct (Svg.textAlign config). Qed.

Lemma colorsField_plain (f : ColorPalette.t -> string) :
  (forall d c, data = Some d -> NowPlayingData.colors d = Some c ->
               noLt (f c) = true) ->
  plainOpt (Svg.colorsField data f) = true.
Proof.
  intros Hf. unfold Svg.colorsField.
  destruct data as [ d | ]; [ | reflexivity ].
  destruct (NowPlayingData.colors d) as [ c | ] eqn:Hc; [ | reflexivity ].
  cbn. now apply (Hf d c).
Qed.

Lemma accentColor_plain : noLt (Svg.accentColor data) = true.
Proof.
  unfold Svg.accentColor. apply orLit_opt_plain; [ | reflexivity ].
  apply colorsField_plain. intros d c Hd Hc.
  pose proof data_plain as H. rewrite Hd in H. unfold plainSnapshot in H.
  rewrite Hc in H. apply andb_prop in H as [_ H].
  now apply andb_prop in H.
Qed.

Lemma highlight_plain : noLt (Svg.highlight data) = true.
Proof.
  unfold Svg.highlight.
  apply orLit_opt_plain; [ | apply mixColors_plain ].
  apply colorsField_plain. intros d c Hd Hc.
  pose proof data_plain as H. rewrite Hd in H. unfold plainSnapshot in H.
  rewrite Hc in H. apply andb_prop in H as [_ H].
  now apply andb_prop in H.
Qed.

Lemma baseDark_plain : noLt (Svg.baseDark data config) = true.
Proof. unfold Svg.baseDark. apply mixColors_plain. Qed.

Lemma midDark_plain : noLt (Svg.midDark data config) = true.
Proof. unfold Svg.midDark. apply mixColors_plain. Qed.

Lemma titleFontFace_plain : noLt (Svg.titleFontFace config) = true.
Proof.
  unfold Svg.titleFontFace. apply noLt_cat. cbn [forallb].
  rewrite configTitleFamily_plain.
  rewrite !orLit_opt_plain; try reflexivity; apply config_strings_plain.
Qed.

Lemma bodyFontFace_plain : noLt (Svg.bodyFontFace config) = true.
Proof.
  unfold Svg.bodyFontFace. apply noLt_cat. cbn [forallb].
  rewrite configBodyFamily_plain.
  rewrite !orLit_opt_plain; try reflexivity; apply config_strings_plain.
Qed.

Lemma join_plain (sep : string) (l : list string) :
  noLt sep = true -> forallb noLt l = true -> noLt (Js.join sep l) = true.
Proof.
  intros Hsep. induction l as [ | x l IH ]; [ reflexivity | ].
  cbn [forallb]. intros H. apply andb_prop in H as [Hx Hl].
  destruct l as [ | y l ]; [ exact Hx | ].
  change (Js.join sep (x :: y :: l)) with (x ++ sep ++ Js.join sep (y :: l)).
  now rewrite !noLt_app, Hx, Hsep, IH.
Qed.

Lemma filter_plain (f : string -> bool) (l : list string) :
  forallb noLt l = true -> forallb noLt (filter f l) = true.
Proof.
  induction l as [ | x l IH ]; [ reflexivity | ].
  cbn. intros H. apply andb_prop in H as [Hx Hl].
  destruct (f x); cbn; [ rewrite Hx | ]; now apply IH.
Qed.

Lemma fontFaces_plain : noLt (Svg.fontFaces config) = true.
Proof.
  unfold Svg.fontFaces. apply join_plain; [ reflexivity | ].
  apply filter_plain. cbn [forallb].
  destruct (Js.truthy (SvgConfig.fontTitleDataUrl config) && _);
    destruct (Js.truthy (SvgConfig.fontBodyDataUrl config) && _);
    rewrite ?titleFontFace_plain, ?bodyFontFace_plain; reflexivity.
Qed.

#[local] Hint Resolve textPrimary_plain textSecondary_plain textMuted_plain
  fontTitleFamily_plain fontBodyFamily_plain textAnchor_plain
  accentColor_plain highlight_plain baseDark_plain midDark_plain
  fontFaces_plain : plain.

Lemma styleBlock_clean : clean scrollTag (Svg.styleBlock config).
Proof.
  unfold Svg.styleBlock. destruct (Js.truthy _); [ | reflexivity ].
  clean_template.
Qed.

#[local] Hint Resolve waveformLayer_clean placeholder_clean : plain.

Lemma playingWave_clean :
  clean scrollTag (Svg.playingWave sin numToString data config).
Proof. unfold Svg.playingWave. clean_template. Qed.

Lemma statusPill_clean :
  clean scrollTag (Svg.statusPill numToString now data config).
Proof. unfold Svg.statusPill. clean_template. Qed.

Lemma titleStatic_clean (d : NowPlayingData.t) :
  clean scrollTag (Svg.titleStatic numToString config d).
Proof. unfold Svg.titleStatic. clean_template. Qed.

Lemma artistLine_clean (d : NowPlayingData.t) :
  clean scrollTag (Svg.artistLine numToString config d).
Proof. unfold Svg.artistLine. clean_template. Qed.

Lemma albumLine_clean (d : NowPlayingData.t) :
  clean scrollTag (Svg.albumLine numToString config d).
Proof. unfold Svg.albumLine. clean_template. Qed.

Lemma nothingPlaying_clean :
  clean scrollTag (Svg.nothingPlaying numToString config).
Proof. unfold Svg.nothingPlaying. clean_template. Qed.

#[local] Hint Resolve styleBlock_clean playingWave_clean statusPill_clean
  titleStatic_clean artistLine_clean albumLine_clean nothingPlaying_clean
  : plain.

(** Without the scrolling branch the title block is free of the tag. *)
Lemma titleBlock_clean (d : NowPlayingData.t) :
  Svg.titleScrollNeeded data config = false ->
  clean scrollTag (Svg.titleBlock numToString data config d).
Proof.
  intros Hscroll. unfold Svg.titleBlock. rewrite Hscroll. clean_template.
Qed.

Lemma trackText_clean (d : NowPlayingData.t) :
  Svg.titleScrollNeeded data config = false ->
  clean scrollTag (Svg.trackText numToString now data config d).
Proof.
  intros Hscroll. pose proof (titleBlock_clean d Hscroll).
  unfold Svg.trackText. clean_template.
Qed.

Lemma textContent_clean :
  Svg.titleScrollNeeded data config = false ->
  clean scrollTag (Svg.textContent numToString now data config).
Proof.
  intros Hscroll. unfold Svg.textContent.
  apply clean_match_option; [ intros d _ | apply nothingPlaying_clean ].
  destruct (Svg.hasTrack now data);
    [ now apply trackText_clean | apply nothingPlaying_clean ].
Qed.

Lemma albumArtImage_clean (artBase64 : string) :
  noLt artBase64 = true ->
  clean scrollTag (Svg.albumArtImage numToString data config artBase64).
Proof. intros Hart. unfold Svg.albumArtImage. clean_template. Qed.

Lemma albumArt_clean :
  clean scrollTag (Svg.albumArt numToString now data config).
Proof.
  unfold Svg.albumArt.
  apply clean_match_option;
    [ intros d Hd | apply placeholder_clean, highlight_plain ].
  destruct (_ && _); [ | apply placeholder_clean, highlight_plain ].
  apply albumArtImage_clean.
  apply orLit_opt_plain; [ | reflexivity ].
  pose proof data_plain as H. rewrite Hd in H.
  unfold plainSnapshot in H. now apply andb_prop in H.
Qed.

(** A card whose title does not scroll has no [animateTransform]
    element. *)
Lemma card_clean :
  Svg.titleScrollNeeded data config = false ->
  clean scrollTag
    (Svg.generateNowPlayingSvg sin numToString now data config).
Proof.
  intros Hscroll.
  pose proof (textContent_clean Hscroll).
  pose proof albumArt_clean.
  unfold Svg.generateNowPlayingSvg. clean_template.
Qed.

End CleanCard.

Section TitleScroll.

Import Markup.

Variable sin : float -> float.
Variable numToString : float -> string.

Lemma titleText_some (d : NowPlayingData.t) :
  Svg.titleText (Some d) = NowPlayingData.title d.
Proof.
  unfold Svg.titleText. cbn. now destruct (NowPlayingData.title d).
Qed.

Lemma fresh_hasTrack (now : float) (d : NowPlayingData.t) :
  Svg.isStale now (Some d) = false ->
  NowPlayingData.status d = "playing" \/ NowPlayingData.status d = "paused" ->
  Svg.hasTrack now (Some d) = true.
Proof.
  intros Hfresh Hstatus.
  unfold Svg.hasTrack, Svg.isPlaying, Svg.isPaused. rewrite Hfresh.
  destruct Hstatus as [-> | ->]; reflexivity.
Qed.

(** With a track and the title line shown, the card holds the title
    block. *)
Lemma card_holds_titleBlock (now : float) (d : NowPlayingData.t)
    (config : SvgConfig.t) (xs : list string) :
  Svg.hasTrack now (Some d) = true ->
  SvgConfig.showTitle config = true ->
  inOrder xs (Svg.titleBlock numToString (Some d) config d) ->
  inOrder xs (Svg.generateNowPlayingSvg sin numToString now (Some d) config).
Proof.
  intros Htrack Hshow Hxs.
  unfold Svg.generateNowPlayingSvg.
  apply inOrder_cat
    with (p := Svg.textContent numToString now (Some d) config); [ chunk | ].
  unfold Svg.textContent. rewrite Htrack.
  unfold Svg.trackText. rewrite Hshow.
  apply inOrder_cat
    with (p := Svg.titleBlock numToString (Some d) config d); [ chunk | ].
  exact Hxs.
Qed.

Lemma scrolling_title_nodes (d : NowPlayingData.t) (config : SvgConfig.t) :
  let node x :=
    titleTextNode (numToString x) (numToString (Svg.titleY config))
      (SvgConfig.textPrimary config) (numToString Svg.titleFontSize)
      (Svg.fontTitleFamily config)
      (Text.escapeXml (NowPlayingData.title d)) in
  inOrder
    [ node (Svg.textAreaLeft config);
      node (Svg.textAreaLeft config
            + Svg.titleScrollDistance (Some d) config)%float;
      loopingTranslation
        (numToString (Svg.titleScrollDistance (Some d) config)) ]
    (Svg.titleScrolling numToString (Some d) config d).
Proof.
  cbv zeta. unfold Svg.titleScrolling, titleTextNode, loopingTranslation.
  find_in_order.
Qed.

Lemma static_title_node (d : NowPlayingData.t) (config : SvgConfig.t) :
  inOrder
    [ staticTitleNode (numToString (Svg.textX config))
        (numToString (Svg.titleY config)) (SvgConfig.textPrimary config)
        (numToString Svg.titleFontSize) (Svg.textAnchor config)
        (Svg.fontTitleFamily config)
        (Text.escapeXml
           (Text.truncateText (NowPlayingData.title d)
              (Svg.titleMaxChars config))) ]
    (Svg.titleStatic numToString config d).
Proof.
  unfold Svg.titleStatic, staticTitleNode. find_in_order.
Qed.

Lemma centred_never_scrolls (data : option NowPlayingData.t)
    (config : SvgConfig.t) :
  SvgConfig.textAlign config = TextAlign.Center ->
  Svg.titleScrollNeeded data config = false.
Proof.
  intros H. unfold Svg.titleScrollNeeded, Svg.textAlign. now rewrite H.
Qed.

Lemma scroll_tag_in_translation (distance : string) :
  occurs (String "<" scrollTag) (loopingTranslation distance).
Proof.
  exists EmptyString.
  eexists. unfold loopingTranslation. cbn. reflexivity.
Qed.

(** C4, as the code has it.  For a fresh snapshot with the title line
    shown: when the text is not centred, the title clip width is positive
    and the estimated title width exceeds it, the card holds the title
    text node twice, at the left of the text area and one scroll distance
    further, followed by the translation that loops over that distance;
    when the text is centred, the card holds the static title node with
    the title truncated to its character budget and, the interpolated
    strings being free of tag openings, no [animateTransform] element. *)
Theorem C4_title_scrolls_unless_centred :
  forall (now : float) (d : NowPlayingData.t) (config : SvgConfig.t),
    Svg.isStale now (Some d) = false ->
    NowPlayingData.status d = "playing"
    \/ NowPlayingData.status d = "paused" ->
    SvgConfig.showTitle config = true ->
    let svg :=
      Svg.generateNowPlayingSvg sin numToString now (Some d) config in
    let node x :=
      titleTextNode (numToString x) (numToString (Svg.titleY config))
        (SvgConfig.textPrimary config) (numToString Svg.titleFontSize)
        (Svg.fontTitleFamily config)
        (Text.escapeXml (NowPlayingData.title d)) in
    (SvgConfig.textAlign config <> TextAlign.Center ->
     PrimFloat.ltb 0 (Svg.titleClipWidth config) = true ->
     PrimFloat.ltb (Svg.titleClipWidth config)
       (Text.estimateTextWidth (NowPlayingData.title d) Svg.titleFontSize)
     = true ->
     inOrder
       [ node (Svg.textAreaLeft config);
         node (Svg.textAreaLeft config
               + Svg.titleScrollDistance (Some d) config)%float;
         loopingTranslation
           (numToString (Svg.titleScrollDistance (Some d) config)) ]
       svg)
    /\ (SvgConfig.textAlign config = TextAlign.Center ->
        occurs
          (staticTitleNode (numToString (Svg.textX config))
             (numToString (Svg.titleY config))
             (SvgConfig.textPrimary config)
             (numToString Svg.titleFontSize) (Svg.textAnchor config)
             (Svg.fontTitleFamily config)
             (Text.escapeXml
                (Text.truncateText (NowPlayingData.title d)
                   (Svg.titleMaxChars config))))
          svg
        /\ ((forall x, noLt (numToString x) = true) ->
            plainConfig config = true -> plainSnapshot d = true ->
            ~ occurs (String "<" scrollTag) svg)).
Proof.
  intros now d config Hfresh Hstatus Hshow svg node.
  assert (Htrack := fresh_hasTrack now d Hfresh Hstatus).
  split.
  - intros Halign Hclip Hwide.
    assert (Hscroll : Svg.titleScrollNeeded (Some d) config = true).
    { unfold Svg.titleScrollNeeded.
      rewrite titleText_some. fold (Svg.titleClipWidth config).
      rewrite Hclip, Hwide. unfold Svg.textAlign.
      destruct (SvgConfig.textAlign config); try reflexivity.
      now contradiction Halign. }
    apply card_holds_titleBlock; [ exact Htrack | exact Hshow | ].
    unfold Svg.titleBlock. rewrite Hscroll.
    eapply inOrder_cat; [ | apply scrolling_title_nodes ]. chunk.
  - intros Halign.
    assert (Hscroll := centred_never_scrolls (Some d) config Halign).
    split.
    + apply occurs_of_inOrder with (xs := []).
      apply card_holds_titleBlock; [ exact Htrack | exact Hshow | ].
      unfold Svg.titleBlock. rewrite Hscroll.
      eapply inOrder_cat; [ | apply static_title_node ]. chunk.
    + intros Hnum Hconfig Hdata.
      apply clean_not_occurs; [ reflexivity | ].
      now apply card_clean.
Qed.

End TitleScroll.

Lemma C4_witness :
  Markup.inOrder
    [ Markup.titleTextNode
        (Sample.numToString (Svg.textAreaLeft defaultSvgConfig))
        (Sample.numToString (Svg.titleY defaultSvgConfig))
        (SvgConfig.textPrimary defaultSvgConfig)
        (Sample.numToString Svg.titleFontSize)
        (Svg.fontTitleFamily defaultSvgConfig)
        (Text.escapeXml Sample.longTitle);
      Markup.titleTextNode
        (Sample.numToString
           (Svg.textAreaLeft defaultSvgConfig
            + Svg.titleScrollDistance (Some Sample.longSnapshot)
                defaultSvgConfig)%float)
        (Sample.numToString (Svg.titleY defaultSvgConfig))
        (SvgConfig.textPrimary defaultSvgConfig)
        (Sample.numToString Svg.titleFontSize)
        (Svg.fontTitleFamily defaultSvgConfig)
        (Text.escapeXml Sample.longTitle);
      Markup.loopingTranslation
        (Sample.numToString
           (Svg.titleScrollDistance (Some Sample.longSnapshot)
              defaultSvgConfig)) ]
    Sample.longCard
  /\ Markup.occurs
       (Markup.staticTitleNode (Sample.numToString (Svg.textX Sample.centred))
          (Sample.numToString (Svg.titleY Sample.centred))
          (SvgConfig.textPrimary Sample.centred)
          (Sample.numToString Svg.titleFontSize)
          (Svg.textAnchor Sample.centred)
          (Svg.fontTitleFamily Sample.centred)
          (Text.escapeXml
             (Text.truncateText Sample.longTitle
                (Svg.titleMaxChars Sample.centred))))
       Sample.centredCard
  /\ ~ Markup.occurs (String "<" Markup.scrollTag) Sample.centredCard.
Proof.
  split.
  - apply (proj1 (C4_title_scrolls_unless_centred Sample.sin
                    Sample.numToString Sample.freshNow Sample.longSnapshot
                    defaultSvgConfig eq_refl (or_introl eq_refl) eq_refl));
      [ discriminate | reflexivity | reflexivity ].
  - destruct (proj2 (C4_title_scrolls_unless_centred Sample.sin
                       Sample.numToString Sample.freshNow
                       Sample.longSnapshot Sample.centred eq_refl
                       (or_introl eq_refl) eq_refl) eq_refl)
      as [Hstatic Hnone].
    split; [ exact Hstatic | ].
    apply Hnone; [ exact sample_numToString_plain | reflexivity
                 | reflexivity ].
Defined.

(** C4 as stated fails where the text area has no width: the card is
    left-aligned, the estimated title width (13 characters, 171.6) exceeds
    the clip width 0, and the title does not scroll: the card has no
    [animateTransform] element. *)
Lemma C4_counterexample :
  Svg.isStale Sample.freshNow (Some Sample.snapshot) = false
  /\ NowPlayingData.status Sample.snapshot = "playing"
  /\ SvgConfig.showTitle Sample.narrow = true
  /\ SvgConfig.textAlign Sample.narrow = TextAlign.Left
  /\ Svg.titleClipWidth Sample.narrow = 0%float
  /\ PrimFloat.ltb (Svg.titleClipWidth Sample.narrow)
       (Text.estimateTextWidth (NowPlayingData.title Sample.snapshot)
          Svg.titleFontSize) = true
  /\ Svg.titleScrollNeeded (Some Sample.snapshot) Sample.narrow = false
  /\ ~ Markup.occurs (String "<" Markup.scrollTag) Sample.narrowCard.
Proof.
  repeat (split; [ reflexivity | ]).
  apply clean_not_occurs; [ reflexivity | ].
  vm_compute. reflexivity.
Qed.

(** ** The server *)

Section Authorization.

Lemma split_cons (sep : ascii) (s : string) :
  exists x xs, Js.split sep s = x :: xs.
Proof.
  induction s as [ | c s (x & xs & IH) ]; cbn; [ now eexists; eexists | ].
  destruct (Ascii.eqb c sep); [ now eexists; eexists | ].
  rewrite IH. now eexists; eexists.
Qed.

(** Splitting at a separator and joining with it gives the text back. *)
Lemma join_split (sep : ascii) (s : string) :
  Js.join (String sep EmptyString) (Js.split sep s) = s.
Proof.
  induction s as [ | c s IH ]; [ reflexivity | ].
  cbn [Js.split].
  destruct (split_cons sep s) as (x & xs & E). rewrite E in *.
  destruct (Ascii.eqb_spec c sep) as [-> | Hc].
  - change (Js.join (String sep EmptyString) (EmptyString :: x :: xs))
      with (String sep (Js.join (String sep EmptyString) (x :: xs))).
    now rewrite IH.
  - destruct xs as [ | y ys ]; cbn in IH |- *; now rewrite IH.
Qed.

(** What [validateAuth] accepts is the header [Bearer <key>]. *)
Lemma validateAuth_header (API_KEY : string) (req : Request.t) :
  Server.validateAuth API_KEY req = true ->
  Request.authorization req = Some ("Bearer " ++ API_KEY).
Proof.
  unfold Server.validateAuth.
  destruct (Request.authorization req) as [ auth | ]; [ | discriminate ].
  destruct auth as [ | c auth ]; [ discriminate | ].
  pose proof (join_split " " (String c auth)) as Hjoin.
  destruct (Js.split " " (String c auth)) as [ | p0 [ | p1 [ | p2 ps ] ] ];
    try discriminate.
  intros H. apply andb_prop in H as [H0 H1].
  apply String.eqb_eq in H0, H1. subst p0 p1.
  now rewrite <- Hjoin.
Qed.

Lemma split_no_sep (sep : ascii) (s : string) :
  forallb (fun c => negb (Ascii.eqb c sep)) (list_ascii_of_string s) = true ->
  Js.split sep s = [ s ].
Proof.
  induction s as [ | c s IH ]; [ reflexivity | ].
  cbn. intros H. apply andb_prop in H as [Hc Hs].
  apply negb_true_iff in Hc. rewrite Hc, (IH Hs). reflexivity.
Qed.

(** A non-empty key without a space is accepted in its Bearer header. *)
Lemma validateAuth_accepts (API_KEY : string) (req : Request.t) :
  forallb (fun c => negb (Ascii.eqb c " ")) (list_ascii_of_string API_KEY)
  = true ->
  Request.authorization req = Some ("Bearer " ++ API_KEY) ->
  Server.validateAuth API_KEY req = true.
Proof.
  intros Hkey Hauth. unfold Server.validateAuth. rewrite Hauth.
  cbn. rewrite (split_no_sep " " API_KEY Hkey). cbn.
  apply String.eqb_refl.
Qed.

(** No part of a split holds the separator. *)
Lemma split_parts_no_sep (sep : ascii) (s p : string) :
  In p (Js.split sep s) -> ~ In sep (list_ascii_of_string p).
Proof.
  revert p. induction s as [ | c s IH ]; intros p.
  - cbn. intros [<- | []]. intros [].
  - cbn [Js.split]. destruct (Ascii.eqb_spec c sep) as [-> | Hc].
    + intros [<- | Hin]; [ intros [] | now apply IH ].
    + destruct (Js.split sep s) as [ | x xs ] eqn:E.
      * intros [<- | []]. cbn. intros [E' | []]. congruence.
      * intros [<- | Hin].
        -- cbn. intros [E' | Hx]; [ congruence | ].
           apply (IH x); [ now left | exact Hx ].
        -- apply IH. now right.
Qed.

(** With a key that has a space no header is accepted: the second of
    two parts has none. *)
Lemma validateAuth_spaced_key (API_KEY : string) (req : Request.t) :
  In " "%char (list_ascii_of_string API_KEY) ->
  Server.validateAuth API_KEY req = false.
Proof.
  intros Hkey. unfold Server.validateAuth.
  destruct (Request.authorization req) as [ [ | c auth ] | ];
    try reflexivity.
  pose proof (split_parts_no_sep " " (String c auth)) as Hparts.
  destruct (Js.split " " (String c auth)) as [ | p0 [ | p1 [ | p2 ps ] ] ];
    try reflexivity.
  destruct (String.eqb_spec p1 API_KEY) as [-> | Hne];
    [ | now rewrite andb_false_r ].
  exfalso. apply (Hparts API_KEY); [ right; now left | exact Hkey ].
Qed.

Lemma validateAuth_bearer (API_KEY : string) (req : Request.t) :
  ~ In " "%char (list_ascii_of_string API_KEY) ->
  Request.authorization req = Some ("Bearer " ++ API_KEY) ->
  Server.validateAuth API_KEY req = true.
Proof.
  intros Hkey. apply validateAuth_accepts. apply forallb_forall.
  intros c Hc. apply negb_true_iff, Ascii.eqb_neq. intros ->. now apply Hkey.
Qed.

End Authorization.

(** ** The renderer at run time and as typed *)

Lemma getString_get (key : string) (value : Json) (s : string) :
  JsonValue.getString key value = Some s ->
  JsonValue.get key value = Some (JStr s).
Proof.
  unfold JsonValue.getString.
  destruct (JsonValue.get key value) as [ [ | | | | | ] | ];
    try discriminate.
  now intros [= ->].
Qed.

Lemma getNumber_get (key : string) (value : Json) (n : float) :
  JsonValue.getNumber key value = Some n ->
  JsonValue.get key value = Some (JNum n).
Proof.
  unfold JsonValue.getNumber.
  destruct (JsonValue.get key value) as [ [ | | | | | ] | ];
    try discriminate.
  now intros [= ->].
Qed.

Lemma asNowPlayingData_fields (fields : list (string * Json))
    (d : NowPlayingData.t) :
  Server.asNowPlayingData (JObj fields) = Some (Some d) ->
  JsonValue.lookup "title" fields = Some (JStr (NowPlayingData.title d))
  /\ JsonValue.lookup "artist" fields
     = Some (JStr (NowPlayingData.artist d))
  /\ JsonValue.lookup "album" fields = Some (JStr (NowPlayingData.album d))
  /\ JsonValue.lookup "status" fields
     = Some (JStr (NowPlayingData.status d))
  /\ JsonValue.lookup "updatedAt" fields
     = Some (JNum (NowPlayingData.updatedAt d))
  /\ JsonValue.lookup "artBase64" fields
     = Some (Demo.artValue (NowPlayingData.artBase64 d))
  /\ match NowPlayingData.colors d with
     | None => JsonValue.lookup "colors" fields = Some JNull
     | Some palette =>
         exists c : Json,
           JsonValue.lookup "colors" fields = Some c
           /\ JsonValue.get "dominant" c
              = Some (JStr (ColorPalette.dominant palette))
           /\ JsonValue.get "accent" c
              = Some (JStr (ColorPalette.accent palette))
           /\ JsonValue.get "highlight" c
              = Some (JStr (ColorPalette.highlight palette))
     end.
Proof.
  intros H. unfold Server.asNowPlayingData in H. cbv beta zeta in H.
  repeat match type of H with
         | match ?x with _ => _ end = _ =>
             destruct x eqn:?; try discriminate H
         end.
  injection H as <-. cbn [NowPlayingData.title NowPlayingData.artist
    NowPlayingData.album NowPlayingData.status NowPlayingData.updatedAt
    NowPlayingData.artBase64 NowPlayingData.colors].
  change (JsonValue.get "artBase64" (JObj fields))
    with (JsonValue.lookup "artBase64" fields) in *.
  change (JsonValue.get "colors" (JObj fields))
    with (JsonValue.lookup "colors" fields) in *.
  repeat match goal with
         | E : JsonValue.getString _ (JObj fields) = Some _ |- _ =>
             apply getString_get in E; cbn [JsonValue.get] in E
         | E : JsonValue.getNumber _ (JObj fields) = Some _ |- _ =>
             apply getNumber_get in E; cbn [JsonValue.get] in E
         end.
  repeat (split; [ assumption | ]).
  split.
  - destruct (JsonValue.lookup "artBase64" fields) as [ [ | | | | | ] | ];
      try discriminate; match goal with
                        | E : Some _ = Some _ |- _ => now injection E as <-
                        end.
  - destruct (JsonValue.lookup "colors" fields) as [ c | ];
      [ | discriminate ].
    assert (Hc : c = JNull
                 \/ match JsonValue.getString "dominant" c,
                          JsonValue.getString "accent" c,
                          JsonValue.getString "highlight" c with
                    | Some d, Some a, Some h =>
                        Some (Some (ColorPalette.mk d a h))
                    | _, _, _ => None
                    end = Some o0).
    { destruct c; [ now left | right; assumption .. ]. }
    destruct Hc as [-> | Hc].
    + match goal with
      | E : Some None = Some _ |- _ => now injection E as <-
      end.
    + destruct (JsonValue.getString "dominant" c) eqn:Hd;
        [ | discriminate ].
      destruct (JsonValue.getString "accent" c) eqn:Ha; [ | discriminate ].
      destruct (JsonValue.getString "highlight" c) eqn:Hh;
        [ | discriminate ].
      injection Hc as <-. exists c.
      apply getString_get in Hd, Ha, Hh. now repeat split.
Qed.

Lemma orElse_strings (a b : string) :
  JsValue.orElse (Some (JStr a)) (Some (JStr b))
  = Some (JStr (Js.orLit (Some a) b)).
Proof. now destruct a. Qed.

Lemma orElse_field {A : Type} (f : A -> string) (o : option A)
    (b : string) :
  JsValue.orElse (option_map (fun p => JStr (f p)) o) (Some (JStr b))
  = Some (JStr (Js.orLit (option_map f o) b)).
Proof. destruct o as [ a | ]; [ apply orElse_strings | reflexivity ]. Qed.

Section TypedSnapshot.

Variable sin : float -> float.
Variable numToString : float -> string.
Variable stringToNumber : string -> float.
Variable now : float.
Variable config : SvgConfig.t.

Variable fields : list (string * Json).
Variable d : NowPlayingData.t.

Let value : Json := JObj fields.

Hypothesis Htitle :
  JsonValue.lookup "title" fields = Some (JStr (NowPlayingData.title d)).
Hypothesis Hartist :
  JsonValue.lookup "artist" fields = Some (JStr (NowPlayingData.artist d)).
Hypothesis Halbum :
  JsonValue.lookup "album" fields = Some (JStr (NowPlayingData.album d)).
Hypothesis Hart :
  JsonValue.lookup "artBase64" fields
  = Some (Demo.artValue (NowPlayingData.artBase64 d)).

Ltac read_field H :=
  cbn [JsValue.get JsValue.andThen JsonValue.get]; rewrite H;
  cbn [JsValue.andThen Runtime.truncateText Runtime.escapeXml].

Lemma titleStatic_typed :
  Runtime.titleStatic numToString stringToNumber (Some value) config
  = Returns (Svg.titleStatic numToString config d).
Proof.
  unfold Runtime.titleStatic, Svg.titleStatic, value.
  read_field Htitle. reflexivity.
Qed.

Lemma titleScrolling_typed (titleScrollDistance : float) :
  titleScrollDistance = Svg.titleScrollDistance (Some d) config ->
  Runtime.titleScrolling numToString (Some value) config titleScrollDistance
  = Returns (Svg.titleScrolling numToString (Some d) config d).
Proof.
  intros ->. unfold Runtime.titleScrolling, Svg.titleScrolling, value.
  read_field Htitle. reflexivity.
Qed.

Lemma artistLine_typed :
  Runtime.artistLine numToString stringToNumber (Some value) config
  = Returns (Svg.artistLine numToString config d).
Proof.
  unfold Runtime.artistLine, Svg.artistLine, value.
  read_field Hartist. reflexivity.
Qed.

Lemma albumLine_typed :
  Runtime.albumLine numToString stringToNumber (Some value) config
  = Returns (Svg.albumLine numToString config d).
Proof.
  unfold Runtime.albumLine, Svg.albumLine, value.
  read_field Halbum. reflexivity.
Qed.

Lemma titleBlock_typed :
  Runtime.titleBlock numToString stringToNumber (Some value) config
    (Svg.titleScrollDistance (Some d) config)
    (Svg.titleScrollNeeded (Some d) config)
  = Returns (Svg.titleBlock numToString (Some d) config d).
Proof.
  unfold Runtime.titleBlock, Svg.titleBlock.
  destruct (Svg.titleScrollNeeded (Some d) config).
  - rewrite (titleScrolling_typed _ eq_refl). reflexivity.
  - rewrite titleStatic_typed. reflexivity.
Qed.

Lemma statusPill_typed (data : option NowPlayingData.t) :
  Runtime.statusPill numToString config (Svg.isStale now data)
    (Svg.isPlaying now data) (Some (JStr (Svg.highlight data)))
  = Returns (Svg.statusPill numToString now data config).
Proof. reflexivity. Qed.

Lemma trackText_typed :
  Runtime.trackText numToString stringToNumber (Some value) config
    (Svg.isStale now (Some d)) (Svg.isPlaying now (Some d))
    (Some (JStr (Svg.highlight (Some d))))
    (Svg.titleScrollDistance (Some d) config)
    (Svg.titleScrollNeeded (Some d) config)
  = Returns (Svg.trackText numToString now (Some d) config d).
Proof.
  unfold Runtime.trackText, Svg.trackText.
  rewrite statusPill_typed, titleBlock_typed, artistLine_typed,
    albumLine_typed.
  destruct (SvgConfig.showStatus config), (SvgConfig.showTitle config),
    (SvgConfig.showArtist config), (SvgConfig.showAlbum config);
    reflexivity.
Qed.

Lemma textContent_typed :
  Runtime.textContent numToString stringToNumber (Some value) config
    (Svg.isStale now (Some d)) (Svg.isPlaying now (Some d))
    (Svg.hasTrack now (Some d))
    (Some (JStr (Svg.highlight (Some d))))
    (Svg.titleScrollDistance (Some d) config)
    (Svg.titleScrollNeeded (Some d) config)
  = Returns (Svg.textContent numToString now (Some d) config).
Proof.
  unfold Runtime.textContent, Svg.textContent.
  rewrite trackText_typed. now destruct (Svg.hasTrack now (Some d)).
Qed.

Lemma albumArt_typed :
  Runtime.albumArt numToString (Some value) config
    (Svg.hasTrack now (Some d)) (Some (JStr (Svg.highlight (Some d))))
  = Returns (Svg.albumArt numToString now (Some d) config).
Proof.
  unfold Runtime.albumArt, Svg.albumArt, Runtime.albumArtImage, value.
  destruct (Svg.hasTrack now (Some d)); [ | reflexivity ].
  cbn [JsValue.get JsValue.andThen JsonValue.get]. rewrite Hart.
  destruct (NowPlayingData.artBase64 d) as [ [ | c s ] | ]; reflexivity.
Qed.

Lemma svg_typed :
  Runtime.svg sin numToString stringToNumber (Some value) config
    (Svg.isStale now (Some d)) (Svg.isPlaying now (Some d))
    (Svg.hasTrack now (Some d))
    (Some (JStr (Svg.accentColor (Some d))))
    (Svg.baseDark (Some d) config) (Svg.midDark (Some d) config)
    (Some (JStr (Svg.highlight (Some d))))
    (Svg.titleSeed (Some d))
    (Svg.titleScrollDistance (Some d) config)
    (Svg.titleScrollNeeded (Some d) config)
  = Returns (Svg.generateNowPlayingSvg sin numToString now (Some d) config).
Proof.
  unfold Runtime.svg. rewrite textContent_typed, albumArt_typed.
  unfold Runtime.playingWave.
  destruct (Svg.isPlaying now (Some d)) eqn:Hplaying;
    unfold Svg.generateNowPlayingSvg; rewrite Hplaying; reflexivity.
Qed.

End TypedSnapshot.

Section NoSnapshot.

Variable sin : float -> float.
Variable numToString : float -> string.
Variable stringToNumber : string -> float.
Variable now : float.
Variable config : SvgConfig.t.

(** Without a track the template reads nothing of [data] and does not
    depend on [isStale]. *)
Lemma svg_null (v : JsValue.t) (stale : bool) (distance : float)
    (needed : bool) :
  Runtime.svg sin numToString stringToNumber v config stale false false
    (Some (JStr (Svg.accentColor None)))
    (Svg.baseDark None config) (Svg.midDark None config)
    (Some (JStr (Svg.highlight None))) (Svg.titleSeed None) distance needed
  = Returns (Svg.generateNowPlayingSvg sin numToString now None config).
Proof. reflexivity. Qed.

End NoSnapshot.

Section Agreement.

Variable sin : float -> float.
Variable numToString : float -> string.
Variable stringToNumber : string -> float.
Variable now : float.
Variable config : SvgConfig.t.

Lemma ltb_sub_nan (x y : float) :
  PrimFloat.ltb x (y - PrimFloat.nan)%float = false.
Proof.
  rewrite ltb_spec, sub_spec.
  change (Prim2SF PrimFloat.nan) with S754_nan.
  destruct (Prim2SF y) as [ [ | ] | [ | ] | | ? ? ? ],
           (Prim2SF x) as [ [ | ] | [ | ] | | ? ? ? ]; reflexivity.
Qed.

Ltac preamble :=
  cbn [JsValue.truthy JsValue.andThen JsValue.get JsValue.chain
       JsonValue.get JsValue.toNumber JsValue.isString JsValue.orElse
       Runtime.mixColors Runtime.hashString Runtime.estimateTextWidth
       andb orb negb String.eqb].

Lemma generate_without_snapshot (v : Json) :
  Server.asNowPlayingData v = Some None ->
  Runtime.generateNowPlayingSvg sin numToString stringToNumber now
    (Some v) config
  = Returns (Svg.generateNowPlayingSvg sin numToString now None config).
Proof.
  intros H.
  assert (Hv : JsValue.chain "colors" (Some v) = None
               /\ JsValue.chain "title" (Some v) = None
               /\ (JsValue.truthy (Some v) = true ->
                   JsValue.get "updatedAt" (Some v) = Returns None
                   /\ JsValue.get "status" (Some v) = Returns None)).
  { destruct v; cbn; try (repeat split; discriminate || reflexivity).
    unfold Server.asNowPlayingData in H.
    repeat match type of H with
           | match ?x with _ => _ end = _ => destruct x; try discriminate H
           end. }
  destruct Hv as (Hcolors & Htitle & Hprops).
  unfold Runtime.generateNowPlayingSvg.
  rewrite Hcolors, Htitle.
  destruct (JsValue.truthy (Some v)) eqn:Htruthy.
  - destruct (Hprops eq_refl) as [-> ->]. preamble.
    rewrite ltb_sub_nan. preamble.
    destruct (negb _ && _); preamble; apply svg_null.
  - preamble. destruct (negb _ && _); preamble; apply svg_null.
Qed.


Lemma generate_with_snapshot (fields : list (string * Json))
    (d : NowPlayingData.t) :
  Server.asNowPlayingData (JObj fields) = Some (Some d) ->
  Runtime.generateNowPlayingSvg sin numToString stringToNumber now
    (Some (JObj fields)) config
  = Returns (Svg.generateNowPlayingSvg sin numToString now (Some d) config).
Proof.
  intros H.
  destruct (asNowPlayingData_fields fields d H)
    as (Htitle & Hartist & Halbum & Hstatus & Hupdated & Hart & Hcolors).
  unfold Runtime.generateNowPlayingSvg.
  assert (Hpalette :
            JsValue.chain "dominant" (JsValue.chain "colors" (Some (JObj fields)))
            = option_map (fun p => JStr (ColorPalette.dominant p))
                (NowPlayingData.colors d)
            /\ JsValue.chain "accent" (JsValue.chain "colors" (Some (JObj fields)))
               = option_map (fun p => JStr (ColorPalette.accent p))
                   (NowPlayingData.colors d)
            /\ JsValue.chain "highlight"
                 (JsValue.chain "colors" (Some (JObj fields)))
               = option_map (fun p => JStr (ColorPalette.highlight p))
                   (NowPlayingData.colors d)).
  { cbn [JsValue.chain JsonValue.get].
    destruct (NowPlayingData.colors d) as [ palette | ].
    - destruct Hcolors as (c & -> & Hd & Ha & Hh). now repeat split.
    - rewrite Hcolors. now repeat split. }
  destruct Hpalette as (-> & -> & ->).
  preamble. rewrite Hupdated, Hstatus, Htitle. preamble.
  rewrite !orElse_field, !orElse_strings. preamble.
  replace (if JsValue.truthy _ then _ else _)
    with (Returns (A := JsValue.t)
            (Some (JStr (Svg.highlight (Some d))))).
  2:{ unfold Svg.highlight, Svg.accentColor, Svg.colorsField.
      destruct (NowPlayingData.colors d) as [ [ ? ? [ | c h ] ] | ];
        reflexivity. }
  preamble.
  destruct (negb _ && _) eqn:Hscroll; preamble;
    (etransitivity;
     [ | apply (svg_typed sin numToString stringToNumber now config
                  fields d Htitle Hartist Halbum Hart) ]);
    f_equal; unfold Svg.titleScrollNeeded;
    change (Svg.titleClipWidth config) with (Svg.textAreaWidth config)
      in Hscroll;
    unfold Svg.titleClipWidth; rewrite Hscroll; reflexivity.
Qed.

(** On a value of the declared type the renderer at run time is the
    renderer as typed. *)
Lemma runtime_renders_typed (value : Json)
    (data : option NowPlayingData.t) :
  Server.asNowPlayingData value = Some data ->
  Runtime.generateNowPlayingSvg sin numToString stringToNumber now
    (Some value) config
  = Returns (Svg.generateNowPlayingSvg sin numToString now data config).
Proof.
  intros H. destruct data as [ d | ].
  - destruct value; try discriminate H.
    now apply generate_with_snapshot.
  - now apply generate_without_snapshot.
Qed.

End Agreement.

Section Requests.

Import Markup.

Variable API_KEY : string.
Variable parseJson : string -> option Json.
Variable stringify : Json -> string.
Variable kvAccepts : Json -> bool.
Variable readThemeFile : string -> option string.
Variable readFontBase64 : string -> option string.
Variable sin : float -> float.
Variable numToString : float -> string.
Variable stringToNumber : string -> float.
Variable now : float.

Let handleRequest :=
  Server.handleRequest API_KEY parseJson stringify kvAccepts readThemeFile
    readFontBase64 sin numToString stringToNumber now.

Let handlePostNowPlaying :=
  Server.handlePostNowPlaying API_KEY parseJson kvAccepts.

(** The route of a publish: the handler's response with the CORS headers
    set, and the store the handler leaves. *)
Lemma route_publish (req : Request.t) (kv : Server.Kv) :
  Request.method req = "POST" ->
  Request.pathname req = "/api/now-playing" ->
  handleRequest req kv
  = (Server.withCors (fst (handlePostNowPlaying req kv)),
     snd (handlePostNowPlaying req kv)).
Proof.
  intros Hm Hp.
  unfold handleRequest, handlePostNowPlaying, Server.handleRequest.
  rewrite Hm, Hp. cbn [String.eqb Ascii.eqb Bool.eqb andb].
  now destruct (Server.handlePostNowPlaying _ _ _ _ _).
Qed.

Lemma refused_header (req : Request.t) :
  Request.authorization req = None
  \/ Request.authorization req <> Some ("Bearer " ++ API_KEY) ->
  Server.validateAuth API_KEY req = false.
Proof.
  intros H. destruct (Server.validateAuth API_KEY req) eqn:E;
    [ | reflexivity ].
  apply validateAuth_header in E.
  destruct H as [H | H]; [ now rewrite H in E | now elim H ].
Qed.

(** C6, as the code has it.  A POST to /api/now-playing is answered 401
    when the Authorization header is missing or is not [Bearer <key>],
    and whatever the header when the key has a space.  With the header
    [Bearer <key>] of a key without a space it is answered 400 when the
    body is not JSON and when the store refuses the parsed value.  The
    store is as before in these cases.  With that header, a body that
    parses and a store that accepts the value, it is answered 200 with
    [{"success":true}] and the store holds the parsed value. *)
Theorem C6_publish_status_codes :
  forall (req : Request.t) (kv : Server.Kv),
    Request.method req = "POST" ->
    Request.pathname req = "/api/now-playing" ->
    let answer := handleRequest req kv in
    (Request.authorization req = None
     \/ Request.authorization req <> Some ("Bearer " ++ API_KEY)
     \/ In " "%char (list_ascii_of_string API_KEY) ->
     Response.status (fst answer) = 401%nat /\ snd answer = kv)
    /\ (Request.authorization req = Some ("Bearer " ++ API_KEY) ->
        ~ In " "%char (list_ascii_of_string API_KEY) ->
        parseJson (Request.body req) = None
        \/ (exists value : Json,
              parseJson (Request.body req) = Some value
              /\ kvAccepts value = false) ->
        Response.status (fst answer) = 400%nat /\ snd answer = kv)
    /\ (forall value : Json,
          Request.authorization req = Some ("Bearer " ++ API_KEY) ->
          ~ In " "%char (list_ascii_of_string API_KEY) ->
          parseJson (Request.body req) = Some value ->
          kvAccepts value = true ->
          Response.status (fst answer) = 200%nat
          /\ Response.body (fst answer) = Some successBody
          /\ snd answer = Some value).
Proof.
  intros req kv Hm Hp answer. subst answer.
  rewrite (route_publish req kv Hm Hp).
  unfold handlePostNowPlaying, Server.handlePostNowPlaying,
    Server.storeNowPlaying.
  cbn [fst snd]. split; [ | split ].
  - intros [Hheader | [Hheader | Hkey]].
    + now rewrite (refused_header req (or_introl Hheader)).
    + now rewrite (refused_header req (or_intror Hheader)).
    + now rewrite (validateAuth_spaced_key API_KEY req Hkey).
  - intros Hheader Hkey Hbody.
    rewrite (validateAuth_bearer API_KEY req Hkey Hheader).
    destruct Hbody as [-> | (value & -> & ->)]; now split.
  - intros value Hheader Hkey Hbody Hstore.
    rewrite (validateAuth_bearer API_KEY req Hkey Hheader), Hbody, Hstore.
    now repeat split.
Qed.


(** No route serves /widget.svg: the request falls to the 404 answer. *)
Lemma widget_path_not_found (req : Request.t) (kv : Server.Kv) :
  Request.method req = "GET" ->
  Request.pathname req = "/widget.svg" ->
  exists response : Response.t,
    handleRequest req kv = (response, kv)
    /\ Response.status response = 404%nat.
Proof.
  intros Hm Hp. unfold handleRequest, Server.handleRequest.
  rewrite Hm, Hp. eexists. split; reflexivity.
Qed.

(** C9, as the code has it.  The widget image is served at
    /now-playing.svg.  A GET of that path is answered 200 with
    Content-Type image/svg+xml and Cache-Control s-maxage=1 (and the
    CORS headers), the body being the card rendered from the stored
    value and the configuration built from the query: so it is when
    the store is empty or holds a snapshot of the declared type, the
    card being that of the typed renderer, and whenever the renderer
    returns on the stored value.  When the renderer throws on the
    stored value the answer is 500, without the CORS headers. *)
Theorem C9_widget_served_at_now_playing_svg :
  forall (req : Request.t) (kv : Server.Kv),
    Request.method req = "GET" ->
    Request.pathname req = "/now-playing.svg" ->
    let config :=
      Server.buildSvgConfig parseJson readThemeFile readFontBase64
        (Request.searchParams req) in
    let rendered :=
      Runtime.generateNowPlayingSvg sin numToString stringToNumber now
        (Some (Server.getNowPlaying kv)) config in
    let served (svg : string) :=
      (Response.mk 200
         (("Content-Type", "image/svg+xml")
          :: ("Cache-Control", "s-maxage=1") :: Server.corsHeaders)
         (Some svg),
       kv) in
    (forall data : option NowPlayingData.t,
        Server.asNowPlayingData (Server.getNowPlaying kv) = Some data ->
        handleRequest req kv
        = served (Svg.generateNowPlayingSvg sin numToString now data config))
    /\ (forall svg : string,
          rendered = Returns svg -> handleRequest req kv = served svg)
    /\ (rendered = Throws ->
        handleRequest req kv = (Server.internalServerError, kv)).
Proof.
  intros req kv Hm Hp config rendered served.
  assert (Hserved : forall svg : string,
             rendered = Returns svg -> handleRequest req kv = served svg).
  { intros svg Hsvg. unfold handleRequest, Server.handleRequest.
    rewrite Hm, Hp. cbn [String.eqb Ascii.eqb Bool.eqb andb].
    unfold Server.handleGetSvg. fold config. fold rendered.
    rewrite Hsvg. reflexivity. }
  split; [ | split ].
  - intros data Hdata. apply Hserved.
    now apply runtime_renders_typed.
  - exact Hserved.
  - intros Hthrows. unfold handleRequest, Server.handleRequest.
    rewrite Hm, Hp. cbn [String.eqb Ascii.eqb Bool.eqb andb].
    unfold Server.handleGetSvg. fold config. fold rendered.
    rewrite Hthrows. reflexivity.
Qed.

End Requests.

Section Configuration.

Variable parseJson : string -> option Json.
Variable readThemeFile : string -> option string.
Variable readFontBase64 : string -> option string.

Local Open Scope float_scope.


End Configuration.

Lemma C6_witness :
  (Response.status
     (fst (Sample.handleRequest Demo.anonymousPublish
             (Some Sample.storedSnapshot))) = 401%nat
   /\ snd (Sample.handleRequest Demo.anonymousPublish
             (Some Sample.storedSnapshot))
      = Some Sample.storedSnapshot)
  /\ (Response.status
        (fst (Sample.handleRequest (Sample.publish "{oops")
                (Some Sample.storedSnapshot))) = 400%nat
      /\ snd (Sample.handleRequest (Sample.publish "{oops")
                (Some Sample.storedSnapshot))
         = Some Sample.storedSnapshot)
  /\ (Response.status
        (fst (Sample.handleRequest (Sample.publish "null")
                (Some Sample.storedSnapshot))) = 200%nat
      /\ Response.body
           (fst (Sample.handleRequest (Sample.publish "null")
                   (Some Sample.storedSnapshot)))
         = Some Markup.successBody
      /\ snd (Sample.handleRequest (Sample.publish "null")
                (Some Sample.storedSnapshot))
         = Some JNull).
Proof.
  assert (Hkey : ~ In " "%char (list_ascii_of_string Sample.API_KEY))
    by (cbn; intuition discriminate).
  pose (C6 := C6_publish_status_codes Sample.API_KEY Sample.parseJson
                Sample.stringify Sample.kvAccepts Sample.readThemeFile
                Sample.readFontBase64 Sample.sin Sample.numToString
                Sample.stringToNumber Sample.freshNow).
  split; [ | split ].
  - apply (proj1 (C6 Demo.anonymousPublish (Some Sample.storedSnapshot)
                    eq_refl eq_refl)).
    left. reflexivity.
  - apply (proj1 (proj2 (C6 (Sample.publish "{oops")
                           (Some Sample.storedSnapshot) eq_refl eq_refl))
             eq_refl Hkey).
    left. reflexivity.
  - apply (proj2 (proj2 (C6 (Sample.publish "null")
                           (Some Sample.storedSnapshot) eq_refl eq_refl))
             JNull eq_refl Hkey eq_refl eq_refl).
Defined.

(** C6 as stated fails twice.  With the key [dev key] a publish whose
    header is [Bearer dev key] and whose body is JSON is answered 401.
    With the key [devkey], the header [Bearer devkey] and a body that
    is JSON, a store that refuses the value has the publish answered
    400, [Invalid JSON], and keeps what it held. *)
Lemma C6_counterexample :
  (Request.authorization Demo.spacedPublish
   = Some ("Bearer " ++ Demo.spacedKey)
   /\ Sample.parseJson (Request.body Demo.spacedPublish) = Some JNull
   /\ Response.status (fst (Demo.spacedKeyServer Demo.spacedPublish None))
      = 401%nat)
  /\ (Request.authorization (Sample.publish "null")
      = Some ("Bearer " ++ Sample.API_KEY)
      /\ Sample.parseJson (Request.body (Sample.publish "null"))
         = Some JNull
      /\ Demo.refusingStoreServer (Sample.publish "null")
           (Some Sample.storedSnapshot)
         = (Server.withCors Server.invalidJson,
            Some Sample.storedSnapshot)
      /\ Response.status (Server.withCors Server.invalidJson) = 400%nat).
Proof. repeat split. Qed.

(** The three answers of C6 on concrete requests: no header, a body that
    is not JSON, and a body that is. *)
Example publish_answers :
  (let answer :=
     Sample.handleRequest
       (Request.mk "POST" "/api/now-playing" [] None "null")
       (Some Sample.storedSnapshot) in
   (Response.status (fst answer), snd answer))
  = (401%nat, Some Sample.storedSnapshot)
  /\ (let answer :=
        Sample.handleRequest (Sample.publish "{oops")
          (Some Sample.storedSnapshot) in
      (Response.status (fst answer), snd answer))
     = (400%nat, Some Sample.storedSnapshot)
  /\ (let answer :=
        Sample.handleRequest (Sample.publish "null")
          (Some Sample.storedSnapshot) in
      (Response.status (fst answer), snd answer))
     = (200%nat, Some JNull).
Proof. repeat split. Qed.



Lemma C9_witness :
  Sample.handleRequest Sample.getNowPlayingSvg (Some Sample.storedSnapshot)
  = (Response.mk 200
       (("Content-Type", "image/svg+xml")
        :: ("Cache-Control", "s-maxage=1") :: Server.corsHeaders)
       (Some
          (Svg.generateNowPlayingSvg Sample.sin Sample.numToString
             Sample.freshNow (Some Sample.snapshot)
             (Server.buildSvgConfig Sample.parseJson Sample.readThemeFile
                Sample.readFontBase64
                (Request.searchParams Sample.getNowPlayingSvg)))),
     Some Sample.storedSnapshot)
  /\ Sample.handleRequest Sample.getNowPlayingSvg (Some Demo.untitled)
     = (Server.internalServerError, Some Demo.untitled).
Proof.
  pose (C9 := C9_widget_served_at_now_playing_svg Sample.API_KEY
                Sample.parseJson Sample.stringify Sample.kvAccepts
                Sample.readThemeFile Sample.readFontBase64 Sample.sin
                Sample.numToString Sample.stringToNumber Sample.freshNow
                Sample.getNowPlayingSvg).
  split.
  - apply (proj1 (C9 (Some Sample.storedSnapshot) eq_refl eq_refl)
             (Some Sample.snapshot)).
    reflexivity.
  - apply (proj2 (proj2 (C9 (Some Demo.untitled) eq_refl eq_refl))).
    vm_compute. reflexivity.
Defined.

(** C9 as stated fails twice.  A GET of /widget.svg is answered 404,
    with the store holding a snapshot.  And at /now-playing.svg the
    answer is not always the image: a publish of an object without a
    title is answered 200 and stored, the renderer throws on it, and
    the GET is answered 500 with a JSON body and without the CORS
    headers. *)
Lemma C9_counterexample :
  (Response.status
     (fst (Sample.handleRequest Sample.getWidgetSvg
             (Some Sample.storedSnapshot))) = 404%nat
   /\ Response.body
        (fst (Sample.handleRequest Sample.getWidgetSvg
                (Some Sample.storedSnapshot)))
      = Some (Js.cat [ "{"; Js.dq; "error"; Js.dq; ":"; Js.dq;
                       "Not found"; Js.dq; "}" ]))
  /\ (Response.status
        (fst (Demo.handleRequest (Sample.publish Demo.untitledText) None))
      = 200%nat
      /\ snd (Demo.handleRequest (Sample.publish Demo.untitledText) None)
         = Some Demo.untitled
      /\ Demo.handleRequest Sample.getNowPlayingSvg (Some Demo.untitled)
         = (Response.mk 500 [ ("Content-Type", "application/json") ]
              (Some (Js.cat [ "{"; Js.dq; "error"; Js.dq; ":"; Js.dq;
                              "Internal server error"; Js.dq; "}" ])),
            Some Demo.untitled)).
Proof. repeat split; vm_compute; reflexivity. Qed.


(** * Further properties *)

(** ** More on the poller *)

Section PollerFacts.

Local Open Scope float_scope.

(** The three outcomes of [poll] on a fetched status. *)
Lemma poll_cases (m : Poller.Memory) (w : Poller.Tick)
    (status : TauonStatus.t) :
  Poller.fetched w = Some status ->
  (Poller.poll m w
   = Poller.mkOutcome (Poller.setLastSeen m (TauonStatus.status status))
       None)
  \/ ((TauonStatus.status status = "playing"
       \/ TauonStatus.status status = "paused")
      /\ State.shouldUpdate status (Poller.lastSentTrackId m)
           (Poller.lastSentStatus m) (Poller.lastSeenStatus m) = true
      /\ exists d,
           Poller.sent (Poller.poll m w) = Some d
           /\ NowPlayingData.status d = TauonStatus.status status
           /\ NowPlayingData.updatedAt d = Poller.now w
           /\ NowPlayingData.artBase64 d
              = fst (fst (Poller.artStep m w status))
           /\ NowPlayingData.colors d
              = snd (fst (Poller.artStep m w status))
           /\ Poller.memory (Poller.poll m w)
              = let m1 := snd (Poller.artStep m w status) in
                if Poller.sendOk w
                then Poller.mkMemory (Some (TauonStatus.id status))
                       (Some (TauonStatus.status status))
                       (Some (TauonStatus.status status))
                       (Poller.lastAlbumName m1) (Poller.lastArtBase64 m1)
                       (Poller.lastColors m1)
                else m1).
Proof.
  intros Hf. unfold Poller.poll. rewrite Hf.
  destruct (String.eqb_spec (TauonStatus.status status) "playing")
    as [Hp | Hp];
    destruct (String.eqb_spec (TauonStatus.status status) "paused")
      as [Hq | Hq];
    cbn [negb andb]; try (now left).
  all: destruct (State.shouldUpdate _ _ _ _) eqn:Hup; cbn [negb];
    [ right | now left ].
  all: split; [ tauto | ]; split; [ reflexivity | ].
  all: eexists; cbn [Poller.sent Poller.memory]; split; [ reflexivity | ].
  all: cbn [NowPlayingData.status NowPlayingData.updatedAt
            NowPlayingData.artBase64 NowPlayingData.colors].
  all: repeat split; reflexivity.
Qed.

(** The art step leaves the last-sent and last-seen fields alone. *)
Lemma artStep_keeps_sent (m : Poller.Memory) (w : Poller.Tick)
    (status : TauonStatus.t) :
  let m1 := snd (Poller.artStep m w status) in
  Poller.lastSentTrackId m1 = Poller.lastSentTrackId m
  /\ Poller.lastSentStatus m1 = Poller.lastSentStatus m
  /\ Poller.lastSeenStatus m1 = Poller.lastSeenStatus m.
Proof.
  unfold Poller.artStep.
  destruct (_ && _ && _); [ | now repeat split ].
  destruct (negb _); [ | now repeat split ].
  destruct (Poller.art w); now repeat split.
Qed.

Lemma artStep_cache (m : Poller.Memory) (w : Poller.Tick)
    (status : TauonStatus.t) :
  Memory.cachedTogether m ->
  Memory.cachedTogether (snd (Poller.artStep m w status)).
Proof.
  intros Hm. unfold Poller.artStep.
  destruct (_ && _ && _); [ | exact Hm ].
  destruct (negb _); [ | exact Hm ].
  destruct (Poller.art w); [ exact I | exact Hm ].
Qed.

(** X1.  A snapshot that [poll] hands to the publish step has the status
    ["playing"] or ["paused"], namely that of the fetched status, and is
    stamped with the clock of the call: a stopped player and an
    unreachable one are never published. *)
Theorem poll_publishes_only_playable :
  forall (m : Poller.Memory) (w : Poller.Tick) (d : NowPlayingData.t),
    Poller.sent (Poller.poll m w) = Some d ->
    (NowPlayingData.status d = "playing"
     \/ NowPlayingData.status d = "paused")
    /\ NowPlayingData.updatedAt d = Poller.now w
    /\ exists status : TauonStatus.t,
         Poller.fetched w = Some status
         /\ NowPlayingData.status d = TauonStatus.status status
         /\ NowPlayingData.progress d = TauonStatus.progress status.
Proof.
  intros m w d. unfold Poller.poll.
  destruct (Poller.fetched w) as [ status | ]; [ | discriminate ].
  destruct (String.eqb_spec (TauonStatus.status status) "playing")
    as [Hp | Hp];
    destruct (String.eqb_spec (TauonStatus.status status) "paused")
      as [Hq | Hq];
    cbn [negb andb]; try discriminate.
  all: destruct (State.shouldUpdate _ _ _ _); cbn [negb]; try discriminate.
  all: cbn [Poller.sent]; intros H; injection H as <-.
  all: cbn [NowPlayingData.status NowPlayingData.updatedAt
            NowPlayingData.progress].
  all: split; [ tauto | ]; split; [ reflexivity | ].
  all: exists status; repeat split; reflexivity.
Qed.



End PollerFacts.

Lemma poll_publishes_only_playable_witness :
  (NowPlayingData.status Sample.snapshot = "playing"
   \/ NowPlayingData.status Sample.snapshot = "paused")
  /\ NowPlayingData.updatedAt Sample.snapshot = Poller.now Sample.tick
  /\ exists status : TauonStatus.t,
       Poller.fetched Sample.tick = Some status
       /\ NowPlayingData.status Sample.snapshot = TauonStatus.status status
       /\ NowPlayingData.progress Sample.snapshot
          = TauonStatus.progress status.
Proof.
  apply (poll_publishes_only_playable Poller.initial Sample.tick
           Sample.snapshot).
  reflexivity.
Defined.


Section PollerRuns.

Local Open Scope float_scope.

Lemma poll_keeps_memory_shape (m : Poller.Memory) (w : Poller.Tick) :
  Memory.sentTogether m /\ Memory.cachedTogether m ->
  Memory.sentTogether (Poller.memory (Poller.poll m w))
  /\ Memory.cachedTogether (Poller.memory (Poller.poll m w)).
Proof.
  intros [Hs Hc].
  destruct (Poller.fetched w) as [ status | ] eqn:Hf.
  - destruct (poll_cases m w status Hf)
      as [-> | (Hplay & _ & d & _ & _ & _ & _ & _ & ->)].
    + split; assumption.
    + pose proof (artStep_keeps_sent m w status) as (Hid & Hst & _).
      pose proof (artStep_cache m w status Hc) as Hc1.
      cbv zeta in *. destruct (Poller.sendOk w).
      * split; [ | exact Hc1 ].
        unfold Memory.sentTogether. cbn. exact Hplay.
      * split; [ | exact Hc1 ].
        unfold Memory.sentTogether. rewrite Hid, Hst. exact Hs.
  - unfold Poller.poll. rewrite Hf. split; assumption.
Qed.

Lemma run_keeps_memory_shape (ws : list Poller.Tick) :
  forall m,
    Memory.sentTogether m /\ Memory.cachedTogether m ->
    Forall (fun o => Memory.sentTogether (Poller.memory o)
                     /\ Memory.cachedTogether (Poller.memory o))
           (Poller.run m ws).
Proof.
  induction ws as [ | w ws IH ]; intros m Hm; [ constructor | ].
  cbn. pose proof (poll_keeps_memory_shape m w Hm) as H1.
  constructor; [ exact H1 | apply IH, H1 ].
Qed.

(** X3.  Whatever the poller observes, from its start on: the last-sent
    track id and status are both unset or both set, the status then being
    ["playing"] or ["paused"]; and the cached album name, art and palette
    are all unset or all set. *)
Theorem poller_memory_stays_paired :
  forall ws : list Poller.Tick,
    Forall (fun o => Memory.sentTogether (Poller.memory o)
                     /\ Memory.cachedTogether (Poller.memory o))
           (Poller.run Poller.initial ws).
Proof.
  intros ws. apply run_keeps_memory_shape. split; exact I.
Qed.

(** X4.  A publish that fails is tried again: when [poll] hands a
    snapshot to the publish step and the step fails, the next call that
    fetches the same status hands a snapshot over again. *)
Theorem failed_publish_is_retried :
  forall (m : Poller.Memory) (w w' : Poller.Tick) (status : TauonStatus.t),
    Poller.fetched w = Some status ->
    Poller.fetched w' = Some status ->
    Poller.published (Poller.poll m w) = true ->
    Poller.sendOk w = false ->
    Poller.published (Poller.poll (Poller.memory (Poller.poll m w)) w')
    = true.
Proof.
  intros m w w' status Hf Hf' Hpub Hfail.
  destruct (poll_cases m w status Hf)
    as [E | (Hplay & Hup & d & _ & _ & _ & _ & _ & Hmem)].
  { rewrite E in Hpub. discriminate. }
  rewrite Hfail in Hmem. cbv zeta in Hmem. rewrite Hmem.
  pose proof (artStep_keeps_sent m w status) as (Hid & Hst & Hseen).
  cbv zeta in Hid, Hst, Hseen.
  destruct (poll_cases (snd (Poller.artStep m w status)) w' status Hf')
    as [E | (_ & _ & d' & Hd' & _)].
  - exfalso. revert E. unfold Poller.poll. rewrite Hf'.
    rewrite Hid, Hst, Hseen, Hup.
    destruct Hplay as [-> | ->]; discriminate.
  - unfold Poller.published. now rewrite Hd'.
Qed.

(** X5.  A publish that succeeds is not repeated: after it, a status with
    the same track id and the same status string is not published (the id
    being a number equal to itself, as every id but NaN is). *)
Theorem successful_publish_not_repeated :
  forall (m : Poller.Memory) (w w' : Poller.Tick)
         (status status' : TauonStatus.t),
    Poller.fetched w = Some status ->
    Poller.fetched w' = Some status' ->
    Poller.published (Poller.poll m w) = true ->
    Poller.sendOk w = true ->
    PrimFloat.eqb (TauonStatus.id status') (TauonStatus.id status) = true ->
    TauonStatus.status status' = TauonStatus.status status ->
    Poller.published (Poller.poll (Poller.memory (Poller.poll m w)) w')
    = false.
Proof.
  intros m w w' status status' Hf Hf' Hpub Hok Hid Hst.
  destruct (poll_cases m w status Hf)
    as [E | (Hplay & Hup & d & _ & _ & _ & _ & _ & Hmem)].
  { rewrite E in Hpub. discriminate. }
  rewrite Hok in Hmem. cbv zeta in Hmem. rewrite Hmem.
  unfold Poller.poll. rewrite Hf'. rewrite Hst.
  cbn [Poller.lastSentTrackId Poller.lastSentStatus Poller.lastSeenStatus].
  unfold State.shouldUpdate. rewrite Hst.
  cbn [Js.neqOptNumber Js.eqOptString]. rewrite Hid.
  destruct Hplay as [-> | ->]; reflexivity.
Qed.

End PollerRuns.

Lemma failed_publish_is_retried_witness :
  Poller.published
    (Poller.poll
       (Poller.memory
          (Poller.poll Poller.initial
             (Poller.mkTick (Some Sample.status) (Some Sample.artResult)
                1700000000000 false)))
       Sample.tick)
  = true.
Proof.
  apply (failed_publish_is_retried Poller.initial
           (Poller.mkTick (Some Sample.status) (Some Sample.artResult)
              1700000000000 false)
           Sample.tick Sample.status); reflexivity.
Defined.

Lemma successful_publish_not_repeated_witness :
  Poller.published
    (Poller.poll (Poller.memory (Poller.poll Poller.initial Sample.tick))
       Sample.tick)
  = false.
Proof.
  apply (successful_publish_not_repeated Poller.initial Sample.tick
           Sample.tick Sample.status Sample.status); reflexivity.
Defined.

Section PollerArt.

Local Open Scope float_scope.

Lemma length_pos_nonempty (s : string) :
  s <> EmptyString -> (0 <? String.length s)%nat = true.
Proof. destruct s; [ congruence | reflexivity ]. Qed.

(** With the album of the status in the cache, the art step takes the
    cached art and palette, or none when the track id is not positive,
    and does not look at the answer of the art fetch. *)
Lemma artStep_cached (m : Poller.Memory) (w : Poller.Tick)
    (status : TauonStatus.t) (b : string) (c : ColorPalette.t) :
  Poller.lastAlbumName m = Some (Memory.albumName status) ->
  Memory.albumName status <> EmptyString ->
  Poller.lastArtBase64 m = Some b -> b <> EmptyString ->
  Poller.lastColors m = Some c ->
  Poller.artStep m w status
  = if (String.eqb (TauonStatus.status status) "playing"
        || String.eqb (TauonStatus.status status) "paused")
       && PrimFloat.ltb 0 (TauonStatus.id status)
    then (Some b, Some c, m) else (None, None, m).
Proof.
  intros Halbum Hne Hart Hb Hcol. unfold Poller.artStep.
  fold (Memory.albumName status).
  rewrite Halbum, Hart, Hcol, (length_pos_nonempty _ Hne).
  cbn [Js.eqOptString]. rewrite String.eqb_refl.
  destruct b as [ | x b ]; [ congruence | ]. cbn [Js.truthy andb negb].
  rewrite andb_true_r. destruct (_ && _); reflexivity.
Qed.

Lemma poll_ignores_art (m : Poller.Memory) (w : Poller.Tick)
    (status : TauonStatus.t) (art : option ArtResult.t) :
  Poller.fetched w = Some status ->
  Poller.artStep m (Memory.withArt w art) status = Poller.artStep m w status ->
  Poller.poll m (Memory.withArt w art) = Poller.poll m w.
Proof.
  intros Hf Hstep. unfold Poller.poll.
  cbn [Memory.withArt Poller.fetched Poller.now Poller.sendOk].
  rewrite Hf. fold (Memory.withArt w art). rewrite Hstep. reflexivity.
Qed.

(** X6.  Art is cached by album: when the memory holds art and a palette
    under the album name of the fetched status, [poll] does not depend on
    what the art fetch answers, and a snapshot it hands over for a
    positive track id carries the cached art and palette. *)
Theorem cached_album_art_is_reused :
  forall (m : Poller.Memory) (w : Poller.Tick) (status : TauonStatus.t)
         (b : string) (c : ColorPalette.t),
    Poller.fetched w = Some status ->
    Poller.lastAlbumName m = Some (Memory.albumName status) ->
    Memory.albumName status <> EmptyString ->
    Poller.lastArtBase64 m = Some b -> b <> EmptyString ->
    Poller.lastColors m = Some c ->
    (forall art, Poller.poll m (Memory.withArt w art) = Poller.poll m w)
    /\ (forall d,
          Poller.sent (Poller.poll m w) = Some d ->
          PrimFloat.ltb 0 (TauonStatus.id status) = true ->
          NowPlayingData.artBase64 d = Some b
          /\ NowPlayingData.colors d = Some c).
Proof.
  intros m w status b c Hf Halbum Hne Hart Hb Hcol. split.
  - intros art. apply (poll_ignores_art m w status art Hf).
    now rewrite !(artStep_cached m _ status b c).
  - intros d Hd Hid.
    destruct (poll_cases m w status Hf)
      as [E | (Hplay & _ & d' & Hd' & _ & _ & Ha & Hc & _)].
    { rewrite E in Hd. discriminate. }
    rewrite Hd in Hd'. injection Hd' as <-.
    rewrite Ha, Hc, (artStep_cached m w status b c) by assumption.
    rewrite Hid. destruct Hplay as [-> | ->]; split; reflexivity.
Qed.

(** X7.  Without a positive track id or without an album name, a
    snapshot carries neither art nor palette, whatever the cache holds and
    whatever the art fetch would answer. *)
Theorem no_art_without_id_or_album :
  forall (m : Poller.Memory) (w : Poller.Tick) (status : TauonStatus.t)
         (d : NowPlayingData.t),
    Poller.fetched w = Some status ->
    Poller.sent (Poller.poll m w) = Some d ->
    PrimFloat.ltb 0 (TauonStatus.id status) = false
    \/ Memory.albumName status = EmptyString ->
    NowPlayingData.artBase64 d = None /\ NowPlayingData.colors d = None.
Proof.
  intros m w status d Hf Hd Hnone.
  destruct (poll_cases m w status Hf)
    as [E | (_ & _ & d' & Hd' & _ & _ & Ha & Hc & _)].
  { rewrite E in Hd. discriminate. }
  rewrite Hd in Hd'. injection Hd' as <-. rewrite Ha, Hc.
  unfold Poller.artStep. fold (Memory.albumName status).
  destruct Hnone as [-> | ->];
    [ rewrite andb_false_r | cbn [String.length Nat.ltb Nat.leb] ];
    rewrite ?andb_false_r; split; reflexivity.
Qed.

End PollerArt.

Lemma cached_album_art_is_reused_witness :
  (forall art,
      Poller.poll Sample.stoppedMemory (Memory.withArt Sample.tick art)
      = Poller.poll Sample.stoppedMemory Sample.tick)
  /\ (forall d,
        Poller.sent (Poller.poll Sample.stoppedMemory Sample.tick) = Some d ->
        PrimFloat.ltb 0 (TauonStatus.id Sample.status) = true ->
        NowPlayingData.artBase64 d = Some "AAAA"
        /\ NowPlayingData.colors d = Some Sample.palette).
Proof.
  apply (cached_album_art_is_reused Sample.stoppedMemory Sample.tick
           Sample.status "AAAA" Sample.palette);
    first [ reflexivity | discriminate ].
Defined.

Lemma no_art_without_id_or_album_witness :
  NowPlayingData.artBase64
    (NowPlayingData.mk "Blue in Green" "Miles Davis" "Kind of Blue"
       "Miles Davis" "3" 337 12.5 "paused" None None 1700000000000)
  = None
  /\ NowPlayingData.colors
       (NowPlayingData.mk "Blue in Green" "Miles Davis" "Kind of Blue"
          "Miles Davis" "3" 337 12.5 "paused" None None 1700000000000)
     = None.
Proof.
  apply (no_art_without_id_or_album Sample.stoppedMemory
           (Poller.observing Sample.tick Sample.status 0 "paused")
           (Poller.observed Sample.status 0 "paused")
           (NowPlayingData.mk "Blue in Green" "Miles Davis" "Kind of Blue"
              "Miles Davis" "3" 337 12.5 "paused" None None 1700000000000)).
  - reflexivity.
  - reflexivity.
  - left. reflexivity.
Defined.

(** ** More on the text helpers *)

Section Escaping.

Lemma replaceAll_app (c : ascii) (rep a b : string) :
  Js.replaceAll c rep (a ++ b)
  = Js.replaceAll c rep a ++ Js.replaceAll c rep b.
Proof.
  induction a as [ | x a IH ]; [ reflexivity | ].
  cbn. destruct (Ascii.eqb x c); rewrite IH;
    [ now rewrite append_assoc | reflexivity ].
Qed.

Lemma escapeXml_app_aux (a b : string) :
  Text.escapeXml (a ++ b) = Text.escapeXml a ++ Text.escapeXml b.
Proof.
  unfold Text.escapeXml. now rewrite !replaceAll_app.
Qed.

Lemma escapeXml_cons (c : ascii) (s : string) :
  Text.escapeXml (String c s)
  = Text.escapeXml (String c EmptyString) ++ Text.escapeXml s.
Proof.
  change (String c s) with (String c EmptyString ++ s).
  apply escapeXml_app_aux.
Qed.

(** What [escapeXml] writes for one character: one of the five entities,
    or the character itself. *)
Lemma escapeXml_char (c : ascii) :
  (c = "&"%char /\ Text.escapeXml (String c EmptyString) = "&amp;")
  \/ (c = "<"%char /\ Text.escapeXml (String c EmptyString) = "&lt;")
  \/ (c = ">"%char /\ Text.escapeXml (String c EmptyString) = "&gt;")
  \/ (c = ascii_of_nat 34
      /\ Text.escapeXml (String c EmptyString) = "&quot;")
  \/ (c = "'"%char /\ Text.escapeXml (String c EmptyString) = "&apos;")
  \/ (c <> "&"%char /\ c <> "<"%char /\ c <> ">"%char
      /\ c <> ascii_of_nat 34 /\ c <> "'"%char
      /\ Text.escapeXml (String c EmptyString) = String c EmptyString).
Proof.
  destruct c as [[] [] [] [] [] [] [] []];
    first [ now left
          | now (right; left)
          | now (right; right; left)
          | now (right; right; right; left)
          | now (right; right; right; right; left)
          | (do 5 right; repeat split; first [ discriminate | reflexivity ]) ].
Qed.

(** X8.  The escaped text holds none of the characters [<], [>], the
    double quote and the apostrophe, whatever the text. *)
Theorem escapeXml_leaves_no_markup_character :
  forall (text : string) (c : ascii),
    In c (list_ascii_of_string (Text.escapeXml text)) ->
    c <> "<"%char /\ c <> ">"%char /\ c <> ascii_of_nat 34
    /\ c <> "'"%char.
Proof.
  intros text c. induction text as [ | x text IH ]; [ intros [] | ].
  rewrite escapeXml_cons.
  assert (Happ : forall a b : string,
             list_ascii_of_string (a ++ b)
             = (list_ascii_of_string a ++ list_ascii_of_string b)%list).
  { intros a b. induction a as [ | y a IHa ]; cbn; [ | rewrite IHa ];
      reflexivity. }
  rewrite Happ, in_app_iff. intros [Hin | Hin]; [ | now apply IH ].
  destruct (escapeXml_char x)
    as [ [_ E] | [ [_ E] | [ [_ E] | [ [_ E] | [ [_ E] | H ] ] ] ] ].
  1-5: rewrite E in Hin; cbn in Hin;
       repeat (destruct Hin as [<- | Hin];
               [ repeat split; discriminate | ]);
       destruct Hin.
  destruct H as (_ & H1 & H2 & H3 & H4 & E).
  rewrite E in Hin. cbn in Hin. destruct Hin as [<- | []].
  repeat split; assumption.
Qed.

(** X9.  [escapeXml] works character by character: the escape of a
    concatenation is the concatenation of the escapes, and a character
    other than [&], [<], [>], the double quote and the apostrophe is
    written as it is. *)
Theorem escapeXml_is_character_wise :
  forall a b : string,
    Text.escapeXml (a ++ b) = Text.escapeXml a ++ Text.escapeXml b
    /\ forall c : ascii,
         (c <> "&"%char /\ c <> "<"%char /\ c <> ">"%char
          /\ c <> ascii_of_nat 34 /\ c <> "'"%char) ->
         Text.escapeXml (String c a) = String c (Text.escapeXml a).
Proof.
  intros a b. split; [ apply escapeXml_app_aux | ].
  intros c (H0 & H1 & H2 & H3 & H4). rewrite escapeXml_cons.
  destruct (escapeXml_char c)
    as [ [E _] | [ [E _] | [ [E _] | [ [E _] | [ [E _] | H ] ] ] ] ];
    try congruence.
  destruct H as (_ & _ & _ & _ & _ & ->). reflexivity.
Qed.

(** X10.  Distinct texts have distinct escapes. *)
Theorem escapeXml_is_injective :
  forall a b : string, Text.escapeXml a = Text.escapeXml b -> a = b.
Proof.
  induction a as [ | x a IH ]; intros [ | y b ].
  - reflexivity.
  - rewrite (escapeXml_cons y b).
    destruct (escapeXml_char y)
      as [ [_ E] | [ [_ E] | [ [_ E] | [ [_ E] | [ [_ E] | H ] ] ] ] ];
      [ rewrite E .. | destruct H as (_ & _ & _ & _ & _ & ->) ];
      discriminate.
  - rewrite (escapeXml_cons x a).
    destruct (escapeXml_char x)
      as [ [_ E] | [ [_ E] | [ [_ E] | [ [_ E] | [ [_ E] | H ] ] ] ] ];
      [ rewrite E .. | destruct H as (_ & _ & _ & _ & _ & ->) ];
      discriminate.
  - rewrite (escapeXml_cons x a), (escapeXml_cons y b).
    destruct (escapeXml_char x)
      as [ [-> Ex] | [ [-> Ex] | [ [-> Ex] | [ [-> Ex] | [ [-> Ex] | Hx ]
         ] ] ] ];
    destruct (escapeXml_char y)
      as [ [-> Ey] | [ [-> Ey] | [ [-> Ey] | [ [-> Ey] | [ [-> Ey] | Hy ]
         ] ] ] ];
    try (rewrite Ex); try (rewrite Ey);
    try (destruct Hx as (Hx0 & _ & _ & _ & _ & ->));
    try (destruct Hy as (Hy0 & _ & _ & _ & _ & ->));
    cbn; intros H; try discriminate H;
    inversion H; subst; try congruence; f_equal; now apply IH.
Qed.

End Escaping.

Lemma escapeXml_leaves_no_markup_character_witness :
  ";"%char <> "<"%char /\ ";"%char <> ">"%char
  /\ ";"%char <> ascii_of_nat 34 /\ ";"%char <> "'"%char.
Proof.
  apply (escapeXml_leaves_no_markup_character "a<b" ";").
  cbn. repeat (first [ left; reflexivity | right ]).
Defined.

Lemma escapeXml_is_character_wise_witness :
  Text.escapeXml ("<" ++ "b") = Text.escapeXml "<" ++ Text.escapeXml "b"
  /\ Text.escapeXml (String "a" "<") = String "a" (Text.escapeXml "<").
Proof.
  destruct (escapeXml_is_character_wise "<" "b") as [Happ Hchar].
  split; [ exact Happ | ].
  apply Hchar. repeat split; discriminate.
Defined.

Lemma escapeXml_is_injective_witness : "a<b" = "a<b".
Proof.
  apply (escapeXml_is_injective "a<b" "a<b"). reflexivity.
Defined.

Section Truncation.

Local Open Scope float_scope.

Lemma length_append (a b : string) :
  String.length (a ++ b) = (String.length a + String.length b)%nat.
Proof.
  induction a as [ | c a IH ]; cbn; [ reflexivity | now rewrite IH ].
Qed.

Lemma length_substring0 (k : nat) (s : string) :
  String.length (String.substring 0 k s) = Nat.min k (String.length s).
Proof.
  revert s. induction k as [ | k IH ]; intros [ | c s ]; cbn;
    try reflexivity.
  now rewrite IH.
Qed.

(** The end index that does not reach a bound does not depend on it. *)
Lemma substringEnd_below (x : float) (len big : nat) :
  (Js.substringEnd x big < big)%nat ->
  Js.substringEnd x len = Nat.min (Js.substringEnd x big) len.
Proof.
  unfold Js.substringEnd.
  destruct (Prim2SF x) as [ s | s | | s m e ]; try (intros _; lia).
  - destruct s; lia.
  - destruct s; [ lia | ].
    destruct (0 <=? e)%Z; lia.
Qed.

Lemma substringEnd_not_positive (x : float) (len : nat) :
  PrimFloat.ltb 0 x = false -> Js.substringEnd x len = 0%nat.
Proof.
  rewrite ltb_spec. unfold Js.substringEnd.
  change (Prim2SF 0) with (S754_zero false).
  destruct (Prim2SF x) as [ s | s | | s m e ]; try reflexivity.
  - destruct s; [ reflexivity | discriminate ].
  - destruct s; [ reflexivity | discriminate ].
Qed.

Lemma ordered_nth (l : list float) (d : float) :
  Whole.ordered l = true ->
  forall i j, (i <= j < List.length l)%nat ->
    PrimFloat.leb (nth i l d) (nth j l d) = true.
Proof.
  induction l as [ | x l IH ]; intros H i j Hij; [ cbn in Hij; lia | ].
  cbn [Whole.ordered] in H. apply andb_prop in H as [Hx Hl].
  destruct i as [ | i ].
  - rewrite forallb_forall in Hx. apply Hx, nth_In. lia.
  - destruct j as [ | j ]; [ lia | ].
    cbn [nth]. apply IH; [ exact Hl | cbn in Hij; lia ].
Qed.

Lemma upTo_nth (n i : nat) (d : float) :
  (i < n)%nat -> nth i (Whole.upTo n) d = Js.ofNat i.
Proof.
  intros Hi. unfold Whole.upTo.
  rewrite (nth_indep _ d (Js.ofNat 0)) by (rewrite length_map, length_seq; lia).
  rewrite (map_nth Js.ofNat), seq_nth by lia. reflexivity.
Qed.

Lemma whole_numbers_ordered : Whole.ordered (Whole.upTo 1024) = true.
Proof. vm_compute. reflexivity. Qed.

Lemma whole_leb (i j : nat) :
  (i <= j < 1024)%nat -> PrimFloat.leb (Js.ofNat i) (Js.ofNat j) = true.
Proof.
  intros Hij.
  rewrite <- (upTo_nth 1024 i 0), <- (upTo_nth 1024 j 0) by lia.
  apply ordered_nth; [ exact whole_numbers_ordered | ].
  unfold Whole.upTo. rewrite length_map, length_seq. exact Hij.
Qed.

Lemma whole_numbers_minus_three :
  forallb (fun n => (Js.substringEnd (Js.ofNat (n + 3) - 3) 1024 =? n)%nat)
          (seq 0 1021) = true.
Proof. vm_compute. reflexivity. Qed.

Lemma whole_minus_three (n len : nat) :
  (3 <= n < 1024)%nat ->
  Js.substringEnd (Js.ofNat n - 3) len = Nat.min (n - 3) len.
Proof.
  intros Hn.
  pose proof whole_numbers_minus_three as H. rewrite forallb_forall in H.
  specialize (H (n - 3)%nat). rewrite in_seq in H.
  replace (n - 3 + 3)%nat with n in H by lia.
  assert (E : Js.substringEnd (Js.ofNat n - 3) 1024 = (n - 3)%nat).
  { apply Nat.eqb_eq, H. lia. }
  rewrite (substringEnd_below _ len 1024) by lia. now rewrite E.
Qed.

(** X11.  For a whole budget [n] from 3 to 1023: a text of at most [n]
    characters is returned as it is, and a text that [truncateText]
    changes becomes its first [n - 3] characters followed by three dots,
    [n] characters in all. *)
Theorem truncateText_fits_budget :
  forall (text : string) (n : nat),
    (3 <= n < 1024)%nat ->
    ((String.length text <= n)%nat ->
     Text.truncateText text (Js.ofNat n) = text)
    /\ (Text.truncateText text (Js.ofNat n) <> text ->
        Text.truncateText text (Js.ofNat n)
        = (String.substring 0 (n - 3) text ++ "...")%string
        /\ String.length (Text.truncateText text (Js.ofNat n)) = n).
Proof.
  intros text n Hn. unfold Text.truncateText. split.
  - intros Hlen. now rewrite whole_leb by lia.
  - destruct (PrimFloat.leb _ _) eqn:Hle; [ congruence | intros _ ].
    assert (Hlong : (n < String.length text)%nat).
    { destruct (Nat.ltb_spec n (String.length text)) as [ H | H ];
        [ exact H | ].
      rewrite whole_leb in Hle by lia. discriminate. }
    rewrite whole_minus_three by exact Hn.
    replace (Nat.min (n - 3) (String.length text)) with (n - 3)%nat by lia.
    split; [ reflexivity | ].
    rewrite length_append, length_substring0. cbn. lia.
Qed.

(** X12.  A budget below 3 is not kept: when the text is longer than
    the budget [maxLength] and [maxLength - 3] is not positive (or is
    NaN), the result is the three dots alone. *)
Theorem truncateText_small_budget_gives_dots :
  forall (text : string) (maxLength : float),
    PrimFloat.leb (Js.ofNat (String.length text)) maxLength = false ->
    PrimFloat.ltb 0 (maxLength - 3) = false ->
    Text.truncateText text maxLength = "...".
Proof.
  intros text maxLength Hle Hsmall. unfold Text.truncateText.
  rewrite Hle, (substringEnd_not_positive _ _ Hsmall).
  destruct text; reflexivity.
Qed.

End Truncation.

Lemma truncateText_fits_budget_witness :
  Text.truncateText Sample.longTitle (Js.ofNat 43)
  = (String.substring 0 (43 - 3) Sample.longTitle ++ "...")%string
  /\ String.length (Text.truncateText Sample.longTitle (Js.ofNat 43))
     = 43%nat.
Proof.
  assert (Hn : (3 <= 43 < 1024)%nat) by lia.
  apply (proj2 (truncateText_fits_budget Sample.longTitle 43 Hn)).
  vm_compute. discriminate.
Defined.

Lemma truncateText_small_budget_gives_dots_witness :
  Text.truncateText "abcd" 2 = "...".
Proof.
  apply (truncateText_small_budget_gives_dots "abcd" 2); reflexivity.
Defined.

(** ** More on the wave seed *)

Section TitleHash.

Local Open Scope Z_scope.

Lemma toInt32_range (z : Z) : - 2 ^ 31 <= Waves.toInt32 z < 2 ^ 31.
Proof.
  unfold Waves.toInt32.
  pose proof (Z.mod_pos_bound (z + 2 ^ 31) (2 ^ 32) ltac:(lia)). lia.
Qed.

Lemma toInt32_mod (z : Z) : Waves.toInt32 z mod 2 ^ 32 = z mod 2 ^ 32.
Proof.
  unfold Waves.toInt32.
  rewrite Zminus_mod, Z.mod_mod, <- Zminus_mod by lia.
  f_equal. lia.
Qed.

Lemma toInt32_congr (a b : Z) :
  a mod 2 ^ 32 = b mod 2 ^ 32 -> Waves.toInt32 a = Waves.toInt32 b.
Proof.
  intros H. unfold Waves.toInt32.
  rewrite (Zplus_mod a), (Zplus_mod b), H. reflexivity.
Qed.

(** One turn of the loop: [(hash << 5) - hash + c], wrapped, is
    [31 * hash + c], wrapped. *)
Lemma hash_step (h c : Z) :
  Waves.toInt32 (Waves.toInt32 (Z.shiftl h 5) - h + c)
  = Waves.toInt32 (31 * h + c).
Proof.
  apply toInt32_congr.
  rewrite Z.shiftl_mul_pow2 by lia.
  rewrite Zplus_mod, Zminus_mod, toInt32_mod, <- Zminus_mod, <- Zplus_mod.
  f_equal. lia.
Qed.

Lemma horner_congr (input : string) (h h' : Z) :
  h mod 2 ^ 32 = h' mod 2 ^ 32 ->
  Hash.horner input h mod 2 ^ 32 = Hash.horner input h' mod 2 ^ 32.
Proof.
  revert h h'. induction input as [ | c r IH ]; intros h h' H; [ exact H | ].
  cbn [Hash.horner]. apply IH.
  rewrite (Zplus_mod (31 * h)), (Zplus_mod (31 * h')).
  rewrite (Zmult_mod 31 h), (Zmult_mod 31 h'), H. reflexivity.
Qed.

Lemma hashLoop_horner (input : string) (h : Z) :
  Waves.hashLoop input (Waves.toInt32 h)
  = Waves.toInt32 (Hash.horner input h).
Proof.
  revert h. induction input as [ | c r IH ]; intros h; [ reflexivity | ].
  cbn [Waves.hashLoop Hash.horner]. rewrite hash_step, IH.
  apply toInt32_congr, horner_congr.
  rewrite (Zplus_mod (31 * _)), (Zmult_mod 31), toInt32_mod,
    <- Zmult_mod, <- Zplus_mod. reflexivity.
Qed.

(** X13.  [hashString] is the polynomial hash in 31 of the code units,
    wrapped once to a signed 32-bit integer, in absolute value: wrapping
    at every turn of the loop, as the code does, changes nothing, and
    [(hash << 5) - hash] is [31 * hash]. *)
Theorem hashString_is_polynomial_hash :
  forall input : string,
    Waves.hashString input
    = Z.abs (Waves.toInt32 (Hash.horner input 0)).
Proof.
  intros input. unfold Waves.hashString.
  change (Waves.hashLoop input 0)
    with (Waves.hashLoop input (Waves.toInt32 0)).
  now rewrite hashLoop_horner.
Qed.

(** X14.  The seed is a whole number from 0 to 2^31, both included. *)
Theorem hashString_range :
  forall input : string, 0 <= Waves.hashString input <= 2 ^ 31.
Proof.
  intros input. unfold Waves.hashString.
  change (Waves.hashLoop input 0)
    with (Waves.hashLoop input (Waves.toInt32 0)).
  rewrite hashLoop_horner.
  pose proof (toInt32_range (Hash.horner input 0)). lia.
Qed.

End TitleHash.

(** ** More on the colour blend *)

Section ColourFacts.

Import Markup.
Import Check.
Local Open Scope float_scope.

Lemma isChannel_inv (x : float) :
  Channel.isChannel x = true -> exists n, (n < 256)%nat /\ x = Js.ofNat n.
Proof.
  unfold Channel.isChannel. rewrite existsb_exists.
  intros (y & Hy & E). apply Leibniz.eqb_spec in E. subst y.
  unfold channels in Hy. rewrite in_map_iff in Hy.
  destruct Hy as (n & <- & Hn). rewrite in_seq in Hn.
  exists n. split; [ lia | reflexivity ].
Qed.

Lemma channels_print : forallb Channel.printsAsPair channels = true.
Proof. vm_compute. reflexivity. Qed.

(** A channel value prints as two lowercase digits that read back as
    it. *)
Lemma channel_prints (n : nat) :
  (n < 256)%nat ->
  exists c1 c2,
    Js.padStart2 (Js.toString16 (Js.ofNat n))
    = String c1 (String c2 EmptyString)
    /\ isHexDigit c1 = true /\ isHexDigit c2 = true
    /\ Js.ofNat (pairValue c1 c2) = Js.ofNat n
    /\ Js.lowerChar c1 = c1 /\ Js.lowerChar c2 = c2.
Proof.
  intros Hn.
  pose proof (on_channels _ channels_print n Hn) as H.
  unfold Channel.printsAsPair in H.
  destruct (Js.padStart2 _) as [ | c1 [ | c2 [ | ] ] ]; try discriminate.
  repeat (apply andb_prop in H as [H ?]).
  exists c1, c2. repeat split; try assumption.
  - now apply Leibniz.eqb_spec.
  - now apply Ascii.eqb_eq.
  - now apply Ascii.eqb_eq.
Qed.

(** The colour printed from three channel values is a valid colour. *)
Lemma rgbToHex_valid (r g b : float) :
  Channel.isChannel r = true -> Channel.isChannel g = true ->
  Channel.isChannel b = true ->
  isHexColor (Colors.rgbToHex r g b) = true.
Proof.
  intros Hr Hg Hb.
  destruct (isChannel_inv r Hr) as (nr & Lr & ->).
  destruct (isChannel_inv g Hg) as (ng & Lg & ->).
  destruct (isChannel_inv b Hb) as (nb & Lb & ->).
  destruct (channel_prints nr Lr) as (r1 & r2 & Er & Hr1 & Hr2 & _).
  destruct (channel_prints ng Lg) as (g1 & g2 & Eg & Hg1 & Hg2 & _).
  destruct (channel_prints nb Lb) as (b1 & b2 & Eb & Hb1 & Hb2 & _).
  unfold Colors.rgbToHex. rewrite Er, Eg, Eb. cbn.
  now rewrite Hr1, Hr2, Hg1, Hg2, Hb1, Hb2.
Qed.

(** The channels of a valid colour, as [hexToRgb] reads them. *)
Lemma hexToRgb_valid (A : string) :
  isHexColor A = true ->
  exists a1 a2 a3,
    (a1 < 256)%nat /\ (a2 < 256)%nat /\ (a3 < 256)%nat
    /\ Colors.hexToRgb A
       = Colors.mkRgb (Js.ofNat a1) (Js.ofNat a2) (Js.ofNat a3).
Proof.
  intros HA.
  destruct (isHexColor_inv A HA)
    as (c1 & c2 & c3 & c4 & c5 & c6 & -> & H1 & H2 & H3 & H4 & H5 & H6).
  destruct (hex_pair c1 c2 H1 H2) as (L1 & P1 & _).
  destruct (hex_pair c3 c4 H3 H4) as (L2 & P2 & _).
  destruct (hex_pair c5 c6 H5 H6) as (L3 & P3 & _).
  exists (pairValue c1 c2), (pairValue c3 c4), (pairValue c5 c6).
  repeat split; try assumption.
  rewrite <- P1, <- P2, <- P3. reflexivity.
Qed.

Lemma mixColors_blend (A B : string) (ratio : float) :
  Colors.mixColors A B ratio
  = Colors.rgbToHex
      (Channel.blend (Colors.r (Colors.hexToRgb A))
         (Colors.r (Colors.hexToRgb B)) ratio)
      (Channel.blend (Colors.g (Colors.hexToRgb A))
         (Colors.g (Colors.hexToRgb B)) ratio)
      (Channel.blend (Colors.b (Colors.hexToRgb A))
         (Colors.b (Colors.hexToRgb B)) ratio).
Proof. reflexivity. Qed.

Lemma half_sums_commute :
  forallb (fun a =>
     forallb (fun b =>
        Leibniz.eqb (a * (1 - 0.5) + b * 0.5) (b * (1 - 0.5) + a * 0.5))
       channels) channels = true.
Proof. vm_compute. reflexivity. Qed.

Lemma blend_half_symmetric (a b : nat) :
  (a < 256)%nat -> (b < 256)%nat ->
  Channel.blend (Js.ofNat a) (Js.ofNat b) 0.5
  = Channel.blend (Js.ofNat b) (Js.ofNat a) 0.5.
Proof.
  intros Ha Hb. unfold Channel.blend. do 2 f_equal.
  apply Leibniz.eqb_spec.
  pose proof half_sums_commute as H.
  rewrite forallb_forall in H.
  specialize (H _ (channel_in a Ha)). rewrite forallb_forall in H.
  exact (H _ (channel_in b Hb)).
Qed.

(** X15.  The even blend does not depend on the order of the colours:
    for valid colours [A] and [B], [mixColors] at ratio 0.5 gives the
    same colour either way round. *)
Theorem mixColors_half_is_symmetric :
  forall A B : string,
    isHexColor A = true -> isHexColor B = true ->
    Colors.mixColors A B 0.5 = Colors.mixColors B A 0.5.
Proof.
  intros A B HA HB.
  destruct (hexToRgb_valid A HA) as (a1 & a2 & a3 & ? & ? & ? & EA).
  destruct (hexToRgb_valid B HB) as (b1 & b2 & b3 & ? & ? & ? & EB).
  rewrite !mixColors_blend, EA, EB. cbn [Colors.r Colors.g Colors.b].
  now rewrite (blend_half_symmetric a1 b1), (blend_half_symmetric a2 b2),
    (blend_half_symmetric a3 b3).
Qed.

End ColourFacts.

Lemma mixColors_half_is_symmetric_witness :
  Colors.mixColors "#1d2a44" "#5B8DD9" 0.5
  = Colors.mixColors "#5B8DD9" "#1d2a44" 0.5.
Proof.
  apply (mixColors_half_is_symmetric "#1d2a44" "#5B8DD9"); reflexivity.
Defined.

Section CardColours.

Import Markup.
Import Check.
Local Open Scope float_scope.

Lemma card_blends_are_channels :
  forallb (fun a =>
     Channel.isChannel (Channel.blend a 5 0.82)
     && Channel.isChannel (Channel.blend a 13 0.7)
     && Channel.isChannel (Channel.blend a 15 0.7)
     && Channel.isChannel (Channel.blend a 18 0.7)
     && Channel.isChannel (Channel.blend a 255 0.45)) channels = true.
Proof. vm_compute. reflexivity. Qed.

Lemma card_blend (n : nat) :
  (n < 256)%nat ->
  Channel.isChannel (Channel.blend (Js.ofNat n) 5 0.82) = true
  /\ Channel.isChannel (Channel.blend (Js.ofNat n) 13 0.7) = true
  /\ Channel.isChannel (Channel.blend (Js.ofNat n) 15 0.7) = true
  /\ Channel.isChannel (Channel.blend (Js.ofNat n) 18 0.7) = true
  /\ Channel.isChannel (Channel.blend (Js.ofNat n) 255 0.45) = true.
Proof.
  intros Hn. pose proof (on_channels _ card_blends_are_channels n Hn) as H.
  cbv beta in H. repeat (apply andb_prop in H as [H ?]).
  repeat split; assumption.
Qed.

(** X16.  The colours the card derives are valid colours: with a valid
    dominant colour (the palette's, or the card border when the snapshot
    has none) the two dark shades of the background are valid, and with a
    valid accent colour so is the highlight derived from it when the
    palette gives none. *)
Theorem card_colours_are_valid :
  forall (data : option NowPlayingData.t) (config : SvgConfig.t),
    (isHexColor (Svg.dominantColor data config) = true ->
     isHexColor (Svg.baseDark data config) = true
     /\ isHexColor (Svg.midDark data config) = true)
    /\ (isHexColor (Svg.accentColor data) = true ->
        Js.truthy (Svg.colorsField data ColorPalette.highlight) = false ->
        isHexColor (Svg.highlight data) = true).
Proof.
  intros data config. split.
  - intros Hd.
    destruct (hexToRgb_valid _ Hd) as (a1 & a2 & a3 & L1 & L2 & L3 & E).
    unfold Svg.baseDark, Svg.midDark. rewrite !mixColors_blend, E.
    change (Colors.hexToRgb "#050505") with (Colors.mkRgb 5 5 5).
    change (Colors.hexToRgb "#0d0f12") with (Colors.mkRgb 13 15 18).
    cbn [Colors.r Colors.g Colors.b].
    destruct (card_blend a1 L1) as (? & ? & _).
    destruct (card_blend a2 L2) as (? & _ & ? & _).
    destruct (card_blend a3 L3) as (? & _ & _ & ? & _).
    split; apply rgbToHex_valid; assumption.
  - intros Ha Hnone.
    destruct (hexToRgb_valid _ Ha) as (a1 & a2 & a3 & L1 & L2 & L3 & E).
    unfold Svg.highlight.
    assert (Hor : forall d, Js.orLit (Svg.colorsField data
                              ColorPalette.highlight) d = d).
    { intros d. destruct (Svg.colorsField data ColorPalette.highlight)
        as [ [ | c s ] | ]; [ reflexivity | discriminate | reflexivity ]. }
    rewrite Hor, mixColors_blend, E.
    change (Colors.hexToRgb "#ffffff") with (Colors.mkRgb 255 255 255).
    cbn [Colors.r Colors.g Colors.b].
    apply rgbToHex_valid; now apply card_blend.
Qed.

Lemma mul_nan_l (x : float) : PrimFloat.nan * x = PrimFloat.nan.
Proof. apply Prim2SF_inj. rewrite mul_spec. reflexivity. Qed.

Lemma add_nan_l (x : float) : PrimFloat.nan + x = PrimFloat.nan.
Proof. apply Prim2SF_inj. rewrite add_spec. reflexivity. Qed.

Lemma add_nan_r (x : float) : x + PrimFloat.nan = PrimFloat.nan.
Proof.
  apply Prim2SF_inj. rewrite add_spec.
  change (Prim2SF PrimFloat.nan) with S754_nan.
  now destruct (Prim2SF x).
Qed.

Lemma blend_nan (a b ratio : float) :
  Channel.blend PrimFloat.nan b ratio = PrimFloat.nan
  /\ Channel.blend a PrimFloat.nan ratio = PrimFloat.nan.
Proof.
  unfold Channel.blend.
  rewrite !mul_nan_l, add_nan_l, add_nan_r. split; reflexivity.
Qed.

(** X17.  A colour that does not parse is not refused: when none of the
    three channels of [A], or of [B], reads as a number, [mixColors]
    returns the text [#NaNNaNNaN], whatever the other colour and the
    ratio. *)
Theorem mixColors_unparsed_colour_gives_NaN :
  forall (A B : string) (ratio : float),
    Colors.hexToRgb A
    = Colors.mkRgb PrimFloat.nan PrimFloat.nan PrimFloat.nan
    \/ Colors.hexToRgb B
       = Colors.mkRgb PrimFloat.nan PrimFloat.nan PrimFloat.nan ->
    Colors.mixColors A B ratio = "#NaNNaNNaN".
Proof.
  intros A B ratio H. rewrite mixColors_blend.
  destruct H as [-> | ->]; cbn [Colors.r Colors.g Colors.b].
  - rewrite !(proj1 (blend_nan 0 _ ratio)). reflexivity.
  - rewrite !(proj2 (blend_nan _ 0 ratio)). reflexivity.
Qed.

End CardColours.

Lemma card_colours_are_valid_witness :
  Markup.isHexColor (Svg.baseDark (Some Sample.snapshot) defaultSvgConfig)
  = true
  /\ Markup.isHexColor (Svg.midDark (Some Sample.snapshot) defaultSvgConfig)
     = true
  /\ Markup.isHexColor (Svg.highlight None) = true.
Proof.
  destruct (card_colours_are_valid (Some Sample.snapshot) defaultSvgConfig)
    as [Hdark _].
  destruct (card_colours_are_valid None defaultSvgConfig) as [_ Hlight].
  destruct (Hdark eq_refl) as [Hbase Hmid].
  exact (conj Hbase (conj Hmid (Hlight eq_refl eq_refl))).
Defined.

Lemma mixColors_unparsed_colour_gives_NaN_witness :
  Colors.mixColors "none" "#ffffff" 0.45 = "#NaNNaNNaN".
Proof.
  apply (mixColors_unparsed_colour_gives_NaN "none" "#ffffff" 0.45).
  left. reflexivity.
Defined.

(** ** The palette of the album art *)

Section PaletteFacts.

Import Markup.
Import Check.
Local Open Scope float_scope.

(** The channels of a valid colour are channel values. *)
Lemma valid_colour_channels (hex : string) :
  isHexColor hex = true ->
  Channel.isChannel (Channel.read 1 hex) = true
  /\ Channel.isChannel (Channel.read 3 hex) = true
  /\ Channel.isChannel (Channel.read 5 hex) = true.
Proof.
  intros H.
  destruct (isHexColor_inv hex H)
    as (c1 & c2 & c3 & c4 & c5 & c6 & -> & H1 & H2 & H3 & H4 & H5 & H6).
  destruct (hex_pair c1 c2 H1 H2) as (L1 & P1 & _).
  destruct (hex_pair c3 c4 H3 H4) as (L2 & P2 & _).
  destruct (hex_pair c5 c6 H5 H6) as (L3 & P3 & _).
  unfold Channel.read. cbn [String.substring]. rewrite P1, P2, P3.
  assert (Hc : forall n, (n < 256)%nat ->
                 Channel.isChannel (Js.ofNat n) = true).
  { intros n Hn. unfold Channel.isChannel. apply existsb_exists.
    exists (Js.ofNat n). split; [ now apply channel_in | ].
    now apply Leibniz.eqb_spec. }
  repeat split; now apply Hc.
Qed.

(** The colour printed from three channel values is valid and reads back
    as these values. *)
Lemma printed_colour (r g b : float) :
  Channel.isChannel r = true -> Channel.isChannel g = true ->
  Channel.isChannel b = true ->
  let out := Js.cat [ "#"; Art.toHex r; Art.toHex g; Art.toHex b ] in
  isHexColor out = true
  /\ Channel.read 1 out = r /\ Channel.read 3 out = g
  /\ Channel.read 5 out = b.
Proof.
  intros Hr Hg Hb.
  destruct (isChannel_inv r Hr) as (nr & Lr & ->).
  destruct (isChannel_inv g Hg) as (ng & Lg & ->).
  destruct (isChannel_inv b Hb) as (nb & Lb & ->).
  destruct (channel_prints nr Lr) as (r1 & r2 & Er & Hr1 & Hr2 & Vr & _).
  destruct (channel_prints ng Lg) as (g1 & g2 & Eg & Hg1 & Hg2 & Vg & _).
  destruct (channel_prints nb Lb) as (b1 & b2 & Eb & Hb1 & Hb2 & Vb & _).
  destruct (hex_pair r1 r2 Hr1 Hr2) as (_ & Pr & _).
  destruct (hex_pair g1 g2 Hg1 Hg2) as (_ & Pg & _).
  destruct (hex_pair b1 b2 Hb1 Hb2) as (_ & Pb & _).
  unfold Art.toHex. rewrite Er, Eg, Eb. cbn zeta.
  unfold Channel.read. cbn [Js.cat fold_right String.append String.substring].
  rewrite Pr, Pg, Pb, Vr, Vg, Vb.
  repeat split. cbn. now rewrite Hr1, Hr2, Hg1, Hg2, Hb1, Hb2.
Qed.

Lemma accent_channels_check :
  forallb (fun v =>
     Channel.isChannel (Js.min 255 (Js.round (v * 1.2)))
     && PrimFloat.leb v (Js.min 255 (Js.round (v * 1.2)))) channels = true.
Proof. vm_compute. reflexivity. Qed.

Lemma whitened_channels_check :
  forallb (fun v =>
     Channel.isChannel (Js.min 255 (Js.round (v + (255 - v) * 0.10)))
     && PrimFloat.leb v (Js.min 255 (Js.round (v + (255 - v) * 0.10))))
    channels = true.
Proof. vm_compute. reflexivity. Qed.

Lemma checked_channel (P : float -> bool) (x : float) :
  forallb P channels = true -> Channel.isChannel x = true -> P x = true.
Proof.
  intros H Hx. destruct (isChannel_inv x Hx) as (n & Hn & ->).
  now apply on_channels.
Qed.

(** X18.  The accent of a valid colour is a valid colour, each of whose
    channels is that of the colour times 1.2, rounded and capped at 255,
    and so never below it. *)
Theorem accent_colour_is_valid_and_brighter :
  forall hex : string,
    isHexColor hex = true ->
    isHexColor (Art.calculateAccentColor hex) = true
    /\ forall i : nat,
         In i [1; 3; 5]%nat ->
         Channel.read i (Art.calculateAccentColor hex)
         = Js.min 255 (Js.round (Channel.read i hex * 1.2))
         /\ PrimFloat.leb (Channel.read i hex)
              (Channel.read i (Art.calculateAccentColor hex)) = true.
Proof.
  intros hex H.
  destruct (valid_colour_channels hex H) as (C1 & C3 & C5).
  pose proof (checked_channel _ _ accent_channels_check C1) as K1.
  pose proof (checked_channel _ _ accent_channels_check C3) as K3.
  pose proof (checked_channel _ _ accent_channels_check C5) as K5.
  cbv beta in K1, K3, K5.
  apply andb_prop in K1 as [V1 G1]. apply andb_prop in K3 as [V3 G3].
  apply andb_prop in K5 as [V5 G5].
  destruct (printed_colour _ _ _ V1 V3 V5) as (Hv & E1 & E3 & E5).
  cbv zeta in Hv, E1, E3, E5.
  change (Art.calculateAccentColor hex)
    with (Js.cat
            [ "#";
              Art.toHex (Js.min 255 (Js.round (Channel.read 1 hex * 1.2)));
              Art.toHex (Js.min 255 (Js.round (Channel.read 3 hex * 1.2)));
              Art.toHex (Js.min 255 (Js.round (Channel.read 5 hex * 1.2))) ]).
  split; [ exact Hv | ].
  intros i [<- | [<- | [<- | []]]].
  - rewrite E1. now split.
  - rewrite E3. now split.
  - rewrite E5. now split.
Qed.

(** X19.  Blending a valid colour with white at the ratio 0.10, the one
    the palette uses, gives a valid colour none of whose channels is
    below that of the colour. *)
Theorem whitened_colour_is_valid_and_brighter :
  forall hex : string,
    isHexColor hex = true ->
    isHexColor (Art.blendWithWhite hex 0.10) = true
    /\ forall i : nat,
         In i [1; 3; 5]%nat ->
         PrimFloat.leb (Channel.read i hex)
           (Channel.read i (Art.blendWithWhite hex 0.10)) = true.
Proof.
  intros hex H.
  destruct (valid_colour_channels hex H) as (C1 & C3 & C5).
  pose proof (checked_channel _ _ whitened_channels_check C1) as K1.
  pose proof (checked_channel _ _ whitened_channels_check C3) as K3.
  pose proof (checked_channel _ _ whitened_channels_check C5) as K5.
  cbv beta in K1, K3, K5.
  apply andb_prop in K1 as [V1 G1]. apply andb_prop in K3 as [V3 G3].
  apply andb_prop in K5 as [V5 G5].
  destruct (printed_colour _ _ _ V1 V3 V5) as (Hv & E1 & E3 & E5).
  cbv zeta in Hv, E1, E3, E5.
  change (Art.blendWithWhite hex 0.10)
    with (Js.cat
            [ "#";
              Art.toHex (Js.min 255 (Js.round
                 (Channel.read 1 hex + (255 - Channel.read 1 hex) * 0.10)));
              Art.toHex (Js.min 255 (Js.round
                 (Channel.read 3 hex + (255 - Channel.read 3 hex) * 0.10)));
              Art.toHex (Js.min 255 (Js.round
                 (Channel.read 5 hex + (255 - Channel.read 5 hex) * 0.10))) ]).
  split; [ exact Hv | ].
  intros i [<- | [<- | [<- | []]]].
  - now rewrite E1.
  - now rewrite E3.
  - now rewrite E5.
Qed.

End PaletteFacts.

Lemma accent_colour_is_valid_and_brighter_witness :
  Markup.isHexColor (Art.calculateAccentColor "#1d2a44") = true
  /\ Channel.read 1 (Art.calculateAccentColor "#1d2a44")
     = Js.min 255 (Js.round (Channel.read 1 "#1d2a44" * 1.2)%float)
  /\ PrimFloat.leb (Channel.read 1 "#1d2a44")
       (Channel.read 1 (Art.calculateAccentColor "#1d2a44")) = true.
Proof.
  destruct (accent_colour_is_valid_and_brighter "#1d2a44" eq_refl)
    as [Hvalid Hchannel].
  split; [ exact Hvalid | ]. apply Hchannel. left. reflexivity.
Defined.

Lemma whitened_colour_is_valid_and_brighter_witness :
  Markup.isHexColor (Art.blendWithWhite "#c81e1e" 0.10) = true
  /\ PrimFloat.leb (Channel.read 3 "#c81e1e")
       (Channel.read 3 (Art.blendWithWhite "#c81e1e" 0.10)) = true.
Proof.
  destruct (whitened_colour_is_valid_and_brighter "#c81e1e" eq_refl)
    as [Hvalid Hchannel].
  split; [ exact Hvalid | ]. apply Hchannel. right. left. reflexivity.
Defined.

Section HighlightFacts.

Import Markup.
Import Check.
Local Open Scope float_scope.

Variable sqrt : float -> float.
Variable pow : float -> float -> float.

Lemma isNaN_eq (x : float) : Js.isNaN x = true -> x = PrimFloat.nan.
Proof.
  unfold Js.isNaN. rewrite eqb_spec. intros H.
  apply Prim2SF_inj. change (Prim2SF PrimFloat.nan) with S754_nan.
  destruct (Prim2SF x) as [ s | s | | s m e ]; try reflexivity.
  - destruct s; discriminate.
  - destruct s; discriminate.
  - cbn in H. unfold SFeqb in H. cbn in H.
    destruct s; rewrite Z.compare_refl, Pos.compare_cont_refl in H;
      discriminate.
Qed.

Lemma max_nan_r (a : float) : Js.max a PrimFloat.nan = PrimFloat.nan.
Proof.
  unfold Js.max. destruct (Js.isNaN a) eqn:E;
    [ now apply isNaN_eq | reflexivity ].
Qed.

Lemma div_nan_l (x : float) : PrimFloat.nan / x = PrimFloat.nan.
Proof. apply Prim2SF_inj. rewrite div_spec. reflexivity. Qed.

Lemma sub_nan_l (x : float) : PrimFloat.nan - x = PrimFloat.nan.
Proof. apply Prim2SF_inj. rewrite sub_spec. reflexivity. Qed.

Lemma ltb_nan_r (x : float) : PrimFloat.ltb x PrimFloat.nan = false.
Proof.
  rewrite ltb_spec. change (Prim2SF PrimFloat.nan) with S754_nan.
  now destruct (Prim2SF x) as [ [] | [] | | [] m e ].
Qed.

(** A pixel with a channel that is not a number has a saturation that is
    not one either. *)
Lemma rgbToHsl_nan (r g b : float) :
  r = PrimFloat.nan \/ g = PrimFloat.nan \/ b = PrimFloat.nan ->
  Art.s (Art.rgbToHsl r g b) = PrimFloat.nan.
Proof.
  intros H. unfold Art.rgbToHsl.
  assert (Hmax : Js.max (Js.max (r / 255) (g / 255)) (b / 255)
                 = PrimFloat.nan).
  { destruct H as [-> | [-> | ->]]; rewrite div_nan_l.
    - reflexivity.
    - now rewrite max_nan_r.
    - now rewrite max_nan_r. }
  rewrite Hmax, sub_nan_l.
  change (negb (PrimFloat.eqb PrimFloat.nan 0)) with true. cbv iota.
  cbn [Art.s]. apply div_nan_l.
Qed.

Lemma byteAt_cases (raw : list Byte.byte) (idx : nat) :
  (exists v, nth_error raw idx = Some v
             /\ Art.byteAt raw idx = Js.ofNat (Byte.to_nat v))
  \/ (nth_error raw idx = None /\ Art.byteAt raw idx = PrimFloat.nan).
Proof.
  unfold Art.byteAt. destruct (nth_error raw idx) as [ v | ];
    [ left; now exists v | now right ].
Qed.

(** One turn of the loop keeps the best pixel or takes the pixel of the
    turn, which is then a candidate. *)
Lemma highlightStep_cases (raw : list Byte.byte) (dR dG dB : float)
    (acc : float * option Art.Pixel) (i : nat) :
  Art.highlightStep sqrt pow raw dR dG dB acc i = acc
  \/ exists p,
       snd (Art.highlightStep sqrt pow raw dR dG dB acc i) = Some p
       /\ Highlight.candidate raw i p.
Proof.
  unfold Art.highlightStep.
  destruct (_ && _ && _) eqn:Hwhite; [ now left | ].
  destruct (PrimFloat.ltb (Art.byteAt raw (i * 3)) 20 && _ && _)
    eqn:Hblack; [ now left | ].
  destruct (_ || _ || _) eqn:Hsat; [ now left | ].
  destruct (PrimFloat.ltb (fst acc) _) eqn:Hbetter; [ | now left ].
  right. eexists. split; [ reflexivity | ].
  destruct (byteAt_cases raw (i * 3)) as [ (r & Hr & Er) | [_ Er] ];
    destruct (byteAt_cases raw (i * 3 + 1)) as [ (g & Hg & Eg) | [_ Eg] ];
    destruct (byteAt_cases raw (i * 3 + 2)) as [ (b & Hb & Eb) | [_ Eb] ].
  1: { exists r, g, b. rewrite Er, Eg, Eb in *.
       cbn [Art.pr Art.pg Art.pb]. cbv zeta. now repeat split. }
  all: exfalso; revert Hbetter;
    rewrite (rgbToHsl_nan _ _ _) by (rewrite ?Er, ?Eg, ?Eb; tauto);
    rewrite mul_nan_l, !add_nan_l, ltb_nan_r; discriminate.
Qed.

Lemma highlight_fold (raw : list Byte.byte) (dR dG dB : float) (n : nat)
    (ixs : list nat) :
  (forall i, In i ixs -> (i < n)%nat) ->
  forall acc,
    (snd acc = None
     \/ exists i p, (i < n)%nat /\ snd acc = Some p
                    /\ Highlight.candidate raw i p) ->
    let final :=
      fold_left (Art.highlightStep sqrt pow raw dR dG dB) ixs acc in
    snd final = None
    \/ exists i p, (i < n)%nat /\ snd final = Some p
                   /\ Highlight.candidate raw i p.
Proof.
  induction ixs as [ | i ixs IH ]; intros Hin acc Hacc; [ exact Hacc | ].
  cbn [fold_left]. apply IH; [ intros j Hj; apply Hin; now right | ].
  destruct (highlightStep_cases raw dR dG dB acc i) as [-> | (p & Hp & Hc)];
    [ exact Hacc | ].
  right. exists i, p. split; [ apply Hin; now left | now split ].
Qed.

Lemma candidate_colour (raw : list Byte.byte) (i : nat) (p : Art.Pixel) :
  Highlight.candidate raw i p -> isHexColor (Highlight.colourOf p) = true.
Proof.
  intros (r & g & b & _ & _ & _ & -> & _).
  assert (Hc : forall v, Channel.isChannel (Js.ofNat (Byte.to_nat v)) = true).
  { intros v. unfold Channel.isChannel. apply existsb_exists.
    exists (Js.ofNat (Byte.to_nat v)). split.
    - apply channel_in. pose proof (Byte.to_nat_bounded v). lia.
    - now apply Leibniz.eqb_spec. }
  unfold Highlight.colourOf. cbn [Art.pr Art.pg Art.pb].
  now apply printed_colour.
Qed.

Lemma highlight_found (raw : list Byte.byte) (width height : nat)
    (dominantHex hex : string) :
  Art.extractHighlightFromRaw sqrt pow raw width height dominantHex
  = Some hex ->
  exists i p,
    (i < width * height)%nat /\ Highlight.candidate raw i p
    /\ hex = Highlight.colourOf p.
Proof.
  unfold Art.extractHighlightFromRaw.
  set (dR := Js.parseInt16 _). set (dG := Js.parseInt16 _).
  set (dB := Js.parseInt16 _).
  pose proof (highlight_fold raw dR dG dB (width * height)
                (seq 0 (width * height))) as H.
  specialize (H ltac:(intros i Hi; apply in_seq in Hi; lia) (0, None)
                (or_introl eq_refl)).
  cbv zeta in H. destruct H as [-> | (i & p & Hi & -> & Hc)];
    [ discriminate | ].
  intros E. injection E as <-. now exists i, p.
Qed.

(** X20.  The highlight that [extractHighlightFromRaw] returns is the
    colour of a pixel of the buffer, one that is neither near white nor
    near black and is saturated and light enough; it is a valid colour,
    whatever the dimensions given and the dominant colour. *)
Theorem highlight_is_a_candidate_pixel :
  forall (raw : list Byte.byte) (width height : nat)
         (dominantHex hex : string),
    Art.extractHighlightFromRaw sqrt pow raw width height dominantHex
    = Some hex ->
    isHexColor hex = true
    /\ exists (i : nat) (p : Art.Pixel),
         (i < width * height)%nat /\ Highlight.candidate raw i p
         /\ hex = Highlight.colourOf p.
Proof.
  intros raw width height dominantHex hex H.
  destruct (highlight_found raw width height dominantHex hex H)
    as (i & p & Hi & Hc & ->).
  split; [ now apply (candidate_colour raw i) | now exists i, p ].
Qed.

Lemma grey_channels_check :
  forallb (fun v =>
     (PrimFloat.ltb 235 v && PrimFloat.ltb 235 v && PrimFloat.ltb 235 v)
     || (PrimFloat.ltb v 20 && PrimFloat.ltb v 20 && PrimFloat.ltb v 20)
     || (PrimFloat.ltb (Art.s (Art.rgbToHsl v v v)) 0.35
         || PrimFloat.ltb (Art.l (Art.rgbToHsl v v v)) 0.18
         || PrimFloat.ltb 0.85 (Art.l (Art.rgbToHsl v v v)))) channels
  = true.
Proof. vm_compute. reflexivity. Qed.

Lemma highlightStep_grey (raw : list Byte.byte) (dR dG dB : float)
    (acc : float * option Art.Pixel) (i : nat) :
  Highlight.grey raw i ->
  Art.highlightStep sqrt pow raw dR dG dB acc i = acc.
Proof.
  intros [H1 H2].
  destruct (highlightStep_cases raw dR dG dB acc i)
    as [E | (p & _ & r & g & b & Hr & Hg & Hb & -> & Hw & Hk & Hs)];
    [ exact E | exfalso ].
  rewrite Hr, Hg in H1. rewrite Hg, Hb in H2.
  injection H1 as <-. injection H2 as <-.
  cbn [Art.pr Art.pg Art.pb] in Hw, Hk, Hs. cbv zeta in Hs.
  pose proof (on_channels _ grey_channels_check (Byte.to_nat r)) as H.
  cbv beta in H. rewrite Hw, Hk, Hs in H.
  pose proof (Byte.to_nat_bounded r).
  specialize (H ltac:(lia)). discriminate.
Qed.

(** X21.  An image without colour has no highlight of its own: when the
    three bytes of every pixel are equal, [extractHighlightFromRaw]
    returns [null], so that the palette falls back on the channel
    maxima. *)
Theorem grey_image_has_no_highlight :
  forall (raw : list Byte.byte) (width height : nat) (dominantHex : string),
    (forall i, (i < width * height)%nat -> Highlight.grey raw i) ->
    Art.extractHighlightFromRaw sqrt pow raw width height dominantHex
    = None.
Proof.
  intros raw width height dominantHex Hgrey.
  unfold Art.extractHighlightFromRaw.
  set (dR := Js.parseInt16 _). set (dG := Js.parseInt16 _).
  set (dB := Js.parseInt16 _).
  assert (H : forall ixs acc,
             (forall i, In i ixs -> (i < width * height)%nat) ->
             fold_left (Art.highlightStep sqrt pow raw dR dG dB) ixs acc
             = acc).
  { induction ixs as [ | i ixs IH ]; intros acc Hin; [ reflexivity | ].
    cbn [fold_left]. rewrite highlightStep_grey
      by (apply Hgrey, Hin; now left).
    apply IH. intros j Hj. apply Hin. now right. }
  rewrite H; [ reflexivity | ].
  intros i Hi. apply in_seq in Hi. lia.
Qed.

Lemma orLit_valid (o : option string) (d : string) :
  match o with Some c => isHexColor c = true | None => True end ->
  isHexColor d = true -> isHexColor (Js.orLit o d) = true.
Proof.
  destruct o as [ [ | c s ] | ]; cbn [Js.orLit]; intros Ho Hd;
    assumption.
Qed.

Lemma accent_valid (hex : string) :
  isHexColor hex = true -> isHexColor (Art.calculateAccentColor hex) = true.
Proof.
  intros H.
  destruct (valid_colour_channels hex H) as (C1 & C3 & C5).
  pose proof (checked_channel _ _ accent_channels_check C1) as K1.
  pose proof (checked_channel _ _ accent_channels_check C3) as K3.
  pose proof (checked_channel _ _ accent_channels_check C5) as K5.
  cbv beta in K1, K3, K5.
  apply andb_prop in K1 as [V1 _]. apply andb_prop in K3 as [V3 _].
  apply andb_prop in K5 as [V5 _].
  exact (proj1 (printed_colour _ _ _ V1 V3 V5)).
Qed.

Lemma whitened_valid (hex : string) :
  isHexColor hex = true -> isHexColor (Art.blendWithWhite hex 0.10) = true.
Proof.
  intros H.
  destruct (valid_colour_channels hex H) as (C1 & C3 & C5).
  pose proof (checked_channel _ _ whitened_channels_check C1) as K1.
  pose proof (checked_channel _ _ whitened_channels_check C3) as K3.
  pose proof (checked_channel _ _ whitened_channels_check C5) as K5.
  cbv beta in K1, K3, K5.
  apply andb_prop in K1 as [V1 _]. apply andb_prop in K3 as [V3 _].
  apply andb_prop in K5 as [V5 _].
  exact (proj1 (printed_colour _ _ _ V1 V3 V5)).
Qed.

(** X22.  The palette of an art result holds three valid colours as soon
    as the statistics give two: when the rounded channel means and the
    rounded channel maxima both print as valid colours, the dominant
    colour, the accent and the highlight are valid, whatever the raw
    pixels are. *)
Theorem palette_colours_are_valid :
  forall (stats : Art.Stats) (raw : list Byte.byte) (width height : nat)
         (base64 : string),
    isHexColor (Art.extractDominantColor stats) = true ->
    isHexColor (Art.extractHighlightColor stats) = true ->
    let palette :=
      ArtResult.colors
        (Art.artResult sqrt pow stats raw width height base64) in
    isHexColor (ColorPalette.dominant palette) = true
    /\ isHexColor (ColorPalette.accent palette) = true
    /\ isHexColor (ColorPalette.highlight palette) = true.
Proof.
  intros stats raw width height base64 Hdom Hmax palette. subst palette.
  unfold Art.artResult.
  cbn [ArtResult.colors ColorPalette.dominant ColorPalette.accent
       ColorPalette.highlight].
  split; [ exact Hdom | ]. split; [ now apply accent_valid | ].
  apply whitened_valid, orLit_valid; [ | exact Hmax ].
  destruct (Art.extractHighlightFromRaw _ _ _ _ _ _) as [ hex | ] eqn:E;
    [ | exact I ].
  destruct (highlight_found _ _ _ _ _ E) as (i & p & _ & Hc & ->).
  now apply (candidate_colour raw i).
Qed.

End HighlightFacts.

Lemma highlight_is_a_candidate_pixel_witness :
  Markup.isHexColor "#c81e1e" = true
  /\ exists (i : nat) (p : Art.Pixel),
       (i < 1 * 1)%nat /\ Highlight.candidate Demo.redPixel i p
       /\ "#c81e1e" = Highlight.colourOf p.
Proof.
  apply (highlight_is_a_candidate_pixel Demo.sqrt Demo.pow Demo.redPixel
           1 1 "#000000" "#c81e1e").
  vm_compute. reflexivity.
Defined.

Lemma grey_image_has_no_highlight_witness :
  Art.extractHighlightFromRaw Demo.sqrt Demo.pow Demo.greyPixel 1 1
    "#000000"
  = None.
Proof.
  apply (grey_image_has_no_highlight Demo.sqrt Demo.pow Demo.greyPixel 1 1
           "#000000").
  intros i Hi. assert (E : i = 0%nat) by lia. subst i.
  split; reflexivity.
Defined.

Lemma palette_colours_are_valid_witness :
  Markup.isHexColor "#1d2a44" = true
  /\ Markup.isHexColor "#233252" = true
  /\ Markup.isHexColor "#ce3535" = true.
Proof.
  apply (palette_colours_are_valid Demo.sqrt Demo.pow Demo.stats
           Demo.redPixel 1 1 "AAAA"); reflexivity.
Defined.

(** ** More on the server *)

Section ServerFacts.

Variable API_KEY : string.
Variable parseJson : string -> option Json.
Variable stringify : Json -> string.
Variable kvAccepts : Json -> bool.
Variable readThemeFile : string -> option string.
Variable readFontBase64 : string -> option string.
Variable sin : float -> float.
Variable numToString : float -> string.
Variable stringToNumber : string -> float.
Variable now : float.

Let handleRequest :=
  Server.handleRequest API_KEY parseJson stringify kvAccepts readThemeFile
    readFontBase64 sin numToString stringToNumber now.

Lemma headersSet_in (k v : string) (hs : list (string * string)) :
  In (k, v) (Server.headersSet k v hs).
Proof.
  induction hs as [ | [k' v'] hs IH ]; cbn; [ now left | ].
  destruct (String.eqb k' k); [ now left | now right ].
Qed.

Lemma headersSet_keeps (k v k' v' : string) (hs : list (string * string)) :
  k' <> k -> In (k', v') hs -> In (k', v') (Server.headersSet k v hs).
Proof.
  intros Hk. induction hs as [ | [k0 v0] hs IH ]; [ intros [] | ].
  cbn. destruct (String.eqb_spec k0 k) as [-> | Hne].
  - intros [E | Hin]; [ congruence | now right ].
  - intros [E | Hin]; [ now left | right; now apply IH ].
Qed.

Lemma withCors_headers (response : Response.t) (h : string * string) :
  In h Server.corsHeaders ->
  In h (Response.headers (Server.withCors response)).
Proof.
  unfold Server.withCors, Server.corsHeaders.
  cbn [Response.headers fold_left fst snd].
  intros [<- | [<- | [<- | []]]].
  - do 2 (apply headersSet_keeps; [ discriminate | ]). apply headersSet_in.
  - apply headersSet_keeps; [ discriminate | ]. apply headersSet_in.
  - apply headersSet_in.
Qed.

(** The answer of [handleRequest]: the 204 of OPTIONS, the response of
    a handler with the CORS headers set, or the 500 of the [catch] with
    the store as it was. *)
Lemma handleRequest_answer (req : Request.t) (kv : Server.Kv) :
  handleRequest req kv = (Response.mk 204 Server.corsHeaders None, kv)
  \/ (exists (routed : Response.t) (kv' : Server.Kv),
        handleRequest req kv = (Server.withCors routed, kv'))
  \/ handleRequest req kv = (Server.internalServerError, kv).
Proof.
  unfold handleRequest, Server.handleRequest.
  destruct (String.eqb (Request.method req) "OPTIONS"); [ now left | ].
  right.
  destruct (if _ : bool then _ else _) as [ [routed kv'] | ];
    [ left; now exists routed, kv' | now right ].
Qed.

(** X23.  Every response except the 500 of the catch-all carries the
    three CORS headers, the errors 401, 400 and 404 and the answer to
    OPTIONS included. *)
Theorem every_response_has_cors_headers :
  forall (req : Request.t) (kv kv' : Server.Kv) (response : Response.t),
    handleRequest req kv = (response, kv') ->
    Response.status response <> 500%nat ->
    forall h : string * string,
      In h Server.corsHeaders -> In h (Response.headers response).
Proof.
  intros req kv kv' response H Hstatus h Hh.
  destruct (handleRequest_answer req kv)
    as [E | [(routed & kv'' & E) | E]];
    rewrite E in H; injection H as <- _.
  - exact Hh.
  - now apply withCors_headers.
  - now elim Hstatus.
Qed.

(** X24.  The store changes in one way only: a response that leaves the
    store other than it was answers a POST to /api/now-playing whose
    header was accepted and whose body parsed, with status 200, and the
    store then holds the parsed value. *)
Theorem store_changes_only_by_publish :
  forall (req : Request.t) (kv kv' : Server.Kv) (response : Response.t),
    handleRequest req kv = (response, kv') ->
    kv' <> kv ->
    Request.method req = "POST"
    /\ Request.pathname req = "/api/now-playing"
    /\ Server.validateAuth API_KEY req = true
    /\ Response.status response = 200%nat
    /\ exists value : Json,
         parseJson (Request.body req) = Some value /\ kv' = Some value.
Proof.
  intros req kv kv' response H Hkv.
  unfold handleRequest, Server.handleRequest in H.
  destruct (String.eqb (Request.method req) "OPTIONS");
    [ injection H as _ E; congruence | ].
  destruct (_ && _) in H.
  { destruct (Server.handleGetSvg _ _ _ _ _ _ _ _ _) in H;
      injection H as _ E; congruence. }
  destruct (_ && _) in H.
  { destruct (Server.handleGetPreview _ _ _ _ _ _ _ _ _) in H;
      injection H as _ E; congruence. }
  destruct (String.eqb_spec (Request.pathname req) "/api/now-playing")
    as [Hp | Hp]; cbn [andb] in H.
  - destruct (String.eqb_spec (Request.method req) "POST") as [Hm | Hm].
    + unfold Server.handlePostNowPlaying, Server.storeNowPlaying in H.
      destruct (Server.validateAuth API_KEY req) eqn:Hauth; cbn [negb] in H;
        [ | injection H as _ E; congruence ].
      destruct (parseJson (Request.body req)) as [ value | ] eqn:Hbody;
        [ | injection H as _ E; congruence ].
      destruct (kvAccepts value);
        [ | injection H as _ E; congruence ].
      injection H as <- <-. repeat split; try assumption.
      now exists value.
    + destruct (String.eqb (Request.method req) "GET");
        [ injection H as _ E; congruence | ].
      destruct (String.eqb (Request.pathname req) "/");
        injection H as _ E; congruence.
  - destruct (String.eqb (Request.pathname req) "/");
      injection H as _ E; congruence.
Qed.

(** X25.  What is published is what is read: when a POST to
    /api/now-playing is answered 200, its body parsed to a value that
    the store now holds, and a GET of /api/now-playing is answered 200
    with the JSON text of that value and leaves the store as it is. *)
Theorem published_value_is_read_back :
  forall (post get : Request.t) (kv kv' : Server.Kv)
         (posted : Response.t),
    Request.method post = "POST" ->
    Request.pathname post = "/api/now-playing" ->
    handleRequest post kv = (posted, kv') ->
    Response.status posted = 200%nat ->
    Request.method get = "GET" ->
    Request.pathname get = "/api/now-playing" ->
    exists (value : Json) (read : Response.t),
      parseJson (Request.body post) = Some value
      /\ kvAccepts value = true
      /\ kv' = Some value
      /\ handleRequest get kv' = (read, kv')
      /\ Response.status read = 200%nat
      /\ Response.body read = Some (stringify value)
      /\ In ("Content-Type", "application/json") (Response.headers read).
Proof.
  intros post get kv kv' posted Hm Hp Hposted Hstatus Hgm Hgp.
  unfold handleRequest in Hposted.
  rewrite (route_publish API_KEY parseJson stringify kvAccepts
             readThemeFile readFontBase64 sin numToString stringToNumber
             now post kv Hm Hp) in Hposted.
  unfold Server.handlePostNowPlaying, Server.storeNowPlaying in Hposted.
  destruct (Server.validateAuth API_KEY post); cbn [negb] in Hposted;
    [ | injection Hposted as <- _; discriminate Hstatus ].
  destruct (parseJson (Request.body post)) as [ value | ];
    [ | injection Hposted as <- _; discriminate Hstatus ].
  destruct (kvAccepts value) eqn:Hstore;
    [ | injection Hposted as <- _; discriminate Hstatus ].
  injection Hposted as _ <-.
  exists value. eexists. repeat split; [ exact Hstore | | | | ].
  - unfold handleRequest, Server.handleRequest. rewrite Hgm, Hgp.
    reflexivity.
  - reflexivity.
  - reflexivity.
  - cbn. now left.
Qed.

End ServerFacts.

Lemma every_response_has_cors_headers_witness :
  exists (response : Response.t) (kv' : Server.Kv),
    Sample.handleRequest Demo.anonymousPublish None = (response, kv')
    /\ Response.status response = 401%nat
    /\ In ("Access-Control-Allow-Origin", "*") (Response.headers response)
    /\ In ("Access-Control-Allow-Methods", "GET, POST, OPTIONS")
         (Response.headers response)
    /\ In ("Access-Control-Allow-Headers", "Authorization, Content-Type")
         (Response.headers response).
Proof.
  eexists. eexists. split; [ reflexivity | ]. split; [ reflexivity | ].
  repeat split;
    apply (every_response_has_cors_headers Sample.API_KEY Sample.parseJson
             Sample.stringify Sample.kvAccepts Sample.readThemeFile
             Sample.readFontBase64 Sample.sin Sample.numToString
             Sample.stringToNumber Sample.freshNow
             Demo.anonymousPublish None None _ eq_refl);
    cbn; (discriminate || tauto).
Defined.

Lemma store_changes_only_by_publish_witness :
  Request.method (Sample.publish "null") = "POST"
  /\ Request.pathname (Sample.publish "null") = "/api/now-playing"
  /\ Server.validateAuth Sample.API_KEY (Sample.publish "null") = true
  /\ Response.status
       (Server.withCors
          (Response.mk 200 Server.jsonHeaders (Some Markup.successBody)))
     = 200%nat
  /\ exists value : Json,
       Sample.parseJson (Request.body (Sample.publish "null")) = Some value
       /\ Some JNull = Some value.
Proof.
  apply (store_changes_only_by_publish Sample.API_KEY Sample.parseJson
           Sample.stringify Sample.kvAccepts Sample.readThemeFile
           Sample.readFontBase64 Sample.sin Sample.numToString
           Sample.stringToNumber Sample.freshNow
           (Sample.publish "null") (Some Sample.storedSnapshot) (Some JNull)
           (Server.withCors
              (Response.mk 200 Server.jsonHeaders
                 (Some Markup.successBody)))).
  - reflexivity.
  - discriminate.
Defined.

Lemma published_value_is_read_back_witness :
  exists (value : Json) (read : Response.t),
    Sample.parseJson (Request.body (Sample.publish "[]")) = Some value
    /\ Sample.kvAccepts value = true
    /\ Some (JArr []) = Some value
    /\ Sample.handleRequest Demo.readNowPlaying (Some (JArr []))
       = (read, Some (JArr []))
    /\ Response.status read = 200%nat
    /\ Response.body read = Some (Sample.stringify value)
    /\ In ("Content-Type", "application/json") (Response.headers read).
Proof.
  apply (published_value_is_read_back Sample.API_KEY Sample.parseJson
           Sample.stringify Sample.kvAccepts Sample.readThemeFile
           Sample.readFontBase64 Sample.sin Sample.numToString
           Sample.stringToNumber Sample.freshNow
           (Sample.publish "[]") Demo.readNowPlaying None (Some (JArr []))
           (Server.withCors
              (Response.mk 200 Server.jsonHeaders
                 (Some Markup.successBody))));
    reflexivity.
Defined.

Section FileNames.

Variable parseJson : string -> option Json.

Lemma matchesClass_chars (cls : ascii -> bool) (s : string) (c : ascii) :
  Server.matchesClass cls s = true ->
  In c (list_ascii_of_string s) -> cls c = true.
Proof.
  unfold Server.matchesClass. destruct s as [ | x s ]; [ discriminate | ].
  intros H Hin. rewrite forallb_forall in H. now apply H.
Qed.

Lemma theme_name_safe (name : string) :
  Server.THEME_NAME_PATTERN name = true ->
  name <> EmptyString
  /\ forall c, In c (list_ascii_of_string name) ->
       c <> "/"%char /\ c <> "."%char.
Proof.
  intros H. split; [ now destruct name | ].
  intros c Hc. pose proof (matchesClass_chars _ _ c H Hc) as Hcls.
  repeat split; intros ->; discriminate.
Qed.

Lemma font_name_safe (name : string) :
  Server.FONT_FILE_PATTERN name = true ->
  name <> EmptyString
  /\ forall c, In c (list_ascii_of_string name) ->
       c <> "/"%char.
Proof.
  intros H. split; [ now destruct name | ].
  intros c Hc. pose proof (matchesClass_chars _ _ c H Hc) as Hcls.
  repeat split; intros ->; discriminate.
Qed.

Lemma loadTheme_ext (rt1 rt2 : string -> option string) (name : string) :
  (forall n, Server.THEME_NAME_PATTERN n = true -> rt1 n = rt2 n) ->
  Server.loadTheme parseJson rt1 name = Server.loadTheme parseJson rt2 name.
Proof.
  intros H. unfold Server.loadTheme.
  destruct (Server.THEME_NAME_PATTERN name) eqn:E; [ | reflexivity ].
  cbn [negb]. now rewrite (H name E).
Qed.

Lemma loadFontData_ext (rf1 rf2 : string -> option string) (name : string) :
  (forall n, Server.FONT_FILE_PATTERN n = true -> rf1 n = rf2 n) ->
  Server.loadFontData rf1 name = Server.loadFontData rf2 name.
Proof.
  intros H. unfold Server.loadFontData.
  destruct (Server.FONT_FILE_PATTERN name) eqn:E; [ | reflexivity ].
  cbn [negb]. now rewrite (H name E).
Qed.

(** X26.  The query cannot reach a file outside the theme and font
    directories: the configuration built for a request depends on the
    theme files only at non-empty names without [/] and [.], and on the
    font files only at non-empty names without [/]. *)
Theorem config_reads_only_plain_file_names :
  forall (themes1 themes2 fonts1 fonts2 : string -> option string)
         (params : list (string * string)),
    (forall name,
        name <> EmptyString ->
        (forall c, In c (list_ascii_of_string name) ->
           c <> "/"%char /\ c <> "."%char) ->
        themes1 name = themes2 name) ->
    (forall name,
        name <> EmptyString ->
        (forall c, In c (list_ascii_of_string name) ->
           c <> "/"%char) ->
        fonts1 name = fonts2 name) ->
    Server.buildSvgConfig parseJson themes1 fonts1 params
    = Server.buildSvgConfig parseJson themes2 fonts2 params.
Proof.
  intros themes1 themes2 fonts1 fonts2 params Ht Hf.
  assert (Ht' : forall n, Server.THEME_NAME_PATTERN n = true ->
                  themes1 n = themes2 n).
  { intros n Hn. destruct (theme_name_safe n Hn). now apply Ht. }
  assert (Hf' : forall n, Server.FONT_FILE_PATTERN n = true ->
                  fonts1 n = fonts2 n).
  { intros n Hn. destruct (font_name_safe n Hn). now apply Hf. }
  unfold Server.buildSvgConfig.
  rewrite (loadTheme_ext themes1 themes2 _ Ht').
  rewrite !(loadFontData_ext fonts1 fonts2 _ Hf').
  reflexivity.
Qed.

Variable readThemeFile : string -> option string.
Variable readFontBase64 : string -> option string.

(** X27.  Only the theme decides the size and the colours of the card:
    two queries that name the same theme give configurations with the
    same width, height, album size, border radius, the same five colours
    and the same fallback font, whatever else they ask for. *)
Theorem query_changes_no_size_or_colour :
  forall params params' : list (string * string),
    Server.paramsGet "theme" params = Server.paramsGet "theme" params' ->
    let config :=
      Server.buildSvgConfig parseJson readThemeFile readFontBase64 params in
    let config' :=
      Server.buildSvgConfig parseJson readThemeFile readFontBase64 params' in
    SvgConfig.width config = SvgConfig.width config'
    /\ SvgConfig.height config = SvgConfig.height config'
    /\ SvgConfig.albumSize config = SvgConfig.albumSize config'
    /\ SvgConfig.borderRadius config = SvgConfig.borderRadius config'
    /\ SvgConfig.cardBackground config = SvgConfig.cardBackground config'
    /\ SvgConfig.cardBorder config = SvgConfig.cardBorder config'
    /\ SvgConfig.textPrimary config = SvgConfig.textPrimary config'
    /\ SvgConfig.textSecondary config = SvgConfig.textSecondary config'
    /\ SvgConfig.textMuted config = SvgConfig.textMuted config'
    /\ SvgConfig.fontFallback config = SvgConfig.fontFallback config'.
Proof.
  intros params params' H config config'. subst config config'.
  unfold Server.buildSvgConfig. rewrite H.
  cbn [SvgConfig.width SvgConfig.height SvgConfig.albumSize
       SvgConfig.borderRadius SvgConfig.cardBackground SvgConfig.cardBorder
       SvgConfig.textPrimary SvgConfig.textSecondary SvgConfig.textMuted
       SvgConfig.fontFallback].
  repeat split.
Qed.

End FileNames.

Section Keys.

(** X28.  [validateAuth] accepts exactly the header [Bearer <key>] when
    the key has no space, and no header at all when the key has one: a
    server configured with such a key refuses every publish. *)
Theorem validateAuth_accepts_exactly_the_bearer_header :
  forall (API_KEY : string) (req : Request.t),
    (~ In " "%char (list_ascii_of_string API_KEY) ->
     (Server.validateAuth API_KEY req = true
      <-> Request.authorization req = Some ("Bearer " ++ API_KEY)))
    /\ (In " "%char (list_ascii_of_string API_KEY) ->
        Server.validateAuth API_KEY req = false).
Proof.
  intros API_KEY req. split.
  - intros Hkey. split; [ apply validateAuth_header | ].
    apply validateAuth_accepts. apply forallb_forall.
    intros c Hc. apply negb_true_iff, Ascii.eqb_neq. intros ->. now apply Hkey.
  - intros Hkey. unfold Server.validateAuth.
    destruct (Request.authorization req) as [ [ | c auth ] | ];
      try reflexivity.
    pose proof (split_parts_no_sep " " (String c auth)) as Hparts.
    destruct (Js.split " " (String c auth)) as [ | p0 [ | p1 [ | p2 ps ] ] ];
      try reflexivity.
    destruct (String.eqb_spec p1 API_KEY) as [-> | Hne];
      [ | now rewrite andb_false_r ].
    exfalso. apply (Hparts API_KEY); [ right; now left | exact Hkey ].
Qed.

End Keys.

Lemma config_reads_only_plain_file_names_witness :
  Server.buildSvgConfig Sample.parseJson Demo.outsideThemes
    Demo.outsideFonts
    [ ("theme", "../secret"); ("fontTitle", "../fonts/secret.ttf") ]
  = Server.buildSvgConfig Sample.parseJson Sample.readThemeFile
      Sample.readFontBase64
      [ ("theme", "../secret"); ("fontTitle", "../fonts/secret.ttf") ].
Proof.
  apply (config_reads_only_plain_file_names Sample.parseJson
           Demo.outsideThemes Sample.readThemeFile Demo.outsideFonts
           Sample.readFontBase64).
  - intros name _ Hname. unfold Demo.outsideThemes.
    destruct (String.eqb_spec name "../secret") as [-> | _];
      [ | reflexivity ].
    exfalso. apply (proj1 (Hname "/"%char ltac:(cbn; tauto))). reflexivity.
  - intros name _ Hname. unfold Demo.outsideFonts.
    destruct (String.eqb_spec name "../fonts/secret.ttf") as [-> | _];
      [ | reflexivity ].
    exfalso. apply (Hname "/"%char ltac:(cbn; tauto)). reflexivity.
Defined.

Lemma query_changes_no_size_or_colour_witness :
  SvgConfig.width
    (Server.buildSvgConfig Sample.parseJson Sample.readThemeFile
       Sample.readFontBase64 [ ("align", "center"); ("width", "20") ])
  = SvgConfig.width
      (Server.buildSvgConfig Sample.parseJson Sample.readThemeFile
         Sample.readFontBase64 []).
Proof.
  apply (query_changes_no_size_or_colour Sample.parseJson
           Sample.readThemeFile Sample.readFontBase64
           [ ("align", "center"); ("width", "20") ] []).
  reflexivity.
Defined.

Lemma validateAuth_accepts_exactly_the_bearer_header_witness :
  (Server.validateAuth "devkey" (Sample.publish "null") = true
   <-> Request.authorization (Sample.publish "null")
       = Some ("Bearer " ++ "devkey"))
  /\ Server.validateAuth "dev key"
       (Request.mk "POST" "/api/now-playing" [] (Some "Bearer dev key")
          "null")
     = false.
Proof.
  split.
  - apply (proj1 (validateAuth_accepts_exactly_the_bearer_header "devkey"
                    (Sample.publish "null"))).
    cbn. intuition discriminate.
  - apply (proj2 (validateAuth_accepts_exactly_the_bearer_header "dev key"
                    (Request.mk "POST" "/api/now-playing" []
                       (Some "Bearer dev key") "null"))).
    cbn. tauto.
Defined.

(** ** More on the card *)

(** Membership of a chunk in a template, the chunk being written as it is
    in the template. *)
Ltac same_chunk :=
  repeat lazymatch goal with
         | |- In ?p (?q :: _) =>
             first [ constr_eq p q; apply in_eq | apply in_cons ]
         end.

Section CardFacts.

Import Markup.

Variable sin : float -> float.
Variable numToString : float -> string.

Local Open Scope float_scope.

(** The card holds its text content and its album art. *)
Lemma card_holds_textContent (now : float) (data : option NowPlayingData.t)
    (config : SvgConfig.t) (x : string) :
  occurs x (Svg.textContent numToString now data config) ->
  occurs x (Svg.generateNowPlayingSvg sin numToString now data config).
Proof.
  intros H. unfold Svg.generateNowPlayingSvg.
  eapply occurs_cat; [ | exact H ]. same_chunk.
Qed.


Lemma statusPill_fresh (now : float) (d : NowPlayingData.t)
    (config : SvgConfig.t) :
  Svg.isStale now (Some d) = false ->
  occurs (pillText (if String.eqb (NowPlayingData.status d) "playing"
                    then "NOW PLAYING" else "PAUSED"))
    (Svg.statusPill numToString now (Some d) config).
Proof.
  intros Hfresh. unfold Svg.statusPill, pillText, Svg.isPlaying.
  rewrite Hfresh, andb_true_r.
  destruct (String.eqb (NowPlayingData.status d) "playing"); find_chunks.
Qed.

(** X29.  A fresh snapshot, rendered with the status line visible, shows
    the pill text NOW PLAYING when its status is ["playing"] and PAUSED
    when its status is ["paused"]. *)
Theorem fresh_snapshot_shows_its_status :
  forall (now : float) (d : NowPlayingData.t) (config : SvgConfig.t),
    Svg.isStale now (Some d) = false ->
    SvgConfig.showStatus config = true ->
    (NowPlayingData.status d = "playing" ->
     occurs (pillText "NOW PLAYING")
       (Svg.generateNowPlayingSvg sin numToString now (Some d) config))
    /\ (NowPlayingData.status d = "paused" ->
        occurs (pillText "PAUSED")
          (Svg.generateNowPlayingSvg sin numToString now (Some d) config)).
Proof.
  intros now d config Hfresh Hshow.
  assert (H : NowPlayingData.status d = "playing"
              \/ NowPlayingData.status d = "paused" ->
              occurs (pillText (if String.eqb (NowPlayingData.status d)
                                     "playing"
                                then "NOW PLAYING" else "PAUSED"))
                (Svg.generateNowPlayingSvg sin numToString now (Some d)
                   config)).
  { intros Hstatus. apply card_holds_textContent.
    unfold Svg.textContent.
    rewrite (fresh_hasTrack now d Hfresh Hstatus).
    unfold Svg.trackText. rewrite Hshow.
    eapply occurs_cat; [ | apply statusPill_fresh, Hfresh ]. chunk. }
  split; intros E; specialize (H ltac:(tauto)); rewrite E in H; exact H.
Qed.



End CardFacts.

Lemma fresh_snapshot_shows_its_status_witness :
  Markup.occurs (Markup.pillText "NOW PLAYING")
    (Svg.generateNowPlayingSvg Sample.sin Sample.numToString
       Sample.freshNow (Some Sample.snapshot) defaultSvgConfig)
  /\ Markup.occurs (Markup.pillText "PAUSED")
       (Svg.generateNowPlayingSvg Sample.sin Sample.numToString
          Sample.freshNow (Some Demo.pausedSnapshot) defaultSvgConfig).
Proof.
  split.
  - apply (proj1 (fresh_snapshot_shows_its_status Sample.sin
                    Sample.numToString Sample.freshNow Sample.snapshot
                    defaultSvgConfig eq_refl eq_refl)).
    reflexivity.
  - apply (proj2 (fresh_snapshot_shows_its_status Sample.sin
                    Sample.numToString Sample.freshNow Demo.pausedSnapshot
                    defaultSvgConfig eq_refl eq_refl)).
    reflexivity.
Defined.

